(** * Deck renderer: a shallow embedding of the two slide generators

    The repository holds two generators:
    - [src/slides/generate_slides.py] (module [Slides] below): the document
      emitter [generate_pptx] and the raster previewer [render_preview],
      driven by [main];
    - [src/generate_slides.py] (module [Root] below): an older generator
      with one text frame per slide.

    Python [str] values are lists of Unicode code points, Python [int]s are
    [Z], lengths in EMU are [Z].  The drawing libraries are modelled by the
    list of primitives a function emits, in the order of the calls.  What
    the operating system and the font engine decide (which files exist,
    whether a font or a picture loads, how wide a text is) is gathered in
    the class [Platform]. *)

From stdpp Require Import base list strings gmap sets sorting lexico.
From Stdlib Require Import ZArith QArith Qround.
Close Scope Q_scope.
Local Open Scope Z_scope.

(** ** Python strings *)

Module PyStr.

Definition char := N.
Definition str := list N.

(** UTF-8 decoding, used only to write the source's literals. *)
Fixpoint utf8_decode (bs : list N) : str :=
  match bs with
  | [] => []
  | b :: rest =>
    if (b <? 0x80)%N then b :: utf8_decode rest
    else if (b <? 0xE0)%N then
      match rest with
      | b1 :: r => ((b - 0xC0) * 64 + (b1 - 0x80))%N :: utf8_decode r
      | _ => []
      end
    else if (b <? 0xF0)%N then
      match rest with
      | b1 :: b2 :: r =>
        ((b - 0xE0) * 4096 + (b1 - 0x80) * 64 + (b2 - 0x80))%N :: utf8_decode r
      | _ => []
      end
    else
      match rest with
      | b1 :: b2 :: b3 :: r =>
        ((b - 0xF0) * 262144 + (b1 - 0x80) * 4096 + (b2 - 0x80) * 64
         + (b3 - 0x80))%N :: utf8_decode r
      | _ => []
      end
  end.

Definition py (s : string) : str :=
  utf8_decode (Ascii.N_of_ascii <$> String.list_ascii_of_string s).

(** [str.isspace] on one code point: the characters [str.split()] and
    [str.strip()] treat as whitespace. *)
Definition isspace (c : char) : bool :=
  ((0x09 <=? c) && (c <=? 0x0D) || (0x1C <=? c) && (c <=? 0x20)
   || (c =? 0x85) || (c =? 0xA0) || (c =? 0x1680)
   || (0x2000 <=? c) && (c <=? 0x200A)
   || (c =? 0x2028) || (c =? 0x2029) || (c =? 0x202F) || (c =? 0x205F)
   || (c =? 0x3000))%N.

(** Truth value of a string or of a list: non-empty. *)
Definition truthy {A} (s : list A) : bool :=
  match s with [] => false | _ => true end.

Definition flush (acc : str) : list str :=
  if truthy acc then [acc] else [].

(** [s.split()]: maximal runs of non-whitespace characters. [acc] is the
    run being read. *)
Fixpoint split_go (acc : str) (s : str) : list str :=
  match s with
  | [] => flush acc
  | c :: s' =>
    if isspace c then flush acc ++ split_go [] s'
    else split_go (acc ++ [c]) s'
  end.

Definition split (s : str) : list str := split_go [] s.

Fixpoint lstrip (s : str) : str :=
  match s with
  | c :: s' => if isspace c then lstrip s' else s
  | [] => []
  end.

Definition rstrip (s : str) : str := reverse (lstrip (reverse s)).

(** [s.strip()] *)
Definition strip (s : str) : str := rstrip (lstrip s).

(** [s.startswith(p)] *)
Fixpoint startswith (s p : str) : bool :=
  match p, s with
  | [], _ => true
  | c :: p', d :: s' => (c =? d)%N && startswith s' p'
  | _ :: _, [] => false
  end.

(** Comparison of strings is by code points, left to right; [a <= b] is
    what [sorted] uses through [<]. *)
Definition str_le (a b : str) : Prop := lexico a b ∨ a = b.

(** A word: what [split] returns, non-empty and free of whitespace. *)
Definition is_word (w : str) : Prop :=
  w ≠ [] ∧ Forall (λ c, isspace c = false) w.

Definition SPACE : str := [0x20%N].
Definition BULLET : str := [0x2022%N].

End PyStr.
Export PyStr.

(** ** The presentation library (python-pptx) *)

(** [RGBColor(r, g, b)] *)
Definition RGBColor (r g b : Z) : Z * Z * Z := (r, g, b).

(** [Inches(x)] is [int(x * 914400)], a length in EMU.  The product is taken
    here over the rationals; on every constant of the two scripts the
    double-precision product truncates to the same integer. *)
Definition Inches (x : Q) : Z := Qfloor (x * 914400).

(** [Pt(x)] for an integral number of points. *)
Definition Pt (x : Z) : Z := x * 12700.

Inductive PP_ALIGN := LEFT | CENTER | RIGHT.

(** A run of a paragraph with the font attributes the scripts set; an
    attribute left alone is [None]. *)
Record run := {
  run_text : str;
  font_name : option str;
  font_size : option Z;
  font_bold : option bool;
  font_italic : option bool;
  font_color : option (Z * Z * Z)
}.

Record paragraph := {
  alignment : option PP_ALIGN;
  space_before : option Z;
  runs : list run
}.

(** The shapes a slide receives: [add_textbox], [add_shape(1, ...)] (a
    rectangle, solid fill, no outline) and [add_picture]. *)
Inductive shape :=
| textbox (left top width height : Z) (word_wrap : bool)
    (paragraphs : list paragraph)
| rectangle_shape (left top width height : Z) (fill_rgb : Z * Z * Z)
| picture (image_file : str) (left top width height : Z).

Record slide := {
  background : Z * Z * Z;
  shapes : list shape
}.

Record Presentation := {
  slide_width : Z;
  slide_height : Z;
  slides : list slide
}.

(** ** The imaging library (Pillow) *)

Inductive font :=
| TrueType (path : str) (size : Z)
| DefaultFont.

(** A colour tuple, three or four components. *)
Definition color := list Z.

(** The calls on an [ImageDraw] object, with the defaults of the library
    for the arguments the scripts leave out. *)
Inductive draw_op :=
| rectangle (x0 y0 x1 y1 : Z) (fill outline : option color) (width : Z)
| ellipse (x0 y0 x1 y1 : Z) (fill : color)
| line (x0 y0 x1 y1 : Z) (fill : color) (width : Z)
| text (x y : Z) (s : str) (f : font) (fill : color) (anchor : option str)
| paste (x y w h : Z) (image_file : str).

Record Image := {
  img_width : Z;
  img_height : Z;
  img_background : color;
  img_ops : list draw_op
}.

(** ** What the run observes of its machine *)

Class Platform := {
  (** [os.path.exists], [Path.exists] *)
  path_exists : str → bool;
  (** whether [ImageFont.truetype(path, size)] returns a font; otherwise it
      raises [OSError] *)
  truetype_loads : str → Z → bool;
  (** [draw.textbbox((0, 0), s, font=f)]: left, top, right, bottom *)
  textbbox : font → str → Z * Z * Z * Z;
  (** whether [add_picture] accepts an existing file; otherwise it raises *)
  picture_loads : str → bool;
  (** opening, converting and resizing the logo for a preview: its size,
      or the message of the exception raised on the way *)
  open_logo : str → str + Z * Z;
  (** the directory that holds [docs/] *)
  REPO_ROOT : str
}.

(** [a / b] on paths, [os.path.join(a, b)] *)
Definition path_join (a b : str) : str :=
  if startswith b (py "/") then b else a ++ py "/" ++ b.

(** What a run does to the outside, in order. *)
Inductive event :=
| SavePptx (path : str) (prs : Presentation)
| Mkdir (path : str)
| SavePng (path : str) (img : Image)
| Print (out : str).

(** ** [src/slides/generate_slides.py] *)

Module Slides.

(** *** Constants *)

Definition PRIMARY := RGBColor 0x11 0x18 0x27.
Definition ACCENT := RGBColor 0x25 0x63 0xEB.
Definition WHITE := RGBColor 0xFF 0xFF 0xFF.
Definition LIGHT_GRAY := RGBColor 0xF3 0xF4 0xF6.

Definition FONT_NAME : str := py "Calibri".
Definition TITLE_PT := 40.
Definition BODY_PT := 24.
Definition FOOTER_PT := 12.
Definition CALLOUT_PT := 18.

Definition FOOTER_TEXT : str :=
  py "Inspektor Gadget MCP Server  •  " ++
  py "https://github.com/inspektor-gadget/ig-mcp-server".

Definition SLIDE_W := Inches 13.33.
Definition SLIDE_H := Inches 7.5.

Definition OUT_PPTX `{Platform} : str :=
  path_join REPO_ROOT (py "Ask_and_You_Shall_Debug_SCaLE.pptx").
Definition PREVIEWS_DIR `{Platform} : str :=
  path_join (path_join REPO_ROOT (py "docs")) (py "previews").

Definition PX_W := 1280.
Definition PX_H := 720.

(** [_hex("111827")], [_hex("2563EB")] and the literal tuples *)
Definition C_PRIMARY : color := [0x11; 0x18; 0x27].
Definition C_ACCENT : color := [0x25; 0x63; 0xEB].
Definition C_WHITE : color := [255; 255; 255].
Definition C_LIGHT_GRAY : color := [243; 244; 246].
Definition C_MID_GRAY : color := [156; 163; 175].

(** *** Slide data

    A descriptor always carries its id, layout and title (the scripts
    index them); the keys read with [.get] may be absent. *)

Record image_info := {
  im_path : str;
  im_caption : option str;
  im_optional : option bool
}.

Record meta_info := {
  right_corner : option (list str)
}.

Record slide_data := {
  sd_id : str;
  sd_layout : str;
  sd_title : str;
  sd_subtitle : option str;
  sd_meta : option meta_info;
  sd_bullets : option (list str);
  sd_callouts : option (list str);
  sd_images : option (list image_info)
}.

Definition SLIDES : list slide_data :=
  [
    {| sd_id := py "title";
       sd_layout := py "title";
       sd_title := py "Ask and You Shall Debug:";
       sd_subtitle := Some (py "Conversational Troubleshooting for Kubernetes");
       sd_meta := Some {| right_corner := Some [py "SCaLE"] |};
       sd_bullets := None;
       sd_callouts := None;
       sd_images := None |};
    {| sd_id := py "why-and-setup";
       sd_layout := py "title_and_bullets";
       sd_title := py "Why conversational troubleshooting?";
       sd_subtitle := None;
       sd_meta := None;
       sd_bullets := Some [
         py "Incidents are time-sensitive and cognitively expensive";
         py "Troubleshooting often requires many tools + exact commands";
         py "Goal: make real-time observability accessible via natural language";
         py "We'll follow an on-call story and resolve multiple scenarios"
       ];
       sd_callouts := None;
       sd_images := None |};
    {| sd_id := py "agenda";
       sd_layout := py "title_and_bullets";
       sd_title := py "Agenda";
       sd_subtitle := None;
       sd_meta := None;
       sd_bullets := Some [
         py "Demo 1: DNS latency (trace_dns)";
         py "Zoom out: Inspektor Gadget + gadgets";
         py "Why MCP server (and how it fits)";
         py "Mini-demos: disk pressure, CPU saturation, networking misconfig";
         py "Wrap-up + resources"
       ];
       sd_callouts := None;
       sd_images := None |};
    {| sd_id := py "scenario-1-dns-symptoms";
       sd_layout := py "title_and_bullets";
       sd_title := py "Scenario 1: Slow requests → DNS latency";
       sd_subtitle := None;
       sd_meta := None;
       sd_bullets := Some [
         py "Symptom: intermittent slowness / timeouts";
         py "Hypothesis space is large (DNS, network, app, load, etc.)";
         py "We start by validating whether DNS resolution is slow";
         py "Tool we'll use: trace_dns"
       ];
       sd_callouts := Some [py "Key idea: measure, don't guess."];
       sd_images := None |};
    {| sd_id := py "scenario-1-dns-trace";
       sd_layout := py "title_and_bullets";
       sd_title := py "Using trace_dns to observe DNS in real time";
       sd_subtitle := None;
       sd_meta := None;
       sd_bullets := Some [
         py "trace_dns traces DNS requests and responses";
         py "It captures request/response pairs and computes latency";
         py "Use it to identify slow lookups and affected workloads";
         py "Outcome: narrow the problem quickly and objectively"
       ];
       sd_callouts := None;
       sd_images := Some
         [ {| im_path := py "docs/media/placeholder_trace_dns.png";
            im_caption := Some (py "trace_dns output / table");
            im_optional := Some true |} ] |};
    {| sd_id := py "zoom-out-what-is-ig";
       sd_layout := py "title_and_bullets";
       sd_title := py "What is Inspektor Gadget?";
       sd_subtitle := None;
       sd_meta := None;
       sd_bullets := Some [
         py "A systems inspection + data collection framework powered by eBPF";
         py "Provides observability in Kubernetes and Linux contexts";
         py "Ships a wide selection of “gadgets” for debugging and monitoring";
         py "Designed to make low-level visibility usable in familiar workflows"
       ];
       sd_callouts := None;
       sd_images := None |};
    {| sd_id := py "what-is-a-gadget";
       sd_layout := py "title_and_bullets";
       sd_title := py "What is a “gadget”?";
       sd_subtitle := None;
       sd_meta := None;
       sd_bullets := Some [
         py "A purpose-built observability tool (trace / snapshot / top / profile)";
         py "Examples we'll use today:";
         py "• trace_dns (DNS requests/responses + latency)";
         py "• profile_blockio + top_blockio (disk pressure / block I/O)";
         py "• top_process (CPU-heavy processes)";
         py "• tcpdump (packet capture with filters in container context)"
       ];
       sd_callouts := None;
       sd_images := None |};
    {| sd_id := py "why-mcp";
       sd_layout := py "title_and_bullets";
       sd_title := py "Problem: many gadgets → hard to choose";
       sd_subtitle := None;
       sd_meta := None;
       sd_bullets := Some [
         py "Inspektor Gadget has a large library of powerful gadgets";
         py "In an incident, picking the *right* gadget quickly is the hard part";
         py "Teams end up memorizing commands, or reaching for familiar tools first";
         py "We wanted: “describe the symptom → get the right tool + next step”"
       ];
       sd_callouts := Some [py "This is where we discovered MCP."];
       sd_images := None |};
    {| sd_id := py "what-is-mcp";
       sd_layout := py "title_and_bullets";
       sd_title := py "What is MCP (Model Context Protocol)?";
       sd_subtitle := None;
       sd_meta := None;
       sd_bullets := Some [
         py "A standard way for an LLM to call external tools in a structured, safe way";
         py "Tools are exposed with names + schemas (inputs/outputs are predictable)";
         py "Lets the model choose actions (run tools) and then explain results";
         py "In our case: the tools are Inspektor Gadget gadgets via ig-mcp-server"
       ];
       sd_callouts := Some [py "MCP turns “chat” into “chat + actions” (tool calls)."];
       sd_images := None |};
    {| sd_id := py "architecture-high-level";
       sd_layout := py "title_and_bullets";
       sd_title := py "High-level architecture";
       sd_subtitle := None;
       sd_meta := None;
       sd_bullets := Some [
         py "Copilot/LLM ↔ MCP protocol ↔ ig-mcp-server ↔ Inspektor Gadget gadgets";
         py "Gadgets provide real-time signals; LLM turns signals into next steps";
         py "MCP server transports: stdio / sse / streamable-http";
         py "Gadget discovery: Artifact Hub or explicit gadget images"
       ];
       sd_callouts := None;
       sd_images := Some
         [ {| im_path := py "docs/media/placeholder_architecture.png";
            im_caption := Some (py "LLM → MCP → IG MCP server → IG gadgets");
            im_optional := Some true |} ] |};
    {| sd_id := py "human-vs-ai";
       sd_layout := py "title_and_bullets";
       sd_title := py "Human vs. AI troubleshooting";
       sd_subtitle := None;
       sd_meta := None;
       sd_bullets := Some [
         py "Humans: hypothesis-driven, sequential, bias-prone under pressure";
         py "LLM + real-time tools: broader search, more consistent method";
         py "Best results come from collaboration (human judgment + machine speed)";
         py "Guardrail: confirm findings with observable evidence"
       ];
       sd_callouts := None;
       sd_images := None |};
    {| sd_id := py "scenario-2-disk-pressure";
       sd_layout := py "title_and_bullets";
       sd_title := py "Scenario 2: Disk pressure";
       sd_subtitle := None;
       sd_meta := None;
       sd_bullets := Some [
         py "Symptom: disk pressure alerts, slow writes, cascading failures";
         py "Identify which workloads drive I/O and what patterns are present";
         py "Gadgets:";
         py "• profile_blockio (profiling block I/O behavior)";
         py "• top_blockio (top block I/O contributors)"
       ];
       sd_callouts := None;
       sd_images := Some
         [ {| im_path := py "docs/media/placeholder_blockio.png";
            im_caption := Some (py "profile_blockio / top_blockio output");
            im_optional := Some true |} ] |};
    {| sd_id := py "scenario-3-cpu";
       sd_layout := py "title_and_bullets";
       sd_title := py "Scenario 3: CPU saturation";
       sd_subtitle := None;
       sd_meta := None;
       sd_bullets := Some [
         py "Symptom: high latency + throttling + noisy neighbor suspicion";
         py "Goal: identify CPU-heavy processes in the relevant workload context";
         py "Gadget: top_process";
         py "Optional deeper profiling exists: profile_cpu"
       ];
       sd_callouts := None;
       sd_images := None |};
    {| sd_id := py "scenario-4-networking";
       sd_layout := py "title_and_bullets";
       sd_title := py "Scenario 4: Networking config/port mismatch";
       sd_subtitle := None;
       sd_meta := None;
       sd_bullets := Some [
         py "Symptom: app can’t connect / sporadic failures";
         py "Validate assumptions by observing real packets";
         py "Gadget: tcpdump (packet capture with pcap-compatible filters)";
         py "Outcome: confirm mismatch between expected vs actual traffic patterns"
       ];
       sd_callouts := None;
       sd_images := Some
         [ {| im_path := py "docs/media/placeholder_tcpdump.png";
            im_caption := Some (py "tcpdump gadget output");
            im_optional := Some true |} ] |};
    {| sd_id := py "operations-safety";
       sd_layout := py "title_and_bullets";
       sd_title := py "Operations & safety";
       sd_subtitle := None;
       sd_meta := None;
       sd_bullets := Some [
         py "Run MCP server in read-only mode when appropriate";
         py "Use restricted permissions via dedicated service account";
         py "Reduce scope to avoid overload (namespace, limits, timeouts)";
         py "Treat AI recommendations as hypotheses until validated"
       ];
       sd_callouts := None;
       sd_images := None |};
    {| sd_id := py "wrap-up";
       sd_layout := py "title_and_bullets";
       sd_title := py "Wrap-up";
       sd_subtitle := None;
       sd_meta := None;
       sd_bullets := Some [
         py "Inspektor Gadget: real-time observability powered by eBPF";
         py "MCP server: makes gadgets accessible through an AI interface";
         py "Scenarios: DNS latency, disk pressure, CPU saturation, networking";
         py "Resources:";
         py "• IG MCP Server: https://github.com/inspektor-gadget/ig-mcp-server";
         py "• Inspektor Gadget: https://github.com/inspektor-gadget/inspektor-gadget";
         py "• Website: https://www.inspektor-gadget.io/"
       ];
       sd_callouts := None;
       sd_images := None |}
  ].

(** *** PPTX helpers *)

Definition _rgb (r g b : Z) : Z * Z * Z := RGBColor r g b.

(** A text box holding one paragraph with one run. *)
Definition _add_text_box (left top width height : Z) (text : str)
    (size_pt : Z) (bold : bool) (color : option (Z * Z * Z))
    (align : PP_ALIGN) (italic : bool) : shape :=
  textbox left top width height true
    [ {| alignment := Some align;
         space_before := None;
         runs := [ {| run_text := text;
                      font_name := Some FONT_NAME;
                      font_size := Some (Pt size_pt);
                      font_bold := Some bold;
                      font_italic := Some italic;
                      font_color := color |} ] |} ].

Definition _add_rect (left top width height : Z) (fill_rgb : Z * Z * Z)
    : shape :=
  rectangle_shape left top width height fill_rgb.

Definition C_MID_GRAY_RGB := _rgb 156 163 175.

Definition _add_footer : shape :=
  _add_text_box (Inches 0.25) (SLIDE_H - Inches 0.45)
    (SLIDE_W - Inches 0.5) (Inches 0.35)
    FOOTER_TEXT FOOTER_PT false (Some C_MID_GRAY_RGB) CENTER false.

(** Thin blue horizontal rule below the title. *)
Definition _add_accent_bar : shape :=
  _add_rect (Inches 0.5) (Inches 1.55) (SLIDE_W - Inches 1.0) (Inches 0.04)
    ACCENT.

(** *** PPTX slide builders *)

Definition _build_title_slide : slide :=
  {| background := PRIMARY;
     shapes :=
       [ _add_rect (Inches 0) (Inches 0) (Inches 0.12) SLIDE_H ACCENT;
         _add_text_box (Inches 0.6) (Inches 1.8) (Inches 10.0) (Inches 1.5)
           (py "Ask and You Shall Debug:") (TITLE_PT + 8) true (Some WHITE)
           LEFT false;
         _add_text_box (Inches 0.6) (Inches 3.35) (Inches 10.0) (Inches 1.0)
           (py "Conversational Troubleshooting for Kubernetes")
           (TITLE_PT - 6) false (Some (_rgb 147 197 253)) LEFT false;
         _add_text_box (Inches 0.6) (Inches 4.5) (Inches 4.0) (Inches 0.5)
           (py "SCaLE") BODY_PT false (Some (_rgb 156 163 175)) LEFT false;
         _add_text_box (SLIDE_W - Inches 3.5) (SLIDE_H - Inches 0.6)
           (Inches 3.2) (Inches 0.4)
           (py "Inspektor Gadget") FOOTER_PT true
           (Some (_rgb 156 163 175)) RIGHT false ] |}.

(** [bool(slide_data.get("images"))] *)
Definition has_image (sd : slide_data) : bool :=
  truthy (default [] (sd_images sd)).

(** Right end of the content column, in EMU. *)
Definition content_right_emu (sd : slide_data) : Z :=
  if has_image sd then SLIDE_W - Inches 3.8 else SLIDE_W - Inches 0.5.

Definition bullet_top := Inches 1.75.
Definition line_h := Inches 0.48.

(** The text box of the [i]-th bullet. *)
Definition bullet_box (content_right : Z) (i : nat) (bullet : str) : shape :=
  let is_sub := startswith bullet BULLET in
  let indent := if is_sub then Inches 0.55 else Inches 0.25 in
  _add_text_box (Inches 0.5 + indent) (bullet_top + Z.of_nat i * line_h)
    (content_right - Inches 0.6 - indent) line_h
    bullet (if is_sub then BODY_PT - 4 else BODY_PT - 2) false
    (Some PRIMARY) LEFT false.

Definition bullet_boxes (content_right : Z) (bullets : list str)
    : list shape :=
  imap (bullet_box content_right) bullets.

(** The box and the text of one callout. *)
Definition callout_box (content_right callout_top : Z) (callout : str)
    : list shape :=
  [ _add_rect (Inches 0.5) callout_top (content_right - Inches 1.0)
      (Inches 0.55) (_rgb 239 246 255);
    _add_text_box (Inches 0.65) (callout_top + Inches 0.05)
      (content_right - Inches 1.2) (Inches 0.48)
      callout CALLOUT_PT true (Some ACCENT) LEFT true ].

Definition callout_top_emu (bullets : list str) : Z :=
  bullet_top + Z.of_nat (length bullets) * line_h + Inches 0.15.

Definition callout_boxes (content_right : Z) (bullets callouts : list str)
    : list shape :=
  if truthy callouts then
    callouts ≫= callout_box content_right (callout_top_emu bullets)
  else [].

(** The panel on the right: background, the picture when the file exists
    and loads, the caption when there is one. *)
Definition image_panel `{Platform} (sd : slide_data) : list shape :=
  match default [] (sd_images sd) with
  | [] => []
  | img_info :: _ =>
    let img_path := path_join REPO_ROOT (im_path img_info) in
    let panel_left := SLIDE_W - Inches 3.6 in
    let panel_top := Inches 1.65 in
    let panel_w := Inches 3.2 in
    let panel_h := Inches 4.4 in
    [ _add_rect panel_left panel_top panel_w panel_h LIGHT_GRAY ] ++
    (if path_exists img_path then
       if picture_loads img_path then
         [ picture img_path (panel_left + Inches 0.1) (panel_top + Inches 0.1)
             (panel_w - Inches 0.2) (panel_h - Inches 0.6) ]
       else []
     else []) ++
    (let caption := default [] (im_caption img_info) in
     if truthy caption then
       [ _add_text_box panel_left (panel_top + panel_h - Inches 0.55)
           panel_w (Inches 0.45)
           caption 10 false (Some (_rgb 107 114 128)) CENTER false ]
     else [])
  end.

Definition _build_content_slide `{Platform} (sd : slide_data) : slide :=
  let content_right := content_right_emu sd in
  let bullets := default [] (sd_bullets sd) in
  let callouts := default [] (sd_callouts sd) in
  {| background := _rgb 255 255 255;
     shapes :=
       [ _add_rect (Inches 0) (Inches 0) SLIDE_W (Inches 1.5) PRIMARY;
         _add_text_box (Inches 0.4) (Inches 0.2)
           (content_right - Inches 0.4) (Inches 1.1)
           (sd_title sd) (TITLE_PT - 4) true (Some WHITE) LEFT false;
         _add_accent_bar ] ++
       bullet_boxes content_right bullets ++
       callout_boxes content_right bullets callouts ++
       image_panel sd ++
       [ _add_footer ] |}.

(** *** Full PPTX generation *)

(** The body of the loop of [generate_pptx]. *)
Definition build_slide `{Platform} (sd : slide_data) : slide :=
  if decide (sd_layout sd = py "title") then _build_title_slide
  else _build_content_slide sd.

Definition generate_pptx `{Platform} (output_path : str) : list event :=
  let prs :=
    {| slide_width := SLIDE_W;
       slide_height := SLIDE_H;
       slides := build_slide <$> SLIDES |} in
  [ SavePptx output_path prs;
    Print (py "[pptx] Saved → " ++ output_path) ].

(** *** PIL preview helpers *)

Definition _pil_color (rgb_tuple : color) (alpha : Z) : color :=
  rgb_tuple ++ [alpha].

(** The loop of [_load_font] and [_load_font_bold]: the first candidate
    that exists and loads, else [ImageFont.load_default()].  This is the
    font the call returns when [ImageFont.truetype] raises nothing but
    [OSError]; [load_first_call] below keeps the other exceptions. *)
Fixpoint load_first `{Platform} (candidates : list str) (size : Z) : font :=
  match candidates with
  | [] => DefaultFont
  | path :: rest =>
    if path_exists path then
      if truetype_loads path size then TrueType path size
      else load_first rest size
    else load_first rest size
  end.

Definition font_candidates : list str :=
  [ py "/usr/share/fonts/truetype/msttcorefonts/Calibri.ttf";
    py "/usr/share/fonts/truetype/liberation/LiberationSans-Regular.ttf";
    py "/usr/share/fonts/truetype/dejavu/DejaVuSans.ttf";
    py "/usr/share/fonts/truetype/freefont/FreeSans.ttf";
    py "/Library/Fonts/Calibri.ttf";
    py "/System/Library/Fonts/Helvetica.ttc";
    py "C:/Windows/Fonts/calibri.ttf";
    py "C:/Windows/Fonts/arial.ttf" ].

Definition font_bold_candidates : list str :=
  [ py "/usr/share/fonts/truetype/msttcorefonts/Calibrib.ttf";
    py "/usr/share/fonts/truetype/liberation/LiberationSans-Bold.ttf";
    py "/usr/share/fonts/truetype/dejavu/DejaVuSans-Bold.ttf";
    py "/usr/share/fonts/truetype/freefont/FreeSansBold.ttf";
    py "/Library/Fonts/CalibriBold.ttf";
    py "/System/Library/Fonts/Helvetica.ttc";
    py "C:/Windows/Fonts/calibrib.ttf";
    py "C:/Windows/Fonts/arialbd.ttf" ].

(** Try to load Calibri or fall back to a default font. *)
Definition _load_font `{Platform} (size : Z) : font :=
  load_first font_candidates size.

Definition _load_font_bold `{Platform} (size : Z) : font :=
  load_first font_bold_candidates size.

(** How [ImageFont.truetype(path, size)] ends on an existing file. *)
Inductive truetype_result :=
| Loaded (f : font)
| OSError
| ValueError.

(** A size that is not positive is refused with [ValueError] whatever the
    file; otherwise the file loads or [OSError] is raised.  (Sizes are
    machine integers here: below [2 ^ 31].) *)
Definition truetype `{Platform} (path : str) (size : Z) : truetype_result :=
  if size <=? 0 then ValueError
  else if truetype_loads path size then Loaded (TrueType path size)
  else OSError.

(** The loop with the exceptions it lets through: [except OSError] goes on
    to the next candidate, any other exception leaves the function, which
    is [None] here. *)
Fixpoint load_first_call `{Platform} (candidates : list str) (size : Z)
    : option font :=
  match candidates with
  | [] => Some DefaultFont
  | path :: rest =>
    if path_exists path then
      match truetype path size with
      | Loaded f => Some f
      | OSError => load_first_call rest size
      | ValueError => None
      end
    else load_first_call rest size
  end.

(** A call of [_load_font], of [_load_font_bold]: the font returned, or
    [None] for an exception that escapes. *)
Definition _load_font_call `{Platform} (size : Z) : option font :=
  load_first_call font_candidates size.

Definition _load_font_bold_call `{Platform} (size : Z) : option font :=
  load_first_call font_bold_candidates size.

(** Rendered width of a text: [bbox[2] - bbox[0]]. *)
Definition text_width `{Platform} (f : font) (s : str) : Z :=
  let '(x0, _, x1, _) := textbbox f s in x1 - x0.

(** One turn of the wrapping loop over the state [(lines, current)]. *)
Definition wrap_step `{Platform} (f : font) (max_width : Z)
    (st : list str * str) (word : str) : list str * str :=
  let '(lines, current) := st in
  let test := strip (current ++ SPACE ++ word) in
  if text_width f test <=? max_width then (lines, test)
  else ((if truthy current then lines ++ [current] else lines), word).

(** The lines [_draw_wrapped_text] draws. *)
Definition wrap_lines `{Platform} (f : font) (s : str) (max_width : Z)
    : list str :=
  let '(lines, current) := foldl (wrap_step f max_width) ([], []) (split s) in
  if truthy current then lines ++ [current] else lines.

(** [line_height or (draw.textbbox((0, 0), "Ag", font=font)[3] + 4)] *)
Definition line_height_or `{Platform} (f : font) (line_height : option Z)
    : Z :=
  let by_font := (let '(_, _, _, y1) := textbbox f (py "Ag") in y1 + 4) in
  match line_height with
  | Some h => if h =? 0 then by_font else h
  | None => by_font
  end.

(** Draw the lines from [y] down, [lh] apart; the final [y]. *)
Fixpoint draw_lines (f : font) (x y lh : Z) (fill : color)
    (lines : list str) : list draw_op * Z :=
  match lines with
  | [] => ([], y)
  | l :: rest =>
    let '(ops, y') := draw_lines f x (y + lh) lh fill rest in
    (text x y l f fill None :: ops, y')
  end.

(** Draw text wrapped to max_width. Returns final y position. *)
Definition _draw_wrapped_text `{Platform} (s : str) (f : font) (x y : Z)
    (max_width : Z) (fill : color) (line_height : option Z)
    : list draw_op * Z :=
  draw_lines f x y (line_height_or f line_height) fill
    (wrap_lines f s max_width).

(** *** PIL slide renderers *)

(** [int(30 * (1 - i / 300))] for [0 <= i < 300].  In double precision
    the product falls just short of the exact integer at
    [i = 230, 240, ..., 290]. *)
Definition gradient_alpha (i : Z) : Z :=
  let exact := 30 * (300 - i) / 300 in
  if (230 <=? i) && (i mod 10 =? 0) then exact - 1 else exact.

Definition gradient_line (i : Z) : draw_op :=
  line 14 (PX_H / 2 - 150 + i) PX_W (PX_H / 2 - 150 + i)
    (_pil_color C_ACCENT (gradient_alpha i)) 0.

Definition _render_title_slide `{Platform} (sd : slide_data) : Image :=
  let title_font := _load_font_bold 72 in
  let sub_font := _load_font 42 in
  let label_font := _load_font 24 in
  let small_font := _load_font 18 in
  let meta := default {| right_corner := None |} (sd_meta sd) in
  {| img_width := PX_W;
     img_height := PX_H;
     img_background := C_PRIMARY;
     img_ops :=
       [ rectangle 0 0 14 PX_H (Some C_ACCENT) None 1 ] ++
       (gradient_line ∘ Z.of_nat <$> seq 0 300) ++
       (_draw_wrapped_text (sd_title sd) title_font 60 200 (PX_W - 140)
          C_WHITE (Some 84)).1 ++
       (_draw_wrapped_text (default [] (sd_subtitle sd)) sub_font 60 340
          (PX_W - 140) [147; 197; 253] (Some 52)).1 ++
       ((λ tag, text 60 460 tag label_font C_MID_GRAY None)
          <$> default [] (right_corner meta)) ++
       [ text (PX_W - 240) (PX_H - 50) (py "Inspektor Gadget") small_font
           C_MID_GRAY None ] |}.

(** Right end of the content column, in pixels. *)
Definition content_right_px (sd : slide_data) : Z :=
  if has_image sd then PX_W - 340 else PX_W - 40.

Definition TITLE_STRIP_H := 110.

(** One bullet drawn at [y]: the dot of a main bullet, the wrapped text;
    the [y] of the next bullet. *)
Definition draw_bullet `{Platform} (content_right : Z) (y : Z)
    (bullet : str) : list draw_op * Z :=
  let body_font := _load_font 26 in
  let sub_font := _load_font 22 in
  let is_sub := startswith bullet BULLET in
  let bx := if is_sub then 70 else 45 in
  let bfont := if is_sub then sub_font else body_font in
  let bcolor := if is_sub then [75; 85; 99] else C_PRIMARY in
  let dot :=
    if negb is_sub then [ ellipse (bx - 16) (y + 10) (bx - 8) (y + 18) C_ACCENT ]
    else [] in
  let '(ops, y') :=
    _draw_wrapped_text bullet bfont bx y (content_right - bx - 20) bcolor
      (Some 36) in
  (dot ++ ops, y' + 6).

Fixpoint draw_bullets `{Platform} (content_right : Z) (y : Z)
    (bullets : list str) : list draw_op * Z :=
  match bullets with
  | [] => ([], y)
  | bullet :: rest =>
    let '(ops, y1) := draw_bullet content_right y bullet in
    let '(ops', y2) := draw_bullets content_right y1 rest in
    (ops ++ ops', y2)
  end.

(** One callout box drawn at [y]. *)
Definition draw_callout `{Platform} (content_right : Z) (y : Z)
    (callout : str) : list draw_op * Z :=
  let callout_font := _load_font_bold 22 in
  let box_h := 48 in
  ([ rectangle 40 y (content_right - 20) (y + box_h)
       (Some [239; 246; 255]) None 1;
     rectangle 40 y 44 (y + box_h) (Some C_ACCENT) None 1;
     text 56 (y + 12) callout callout_font C_ACCENT None ],
   y + (box_h + 10)).

Fixpoint draw_callout_list `{Platform} (content_right : Z) (y : Z)
    (callouts : list str) : list draw_op * Z :=
  match callouts with
  | [] => ([], y)
  | callout :: rest =>
    let '(ops, y1) := draw_callout content_right y callout in
    let '(ops', y2) := draw_callout_list content_right y1 rest in
    (ops ++ ops', y2)
  end.

Definition draw_callouts `{Platform} (content_right : Z) (y : Z)
    (callouts : list str) : list draw_op * Z :=
  if truthy callouts then draw_callout_list content_right (y + 10) callouts
  else ([], y).

Definition draw_image_panel `{Platform} (sd : slide_data) : list draw_op :=
  match default [] (sd_images sd) with
  | [] => []
  | img_info :: _ =>
    let caption_font := _load_font 16 in
    let panel_x := PX_W - 325 in
    let panel_y := TITLE_STRIP_H + 14 in
    let panel_w := 295 in
    let panel_h := Qfloor (inject_Z PX_H * 0.67) in
    let cx := panel_x + panel_w / 2 in
    let cy := panel_y + panel_h / 2 - 20 in
    let caption := default [] (im_caption img_info) in
    [ rectangle panel_x panel_y (panel_x + panel_w) (panel_y + panel_h)
        (Some C_LIGHT_GRAY) None 1;
      rectangle panel_x panel_y (panel_x + panel_w) (panel_y + panel_h)
        None (Some C_ACCENT) 2;
      line (panel_x + 20) cy (panel_x + panel_w - 20) cy C_MID_GRAY 1;
      line cx (panel_y + 20) cx (panel_y + panel_h - 40) C_MID_GRAY 1 ] ++
    (if truthy caption then
       [ text (panel_x + 6) (panel_y + panel_h + 4) caption caption_font
           [107; 114; 128] None ]
     else [])
  end.

Definition _render_content_slide `{Platform} (sd : slide_data) : Image :=
  let content_right := content_right_px sd in
  let title_font := _load_font_bold 44 in
  let footer_font := _load_font 14 in
  let bullets := default [] (sd_bullets sd) in
  let callouts := default [] (sd_callouts sd) in
  let '(bullet_ops, y) :=
    draw_bullets content_right (TITLE_STRIP_H + 24) bullets in
  let '(callout_ops, _) := draw_callouts content_right y callouts in
  {| img_width := PX_W;
     img_height := PX_H;
     img_background := C_WHITE;
     img_ops :=
       [ rectangle 0 0 PX_W TITLE_STRIP_H (Some C_PRIMARY) None 1 ] ++
       (_draw_wrapped_text (sd_title sd) title_font 30 18
          (content_right - 40) C_WHITE (Some 52)).1 ++
       [ rectangle 40 (TITLE_STRIP_H + 4) (content_right - 20)
           (TITLE_STRIP_H + 8) (Some C_ACCENT) None 1 ] ++
       bullet_ops ++
       callout_ops ++
       draw_image_panel sd ++
       [ line 30 (PX_H - 36) (PX_W - 30) (PX_H - 36) [229; 231; 235] 1;
         text (PX_W / 2) (PX_H - 26) FOOTER_TEXT footer_font C_MID_GRAY
           (Some (py "mm")) ] |}.

Definition render_preview `{Platform} (sd : slide_data) : Image :=
  if decide (sd_layout sd = py "title") then _render_title_slide sd
  else _render_content_slide sd.

(** *** CLI entry point *)

Record Args := {
  no_pptx : bool;
  no_previews : bool;
  preview_slides : option (list str)
}.

Definition default_preview_ids : gset str :=
  {[ py "title"; py "agenda"; py "scenario-1-dns-symptoms";
     py "architecture-high-level" ]}.

(** [sorted(X)] for a set of strings *)
Definition sorted (X : gset str) : list str :=
  merge_sort str_le (elements X).

(** [{s["id"]: s for s in slides}]: a later descriptor replaces an
    earlier one with the same id. *)
Definition index_by_id (l : list slide_data) : gmap str slide_data :=
  foldl (λ m s, <[sd_id s := s]> m) ∅ l.

Definition out_path `{Platform} (slide_id : str) : str :=
  path_join PREVIEWS_DIR (py "preview_" ++ slide_id ++ py ".png").

(** [f"[preview] Unknown slide id '{slide_id}' – skipping."] *)
Definition unknown_warning (slide_id : str) : str :=
  py "[preview] Unknown slide id '" ++ slide_id ++ py "' – skipping.".

(** One turn of the preview loop. *)
Definition preview_one `{Platform} (by_id : gmap str slide_data)
    (slide_id : str) : list event :=
  match by_id !! slide_id with
  | None => [ Print (unknown_warning slide_id) ]
  | Some sd =>
    [ SavePng (out_path slide_id) (render_preview sd);
      Print (py "[preview] Saved → " ++ out_path slide_id) ]
  end.

Definition main `{Platform} (args : Args) : list event :=
  let preview_ids :=
    match preview_slides args with
    | Some ids => list_to_set ids
    | None => default_preview_ids
    end in
  (if no_pptx args then [] else generate_pptx OUT_PPTX) ++
  (if no_previews args then []
   else
     Mkdir PREVIEWS_DIR ::
     (sorted preview_ids ≫= preview_one (index_by_id SLIDES))).

End Slides.

(** ** [src/generate_slides.py] *)

Module Root.

Definition SLIDE_W := Inches 13.333.
Definition SLIDE_H := Inches 7.5.

Definition PRIMARY_COLOR := RGBColor 0x11 0x18 0x27.
Definition ACCENT_COLOR := RGBColor 0x25 0x63 0xEB.
Definition WHITE := RGBColor 0xFF 0xFF 0xFF.
Definition LIGHT_GRAY := RGBColor 0xCC 0xCC 0xCC.

Definition TITLE_FONT_PT := 40.
Definition BODY_FONT_PT := 20.
Definition FOOTER_FONT_PT := 12.
Definition FONT_NAME : str := py "Calibri".

Definition FOOTER_TEXT : str :=
  py "Inspektor Gadget MCP Server • https://github.com/inspektor-gadget/ig-mcp-server".

Definition LOGO_PATH `{Platform} : str :=
  path_join (path_join (path_join REPO_ROOT (py "docs")) (py "media"))
    (py "inspektor-gadget-logo.png").

Definition LOGO_W := Inches 1.6.
Definition LOGO_H := Inches 0.48.
Definition LOGO_LEFT := Inches 0.2.
Definition LOGO_BOTTOM_MARGIN := Inches 0.15.

Definition _logo_top (slide_h : Z) : Z :=
  slide_h - LOGO_H - LOGO_BOTTOM_MARGIN.

(** Add the IG logo to the bottom-left corner of a slide.  [None] when
    [add_picture] raises: nothing catches it here. *)
Definition _add_logo `{Platform} : option (list shape) :=
  if negb (path_exists LOGO_PATH) then Some []
  else if picture_loads LOGO_PATH then
    Some [ picture LOGO_PATH LOGO_LEFT (_logo_top SLIDE_H) LOGO_W LOGO_H ]
  else None.

(** Add a small footer text at the bottom centre of a slide. *)
Definition _add_footer (s : str) : shape :=
  textbox (Inches 2.0) (SLIDE_H - Inches 0.5) (SLIDE_W - Inches 4.0)
    (Inches 0.4) false
    [ {| alignment := Some CENTER;
         space_before := None;
         runs := [ {| run_text := s;
                      font_name := Some FONT_NAME;
                      font_size := Some (Pt FOOTER_FONT_PT);
                      font_bold := None;
                      font_italic := None;
                      font_color := Some LIGHT_GRAY |} ] |} ].

(** Add a thin blue accent bar across the top of a slide. *)
Definition _add_accent_bar : shape :=
  rectangle_shape (Inches 0) (Inches 0) SLIDE_W (Inches 0.07) ACCENT_COLOR.

Definition _add_title_text (title : str) (left top width height : Z)
    (font_pt : Z) (bold : bool) (color : Z * Z * Z) : shape :=
  textbox left top width height true
    [ {| alignment := None;
         space_before := None;
         runs := [ {| run_text := title;
                      font_name := Some FONT_NAME;
                      font_size := Some (Pt font_pt);
                      font_bold := Some bold;
                      font_italic := None;
                      font_color := Some color |} ] |} ].

(** The fresh paragraph of a text frame. *)
Definition empty_paragraph : paragraph :=
  {| alignment := None; space_before := None; runs := [] |}.

(** The body of the loop of [_add_bullets] on paragraph [p]. *)
Definition bullet_paragraph (p : paragraph) (bullet : str) : paragraph :=
  {| alignment := alignment p;
     space_before := Some (Pt 4);
     runs := runs p ++
       [ {| run_text :=
              if startswith bullet BULLET then bullet
              else py "• " ++ bullet;
            font_name := Some FONT_NAME;
            font_size := Some (Pt BODY_FONT_PT);
            font_bold := None;
            font_italic := None;
            font_color := Some WHITE |} ] |}.

(** Bullet [i] goes to [paragraphs[0]] when [i == 0], to a paragraph
    added at the end otherwise. *)
Definition add_bullet (ps : list paragraph) (ib : nat * str)
    : list paragraph :=
  match ib.1 with
  | O => match ps with
         | p :: rest => bullet_paragraph p ib.2 :: rest
         | [] => []
         end
  | S _ => ps ++ [ bullet_paragraph empty_paragraph ib.2 ]
  end.

Definition _add_bullets (bullets : list str) (left top width height : Z)
    : shape :=
  textbox left top width height true
    (foldl add_bullet [empty_paragraph] (imap pair bullets)).

Definition build_title_slide `{Platform} : option slide :=
  logo ← _add_logo;
  Some {| background := PRIMARY_COLOR;
          shapes :=
            [ _add_accent_bar;
              _add_title_text (py "Ask and You Shall Debug:")
                (Inches 0.8) (Inches 1.5) (Inches 11.0) (Inches 1.4)
                44 true WHITE;
              _add_title_text
                (py "Conversational Troubleshooting for Kubernetes")
                (Inches 0.8) (Inches 3.0) (Inches 11.0) (Inches 1.0)
                28 false (RGBColor 0xA0 0xC4 0xFF);
              _add_title_text (py "Inspektor Gadget MCP Server  •  SCaLE")
                (Inches 0.8) (Inches 4.3) (Inches 11.0) (Inches 0.6)
                18 false LIGHT_GRAY ] ++ logo |}.

Definition build_content_slide `{Platform} (title : str)
    (bullets : list str) : option slide :=
  logo ← _add_logo;
  Some {| background := PRIMARY_COLOR;
          shapes :=
            [ _add_accent_bar;
              _add_title_text title
                (Inches 0.6) (Inches 0.3) (Inches 12.0) (Inches 1.1)
                TITLE_FONT_PT true WHITE;
              _add_bullets bullets
                (Inches 0.6) (Inches 1.55) (Inches 12.0) (Inches 4.8);
              _add_footer FOOTER_TEXT ] ++ logo |}.

(** *** Preview image generator (Pillow) *)

Definition DEJAVU_BOLD : str :=
  py "/usr/share/fonts/truetype/dejavu/DejaVuSans-Bold.ttf".
Definition DEJAVU : str :=
  py "/usr/share/fonts/truetype/dejavu/DejaVuSans.ttf".

(** The four fonts of a preview, title, subtitle, body and footer: one
    [try] around the four loads, any exception puts the default font in
    all four. *)
Definition preview_fonts `{Platform} (is_title_slide : bool)
    : font * font * font * font :=
  let title_size := if negb is_title_slide then 42 else 52 in
  if truetype_loads DEJAVU_BOLD title_size && truetype_loads DEJAVU 30
     && truetype_loads DEJAVU 22 && truetype_loads DEJAVU 13
  then (TrueType DEJAVU_BOLD title_size, TrueType DEJAVU 30,
        TrueType DEJAVU 22, TrueType DEJAVU 13)
  else (DefaultFont, DefaultFont, DefaultFont, DefaultFont).

(** The bullets of a content preview, 48 pixels apart from [y]. *)
Fixpoint preview_bullets (font_body : font) (y : Z) (bullets : list str)
    : list draw_op :=
  match bullets with
  | [] => []
  | bullet :: rest =>
    let s := if startswith bullet BULLET then bullet
             else py "• " ++ bullet in
    text 80 y s font_body [0xFF; 0xFF; 0xFF] None
      :: preview_bullets font_body (y + 48) rest
  end.

(** Render a simple PNG preview of a slide using Pillow. *)
Definition generate_preview `{Platform} (title : str) (bullets : list str)
    (output_path : str) (is_title_slide : bool) : list event :=
  let W := 1333 in
  let H := 750 in
  let '(font_title, font_subtitle, font_body, font_footer) :=
    preview_fonts is_title_slide in
  let body :=
    if is_title_slide then
      [ text 80 140 title font_title [0xFF; 0xFF; 0xFF] None;
        text 80 215 (default [] (head bullets)) font_subtitle
          [0xA0; 0xC4; 0xFF] None;
        text 80 400 (py "Inspektor Gadget MCP Server  •  SCaLE") font_body
          [0xCC; 0xCC; 0xCC] None ]
    else
      [ text 60 30 title font_title [0xFF; 0xFF; 0xFF] None;
        rectangle 60 100 (W - 60) 103 (Some [0x25; 0x63; 0xEB]) None 1 ] ++
      preview_bullets font_body 120 bullets ++
      [ text (W / 2 - 300) (H - 42) FOOTER_TEXT font_footer
          [0xCC; 0xCC; 0xCC] None ] in
  let '(logo_ops, logo_out) :=
    if path_exists LOGO_PATH then
      match open_logo LOGO_PATH with
      | inr (logo_width, logo_height) =>
        let logo_w := 160 in
        let logo_h := logo_height * logo_w / logo_width in
        ([ paste 20 (H - logo_h - 15) logo_w logo_h LOGO_PATH ], [])
      | inl e =>
        ([], [ Print (py "Warning: could not paste logo: " ++ e) ])
      end
    else ([], []) in
  logo_out ++
  [ SavePng output_path
      {| img_width := W;
         img_height := H;
         img_background := [0x11; 0x18; 0x27];
         img_ops :=
           [ rectangle 0 0 W 7 (Some [0x25; 0x63; 0xEB]) None 1 ] ++
           body ++ logo_ops |};
    Print (py "Preview saved: " ++ output_path) ].

(** *** Slide definitions and entry point *)

Record slide_def := {
  sl_title : str;
  sl_bullets : list str
}.

(** The first entry stands for the title slide, which is handled apart. *)
Definition SLIDES : list (option slide_def) :=
  [
    None;
    Some {| sl_title := py "Why conversational troubleshooting?";
            sl_bullets := [
              py "Incidents are time-sensitive and cognitively expensive";
              py "Troubleshooting often requires many tools + exact commands";
              py "Goal: make real-time observability accessible via natural language";
              py "We'll follow an on-call story and resolve multiple scenarios"
            ] |};
    Some {| sl_title := py "Agenda";
            sl_bullets := [
              py "Demo 1: DNS latency (trace_dns)";
              py "Zoom out: Inspektor Gadget + gadgets";
              py "Why MCP server (and how it fits)";
              py "Mini-demos: disk pressure, CPU saturation, networking misconfig";
              py "Wrap-up + resources"
            ] |};
    Some {| sl_title := py "Scenario 1: Slow requests → DNS latency";
            sl_bullets := [
              py "Symptom: intermittent slowness / timeouts";
              py "Hypothesis space is large (DNS, network, app, load, etc.)";
              py "We start by validating whether DNS resolution is slow";
              py "Tool we'll use: trace_dns";
              py "Key idea: measure, don't guess."
            ] |};
    Some {| sl_title := py "Using trace_dns to observe DNS in real time";
            sl_bullets := [
              py "trace_dns traces DNS requests and responses";
              py "It captures request/response pairs and computes latency";
              py "Use it to identify slow lookups and affected workloads";
              py "Outcome: narrow the problem quickly and objectively"
            ] |};
    Some {| sl_title := py "What is Inspektor Gadget?";
            sl_bullets := [
              py "A systems inspection + data collection framework powered by eBPF";
              py "Provides observability in Kubernetes and Linux contexts";
              py "Ships a wide selection of “gadgets” for debugging and monitoring";
              py "Designed to make low-level visibility usable in familiar workflows"
            ] |};
    Some {| sl_title := py "What is a “gadget”?";
            sl_bullets := [
              py "A purpose-built observability tool (trace / snapshot / top / profile)";
              py "Examples we'll use today:";
              py "• trace_dns (DNS requests/responses + latency)";
              py "• profile_blockio + top_blockio (disk pressure / block I/O)";
              py "• top_process (CPU-heavy processes)";
              py "• tcpdump (packet capture with filters in container context)"
            ] |};
    Some {| sl_title := py "Problem: many gadgets → hard to choose";
            sl_bullets := [
              py "Inspektor Gadget has a large library of powerful gadgets";
              py "In an incident, picking the right gadget quickly is the hard part";
              py "Teams end up memorizing commands, or reaching for familiar tools first";
              py "We wanted: “describe the symptom → get the right tool + next step”";
              py "This is where we discovered MCP."
            ] |};
    Some {| sl_title := py "What is MCP (Model Context Protocol)?";
            sl_bullets := [
              py "A standard way for an LLM to call external tools in a structured, safe way";
              py "Tools are exposed with names + schemas (inputs/outputs are predictable)";
              py "Lets the model choose actions (run tools) and then explain results";
              py "In our case: the tools are Inspektor Gadget gadgets via ig-mcp-server";
              py "MCP turns “chat” into “chat + actions” (tool calls)."
            ] |};
    Some {| sl_title := py "High-level architecture";
            sl_bullets := [
              py "Copilot/LLM ↔ MCP protocol ↔ ig-mcp-server ↔ Inspektor Gadget gadgets";
              py "Gadgets provide real-time signals; LLM turns signals into next steps";
              py "MCP server transports: stdio / sse / streamable-http";
              py "Gadget discovery: Artifact Hub or explicit gadget images";
              py "[See: docs/media/placeholder_architecture.png]"
            ] |};
    Some {| sl_title := py "Human vs. AI troubleshooting";
            sl_bullets := [
              py "Humans: hypothesis-driven, sequential, bias-prone under pressure";
              py "LLM + real-time tools: broader search, more consistent method";
              py "Best results come from collaboration (human judgment + machine speed)";
              py "Guardrail: confirm findings with observable evidence"
            ] |};
    Some {| sl_title := py "Scenario 2: Disk pressure";
            sl_bullets := [
              py "Symptom: disk pressure alerts, slow writes, cascading failures";
              py "Identify which workloads drive I/O and what patterns are present";
              py "Gadgets:";
              py "• profile_blockio (profiling block I/O behavior)";
              py "• top_blockio (top block I/O contributors)"
            ] |};
    Some {| sl_title := py "Scenario 3: CPU saturation";
            sl_bullets := [
              py "Symptom: high latency + throttling + noisy neighbor suspicion";
              py "Goal: identify CPU-heavy processes in the relevant workload context";
              py "Gadget: top_process";
              py "Optional deeper profiling exists: profile_cpu"
            ] |};
    Some {| sl_title := py "Scenario 4: Networking config/port mismatch";
            sl_bullets := [
              py "Symptom: app can't connect / sporadic failures";
              py "Validate assumptions by observing real packets";
              py "Gadget: tcpdump (packet capture with pcap-compatible filters)";
              py "Outcome: confirm mismatch between expected vs actual traffic patterns"
            ] |};
    Some {| sl_title := py "Operations & safety";
            sl_bullets := [
              py "Run MCP server in read-only mode when appropriate";
              py "Use restricted permissions via dedicated service account";
              py "Reduce scope to avoid overload (namespace, limits, timeouts)";
              py "Treat AI recommendations as hypotheses until validated"
            ] |};
    Some {| sl_title := py "Wrap-up";
            sl_bullets := [
              py "Inspektor Gadget: real-time observability powered by eBPF";
              py "MCP server: makes gadgets accessible through an AI interface";
              py "Scenarios: DNS latency, disk pressure, CPU saturation, networking";
              py "Resources:";
              py "• IG MCP Server: https://github.com/inspektor-gadget/ig-mcp-server";
              py "• Inspektor Gadget: https://github.com/inspektor-gadget/inspektor-gadget";
              py "• Website: https://www.inspektor-gadget.io/"
            ] |}
  ].

Definition OUTPUT_PATH `{Platform} : str :=
  path_join REPO_ROOT (py "Ask_and_You_Shall_Debug_SCaLE.pptx").

Definition MEDIA_DIR `{Platform} : str :=
  path_join (path_join REPO_ROOT (py "docs")) (py "media").

(** How a run ends: normally, or with an exception that nothing catches. *)
Inductive outcome := Finished | Raised.

(** The content slides of [SLIDES[1:]]; [None] when a builder raises. *)
Definition build_content_slides `{Platform} : option (list slide) :=
  mapM (λ d, sd ← d; build_content_slide (sl_title sd) (sl_bullets sd))
    (drop 1 SLIDES).

(** The preview of the content slide [SLIDES[i]] under the name [name]. *)
Definition preview_of `{Platform} (i : nat) (name : str)
    : option (list event) :=
  sd ← SLIDES !! i ≫= id;
  Some (generate_preview (sl_title sd) (sl_bullets sd)
          (path_join MEDIA_DIR name) false).

(** The events of a run and the way it ends.  The deck is built in full
    before it is saved; the previews follow. *)
Definition main `{Platform} : list event * outcome :=
  match build_title_slide, build_content_slides with
  | Some title_slide, Some content_slides =>
    let prs :=
      {| slide_width := SLIDE_W;
         slide_height := SLIDE_H;
         slides := title_slide :: content_slides |} in
    let saved :=
      [ SavePptx OUTPUT_PATH prs;
        Print (py "Presentation saved: " ++ OUTPUT_PATH);
        Mkdir MEDIA_DIR ] ++
      generate_preview (py "Ask and You Shall Debug:")
        [ py "Conversational Troubleshooting for Kubernetes" ]
        (path_join MEDIA_DIR (py "preview_title.png")) true in
    match preview_of 2 (py "preview_agenda.png") with
    | None => (saved, Raised)
    | Some agenda =>
      match preview_of 3 (py "preview_scenario.png") with
      | None => (saved ++ agenda, Raised)
      | Some scenario =>
        match preview_of 9 (py "preview_architecture.png") with
        | None => (saved ++ agenda ++ scenario, Raised)
        | Some arch => (saved ++ agenda ++ scenario ++ arch, Finished)
        end
      end
    end
  | _, _ => ([], Raised)
  end.

End Root.

(** ** Reading the primitives *)

Definition shape_left (s : shape) : Z :=
  match s with
  | textbox l _ _ _ _ _ | rectangle_shape l _ _ _ _ | picture _ l _ _ _ => l
  end.

Definition shape_top (s : shape) : Z :=
  match s with
  | textbox _ t _ _ _ _ | rectangle_shape _ t _ _ _ | picture _ _ t _ _ => t
  end.

Definition shape_width (s : shape) : Z :=
  match s with
  | textbox _ _ w _ _ _ | rectangle_shape _ _ w _ _ | picture _ _ _ w _ => w
  end.

Definition is_picture (s : shape) : bool :=
  match s with picture _ _ _ _ _ => true | _ => false end.

(** The texts of the runs of a shape, in order. *)
Definition shape_texts (s : shape) : list str :=
  match s with
  | textbox _ _ _ _ _ ps => run_text <$> (ps ≫= runs)
  | _ => []
  end.

(** Left and top coordinate of a drawing call. *)
Definition op_x (op : draw_op) : Z :=
  match op with
  | rectangle x _ _ _ _ _ _ | ellipse x _ _ _ _ | line x _ _ _ _ _
  | text x _ _ _ _ _ | paste x _ _ _ _ => x
  end.

Definition op_y (op : draw_op) : Z :=
  match op with
  | rectangle _ y _ _ _ _ _ | ellipse _ y _ _ _ | line _ y _ _ _ _
  | text _ y _ _ _ _ | paste _ y _ _ _ => y
  end.

Definition op_text (op : draw_op) : option str :=
  match op with text _ _ s _ _ _ => Some s | _ => None end.

(** The strings drawn by [draw.text], in order. *)
Definition drawn_texts (ops : list draw_op) : list str := omap op_text ops.

(** The paths of the preview files a run writes, in order. *)
Definition saved_pngs (es : list event) : list str :=
  omap (λ e, match e with SavePng p _ => Some p | _ => None end) es.

(** The preview files a run writes with their contents, in order. *)
Definition saved_images (es : list event) : list (str * Image) :=
  omap (λ e, match e with SavePng p img => Some (p, img) | _ => None end) es.

Definition printed (es : list event) : list str :=
  omap (λ e, match e with Print s => Some s | _ => None end) es.

(** The vertical position at which each bullet of the preview starts. *)
Fixpoint bullet_tops `{Platform} (content_right y : Z) (bullets : list str)
    : list Z :=
  match bullets with
  | [] => []
  | bullet :: rest =>
    y :: bullet_tops content_right
           (Slides.draw_bullet content_right y bullet).2 rest
  end.

(** The lines into which the preview wraps one bullet: a sub-bullet in the
    smaller font from column 70, a main bullet from column 45. *)
Definition bullet_lines `{Platform} (content_right : Z) (bullet : str)
    : list str :=
  if startswith bullet BULLET then
    Slides.wrap_lines (Slides._load_font 22) bullet (content_right - 70 - 20)
  else
    Slides.wrap_lines (Slides._load_font 26) bullet (content_right - 45 - 20).

(** A line is acceptable when it fits the column or is one of the words
    [ws] of the text. *)
Definition fits_or_word `{Platform} (f : font) (max_width : Z)
    (ws : list str) (l : str) : Prop :=
  Slides.text_width f l ≤ max_width ∨ l ∈ ws.

(** A font file is usable at a size when it exists and loads. *)
Definition usable `{Platform} (size : Z) (p : str) : bool :=
  path_exists p && truetype_loads p size.

(** ** Two machines for the examples *)

(** A font engine in which every character is half the font size wide (the
    default font counts as size 10). *)
Definition mono_bbox (f : font) (s : str) : Z * Z * Z * Z :=
  let size := match f with TrueType _ sz => sz | DefaultFont => 10 end in
  (0, 0, size / 2 * Z.of_nat (length s), size).

(** A machine with the DejaVu fonts and none of the deck's images. *)
Definition dejavu_machine : Platform :=
  {| path_exists p :=
       bool_decide (p ∈ [ py "/usr/share/fonts/truetype/dejavu/DejaVuSans.ttf";
                          py "/usr/share/fonts/truetype/dejavu/DejaVuSans-Bold.ttf" ]);
     truetype_loads _ _ := true;
     textbbox := mono_bbox;
     picture_loads _ := true;
     open_logo _ := inl (py "cannot identify image file");
     REPO_ROOT := py "/repo" |}.

(** A machine with no font file and no image at all. *)
Definition bare_machine : Platform :=
  {| path_exists _ := false;
     truetype_loads _ _ := false;
     textbbox := mono_bbox;
     picture_loads _ := false;
     open_logo _ := inl (py "cannot identify image file");
     REPO_ROOT := py "/repo" |}.

(** The slide "what-is-a-gadget": two main bullets, then four sub-bullets. *)
Definition gadget_slide : Slides.slide_data :=
  {| Slides.sd_id := py "what-is-a-gadget";
     Slides.sd_layout := py "title_and_bullets";
     Slides.sd_title := py "What is a “gadget”?";
     Slides.sd_subtitle := None;
     Slides.sd_meta := None;
     Slides.sd_bullets := Some [
       py "A purpose-built observability tool (trace / snapshot / top / profile)";
       py "Examples we'll use today:";
       py "• trace_dns (DNS requests/responses + latency)";
       py "• profile_blockio + top_blockio (disk pressure / block I/O)";
       py "• top_process (CPU-heavy processes)";
       py "• tcpdump (packet capture with filters in container context)"
     ];
     Slides.sd_callouts := None;
     Slides.sd_images := None |}.

(** The slide "scenario-1-dns-trace", the first of the deck with an image. *)
Definition dns_trace_slide : Slides.slide_data :=
  default gadget_slide (Slides.SLIDES !! 4%nat).

(** The descriptor of the example scenario. *)
Definition demo : Slides.slide_data :=
  {| Slides.sd_id := py "demo";
     Slides.sd_layout := py "title_and_bullets";
     Slides.sd_title := py "T";
     Slides.sd_subtitle := None;
     Slides.sd_meta := None;
     Slides.sd_bullets := Some [py "a"; py "b"];
     Slides.sd_callouts := Some [py "c"];
     Slides.sd_images := None |}.

(** A coordinate that fits a signed 32-bit integer, as the rows and
    columns of a canvas do. *)
Definition int32 (z : Z) : Prop := - 2 ^ 31 ≤ z < 2 ^ 31.

(** ** Notions for the further properties *)

(** [" ".join(ws)] *)
Fixpoint join_words (ws : list str) : str :=
  match ws with
  | [] => []
  | [w] => w
  | w :: rest => w ++ SPACE ++ join_words rest
  end.

(** The wrapping loop read line by line: the lines still to come when the
    loop holds [current] and has the words [ws] before it. *)
Fixpoint wrap_from `{Platform} (f : font) (max_width : Z) (current : str)
    (ws : list str) : list str :=
  match ws with
  | [] => flush current
  | w :: rest =>
    let test := strip (current ++ SPACE ++ w) in
    if Slides.text_width f test <=? max_width
    then wrap_from f max_width test rest
    else flush current ++ wrap_from f max_width w rest
  end.

(** A break between two consecutive lines is forced when the first word of
    the second line, joined to the first line, is wider than the column. *)
Definition forced_break `{Platform} (f : font) (max_width : Z)
    (pair : str * str) : Prop :=
  ∃ w rest,
    split pair.2 = w :: rest
    ∧ max_width < Slides.text_width f (strip (pair.1 ++ SPACE ++ w)).

(** What a line of the wrap looks like: words, at least one, joined by
    single spaces. *)
Definition tidy (l : str) : Prop :=
  ∃ ws, ws ≠ [] ∧ Forall is_word ws ∧ l = join_words ws.

Definition shape_height (s : shape) : Z :=
  match s with
  | textbox _ _ _ h _ _ | rectangle_shape _ _ _ h _ | picture _ _ _ _ h => h
  end.

(** A shape starts inside a slide [w] wide, is not empty, and ends at or
    before the right edge. *)
Definition well_placed (w : Z) (s : shape) : Prop :=
  0 ≤ shape_left s ∧ 0 < shape_width s ∧ 0 ≤ shape_top s
  ∧ 0 < shape_height s ∧ shape_left s + shape_width s ≤ w.

Definition is_ellipse (op : draw_op) : bool :=
  match op with ellipse _ _ _ _ _ => true | _ => false end.

Definition is_line (op : draw_op) : bool :=
  match op with line _ _ _ _ _ _ => true | _ => false end.

Definition is_paste (op : draw_op) : bool :=
  match op with paste _ _ _ _ _ => true | _ => false end.

(** A bullet as the older generator shows it: with the bullet character in
    front unless it starts with one. *)
Definition marked (bullet : str) : str :=
  if startswith bullet BULLET then bullet else py "• " ++ bullet.

(** What the logo step of a preview of the older generator meets: no file,
    a file that does not open (with the message of the exception), or a
    logo of a given size. *)
Definition logo_found `{Platform} : option (str + Z * Z) :=
  if path_exists Root.LOGO_PATH then Some (open_logo Root.LOGO_PATH)
  else None.

(** The texts a slide of a document shows, shape after shape. *)
Definition slide_texts (sl : slide) : list str := shapes sl ≫= shape_texts.

(** * Properties *)

(** ** Splitting and stripping *)

Section split_facts.
Implicit Types (s acc w t : str) (c : char).

Lemma flush_nonempty acc : acc ≠ [] → flush acc = [acc].
Proof. by destruct acc. Qed.

Lemma split_go_app_space acc s c t :
  isspace c = true →
  split_go acc (s ++ c :: t) = split_go acc s ++ split_go [] t.
Proof.
  intros Hc. revert acc.
  induction s as [|d s IH]; intros acc; simpl.
  - by rewrite Hc.
  - destruct (isspace d); [|done].
    by rewrite IH, (assoc_L (++)).
Qed.

Lemma split_go_nonspace acc w :
  Forall (λ c, isspace c = false) w → split_go acc w = flush (acc ++ w).
Proof.
  intros Hw. revert acc.
  induction Hw as [|c w Hc _ IH]; intros acc; simpl.
  - by rewrite (right_id_L [] (++)).
  - by rewrite Hc, IH, <-(assoc_L (++)).
Qed.

Lemma split_word w : is_word w → split w = [w].
Proof.
  intros [Hne Hw]. unfold split.
  rewrite split_go_nonspace by done. by apply flush_nonempty.
Qed.

Lemma split_go_spaces acc t :
  Forall (λ c, isspace c = true) t → split_go acc t = flush acc.
Proof.
  intros Ht. revert acc.
  induction Ht as [|c t Hc _ IH]; intros acc; simpl; [done|].
  rewrite Hc, IH. apply (right_id_L [] (++)).
Qed.

Lemma split_go_app_spaces acc s t :
  Forall (λ c, isspace c = true) t → split_go acc (s ++ t) = split_go acc s.
Proof.
  intros Ht. revert acc.
  induction s as [|d s IH]; intros acc; simpl.
  - by apply split_go_spaces.
  - destruct (isspace d); by rewrite IH.
Qed.

Lemma lstrip_spaces s :
  ∃ t, Forall (λ c, isspace c = true) t ∧ s = t ++ lstrip s.
Proof.
  induction s as [|c s (t & Ht & IH)]; simpl.
  - by exists [].
  - destruct (isspace c) eqn:Hc.
    + exists (c :: t). split; [by constructor|]. by rewrite IH at 1.
    + by exists [].
Qed.

Lemma rstrip_spaces s :
  ∃ t, Forall (λ c, isspace c = true) t ∧ s = rstrip s ++ t.
Proof.
  destruct (lstrip_spaces (reverse s)) as (t & Ht & Hs).
  exists (reverse t). split.
  - by apply Forall_reverse.
  - unfold rstrip. rewrite <-reverse_app, <-Hs. by rewrite reverse_involutive.
Qed.

Lemma split_lstrip s : split (lstrip s) = split s.
Proof.
  unfold split. induction s as [|c s IH]; simpl; [done|].
  destruct (isspace c) eqn:Hc; simpl; [done|]. by rewrite Hc.
Qed.

Lemma split_rstrip s : split (rstrip s) = split s.
Proof.
  destruct (rstrip_spaces s) as (t & Ht & Hs). unfold split.
  rewrite Hs at 2. by rewrite split_go_app_spaces.
Qed.

Lemma split_strip s : split (strip s) = split s.
Proof. unfold strip. by rewrite split_rstrip, split_lstrip. Qed.

Lemma flush_words acc :
  Forall (λ c, isspace c = false) acc → Forall is_word (flush acc).
Proof.
  destruct acc as [|c acc]; [by constructor|]. intros ?.
  rewrite flush_nonempty by done. by apply Forall_singleton.
Qed.

Lemma split_go_words acc s :
  Forall (λ c, isspace c = false) acc → Forall is_word (split_go acc s).
Proof.
  revert acc. induction s as [|c s IH]; intros acc Hacc; simpl.
  - by apply flush_words.
  - destruct (isspace c) eqn:Hc.
    + apply Forall_app. split; [by apply flush_words|by apply IH].
    + apply IH, Forall_app. by repeat constructor.
Qed.

Lemma split_words s : Forall is_word (split s).
Proof. by apply split_go_words. Qed.

(** Joining a line and a word with a space and stripping the result adds
    the word to the words of the line. *)
Lemma split_strip_join s w :
  is_word w → split (strip (s ++ SPACE ++ w)) = split s ++ [w].
Proof.
  intros Hw. rewrite split_strip, <-(split_word w Hw).
  unfold split, SPACE. simpl. by rewrite split_go_app_space.
Qed.

End split_facts.

(** ** Word wrap *)

Section wrap_facts.
Context `{Platform}.
Implicit Types (f : font) (s w current : str) (lines ws : list str).

Lemma wrap_fold_cons f max_width lines current w ws :
  foldl (Slides.wrap_step f max_width) (lines, current) (w :: ws) =
  foldl (Slides.wrap_step f max_width)
    (if Slides.text_width f (strip (current ++ SPACE ++ w)) <=? max_width
     then (lines, strip (current ++ SPACE ++ w))
     else (if truthy current then lines ++ [current] else lines, w)) ws.
Proof. done. Qed.

Lemma bind_flush lines current :
  (if truthy current then lines ++ [current] else lines) ≫= split =
  (lines ≫= split) ++ split current.
Proof.
  destruct current; simpl.
  - symmetry. apply (right_id_L [] (++)).
  - by rewrite bind_app, bind_singleton.
Qed.

Lemma wrap_fold_words f max_width ws :
  Forall is_word ws → ∀ lines current,
  let st := foldl (Slides.wrap_step f max_width) (lines, current) ws in
  (st.1 ≫= split) ++ split st.2 = (lines ≫= split) ++ split current ++ ws.
Proof.
  induction 1 as [|w ws Hw _ IH]; intros lines current; cbv zeta.
  - simpl. by rewrite (right_id_L [] (++)).
  - rewrite wrap_fold_cons.
    destruct (Slides.text_width f _ <=? max_width); rewrite IH.
    + by rewrite split_strip_join, <-(assoc_L (++)).
    + by rewrite bind_flush, (split_word w Hw), <-(assoc_L (++)).
Qed.

Lemma wrap_lines_words f s max_width :
  Slides.wrap_lines f s max_width ≫= split = split s.
Proof.
  unfold Slides.wrap_lines.
  pose proof (wrap_fold_words f max_width (split s) (split_words s) [] [])
    as Hfold. cbv zeta in Hfold.
  destruct (foldl _ _ _) as [lines current].
  by rewrite bind_flush.
Qed.

Lemma Forall_flush (P : str → Prop) lines current :
  Forall P lines → current = [] ∨ P current →
  Forall P (if truthy current then lines ++ [current] else lines).
Proof.
  intros Hl [->|Hc]; [done|]. destruct current; [done|].
  apply Forall_app. split; [done|]. by apply Forall_singleton.
Qed.

Lemma wrap_fold_fits f max_width all ws :
  ws ⊆ all → ∀ lines current,
  Forall (fits_or_word f max_width all) lines →
  current = [] ∨ fits_or_word f max_width all current →
  let st := foldl (Slides.wrap_step f max_width) (lines, current) ws in
  Forall (fits_or_word f max_width all) st.1
  ∧ (st.2 = [] ∨ fits_or_word f max_width all st.2).
Proof.
  induction ws as [|w ws IH]; intros Hsub lines current Hl Hc; cbv zeta.
  - done.
  - assert (w ∈ all) by (apply Hsub; left).
    assert (ws ⊆ all) by (intros z ?; apply Hsub; by right).
    rewrite wrap_fold_cons.
    destruct (Slides.text_width f _ <=? max_width) eqn:Hfit; apply IH; try done.
    + right. left. by apply Z.leb_le.
    + by apply Forall_flush.
    + right. by right.
Qed.

Lemma wrap_lines_fits f s max_width :
  Forall (fits_or_word f max_width (split s))
    (Slides.wrap_lines f s max_width).
Proof.
  unfold Slides.wrap_lines.
  pose proof (wrap_fold_fits f max_width (split s) (split s)) as Hfold.
  specialize (Hfold (reflexivity _) [] [] (Forall_nil_2 _) (or_introl eq_refl)).
  cbv zeta in Hfold. destruct (foldl _ _ _) as [lines current].
  destruct Hfold as [Hl Hc]. by apply Forall_flush.
Qed.

Lemma draw_lines_texts f x y lh fill lines :
  drawn_texts (Slides.draw_lines f x y lh fill lines).1 = lines.
Proof.
  revert y. induction lines as [|l lines IH]; intros y; simpl; [done|].
  specialize (IH (y + lh)).
  destruct (Slides.draw_lines f x (y + lh) lh fill lines) as [ops y'].
  simpl in *. unfold drawn_texts in *. simpl. by rewrite IH.
Qed.

Lemma draw_lines_y f x y lh fill lines :
  (Slides.draw_lines f x y lh fill lines).2 = y + Z.of_nat (length lines) * lh.
Proof.
  revert y. induction lines as [|l lines IH]; intros y; simpl length.
  - simpl. lia.
  - simpl. specialize (IH (y + lh)).
    destruct (Slides.draw_lines f x (y + lh) lh fill lines) as [ops y'].
    simpl in *. lia.
Qed.

(** Every call drawn is a text, at column [x], on a row from [y] on. *)
Lemma draw_lines_ops f x y lh fill lines :
  0 ≤ lh →
  Forall (λ op, op_x op = x ∧ y ≤ op_y op ∧ is_Some (op_text op))
    (Slides.draw_lines f x y lh fill lines).1.
Proof.
  intros Hlh. revert y.
  induction lines as [|l lines IH]; intros y; simpl; [done|].
  specialize (IH (y + lh)).
  destruct (Slides.draw_lines f x (y + lh) lh fill lines) as [ops y'].
  simpl in *. constructor; [by eauto with lia|].
  eapply Forall_impl; [done|]. simpl. intros op (? & ? & ?).
  eauto with lia.
Qed.

(** The calls are made at column [x], each [lh] rows after the one
    before, from row [y]. *)
Lemma draw_lines_rows f x y lh fill lines :
  (λ op, (op_x op, op_y op)) <$> (Slides.draw_lines f x y lh fill lines).1
  = (λ k, (x, y + Z.of_nat k * lh)) <$> seq 0 (length lines).
Proof.
  revert y. induction lines as [|l lines IH]; intros y; [done|].
  cbn [Slides.draw_lines]. specialize (IH (y + lh)).
  destruct (Slides.draw_lines f x (y + lh) lh fill lines) as [ops y'].
  cbn [fst] in *. rewrite fmap_cons, IH. cbn [length seq].
  rewrite fmap_cons. f_equal; [cbn [op_x op_y]; f_equal; lia|].
  rewrite <-fmap_S_seq, <-list_fmap_compose. apply list_fmap_ext.
  intros _ k _. unfold compose. f_equal. lia.
Qed.

(** Between two rows that fit, the rows at whole steps fit. *)
Lemma rows_in_range (y lh : Z) (n k : nat) :
  int32 y → int32 (y + Z.of_nat n * lh) → (k ≤ n)%nat →
  int32 (y + Z.of_nat k * lh).
Proof.
  unfold int32. intros Hy Hn Hk.
  destruct (Z.le_gt_cases 0 lh); split; nia.
Qed.

End wrap_facts.

(** C1 (amended).  The strings [_draw_wrapped_text] draws are the lines of
    the greedy wrap; splitting them back into words gives the words of the
    text, in order and without loss; and every line either fits the column
    width or is one single word of the text (a word wider than the column
    is not broken, it gets a line of its own). *)
Theorem C1_wrapped_lines_keep_words_and_fit_or_single_word `{Platform}
    (s : str) (f : font) (x y max_width : Z) (fill : color)
    (line_height : option Z) :
  let lines :=
    drawn_texts (Slides._draw_wrapped_text s f x y max_width fill line_height).1 in
  lines = Slides.wrap_lines f s max_width
  ∧ lines ≫= split = split s
  ∧ Forall (λ l, Slides.text_width f l ≤ max_width ∨ l ∈ split s) lines.
Proof.
  cbv zeta. unfold Slides._draw_wrapped_text. rewrite draw_lines_texts.
  split_and!; [done|apply wrap_lines_words|apply wrap_lines_fits].
Qed.

(** C1 as stated fails: on a machine where a character of the default font
    is 5 pixels wide, wrapping the subtitle of the deck to 60 pixels draws
    the 70 pixel wide line "Conversational". *)
Lemma C1_overlong_word_exceeds_column :
  drawn_texts
    (@Slides._draw_wrapped_text bare_machine
       (py "Conversational Troubleshooting") DefaultFont 60 340 60
       [147; 197; 253] (Some 52)).1
  = [py "Conversational"; py "Troubleshooting"]
  ∧ @Slides.text_width bare_machine DefaultFont (py "Conversational") = 70
  ∧ 60 < 70.
Proof. by vm_compute. Qed.

(** C9 (amended).  For a starting position whose rows stay within the
    signed 32-bit range, from the start to the final position,
    [_draw_wrapped_text] returns the final vertical position: the starting
    position plus the number of lines drawn times the line height in
    effect, which is the given line height when one is given and is not
    zero, and the bottom of "Ag" in the font plus 4 otherwise.  The lines
    are drawn at column [x], one line height after the other from the
    starting row, all within that range.  (The drawing calls are modelled
    for positions in this range; far beyond it [draw.text] refuses the
    position and the routine raises.) *)
Theorem C9_wrapped_text_returns_final_y `{Platform}
    (s : str) (f : font) (x y max_width : Z) (fill : color)
    (line_height : option Z) :
  let r := Slides._draw_wrapped_text s f x y max_width fill line_height in
  let lh := Slides.line_height_or f line_height in
  let by_font := (textbbox f (py "Ag")).2 + 4 in
  int32 x → int32 y →
  int32 (y + Z.of_nat (length (Slides.wrap_lines f s max_width)) * lh) →
  r.2 = y + Z.of_nat (length (drawn_texts r.1)) * lh
  ∧ lh =
      match line_height with
      | Some h => if decide (h = 0) then by_font else h
      | None => by_font
      end
  ∧ (λ op, (op_x op, op_y op)) <$> r.1
    = (λ k, (x, y + Z.of_nat k * lh)) <$> seq 0 (length (drawn_texts r.1))
  ∧ Forall (λ op, int32 (op_x op) ∧ int32 (op_y op)) r.1.
Proof.
  cbv zeta. intros Hx Hy Hend. unfold Slides._draw_wrapped_text.
  rewrite draw_lines_y, draw_lines_texts, draw_lines_rows. split_and!.
  - done.
  - unfold Slides.line_height_or.
    destruct (textbbox f (py "Ag")) as [[[x0 y0] x1] y1]. simpl.
    destruct line_height as [h|]; [|done].
    case_decide as Hh; [by subst|]. by apply Z.eqb_neq in Hh as ->.
  - done.
  - apply (Forall_fmap (λ op, (op_x op, op_y op))
             (λ xy, int32 xy.1 ∧ int32 xy.2)).
    rewrite draw_lines_rows. apply Forall_fmap, Forall_forall.
    intros k Hk. apply elem_of_seq in Hk. cbn [fst snd]. split; [done|].
    apply (rows_in_range y _ (length (Slides.wrap_lines f s max_width)));
      [done|done|lia].
Qed.

(** C9 (amended) at a one-word text drawn from row 100 with line height
    36. *)
Lemma C9_one_line_from_row_100 :
  int32 45 ∧ int32 100
  ∧ (@Slides._draw_wrapped_text bare_machine (py "a") DefaultFont
       45 100 1175 [17; 24; 39] (Some 36)).2
    = 100 + Z.of_nat
              (length
                 (drawn_texts
                    (@Slides._draw_wrapped_text bare_machine (py "a")
                       DefaultFont 45 100 1175 [17; 24; 39] (Some 36)).1))
            * @Slides.line_height_or bare_machine DefaultFont (Some 36).
Proof.
  assert (H45 : int32 45) by (unfold int32; lia).
  assert (H100 : int32 100) by (unfold int32; lia).
  assert (Hend : int32 (100 + Z.of_nat
                          (length (@Slides.wrap_lines bare_machine DefaultFont
                                     (py "a") 1175))
                        * @Slides.line_height_or bare_machine DefaultFont
                            (Some 36)))
    by (vm_compute; split; [discriminate|reflexivity]).
  split; [exact H45|]. split; [exact H100|].
  exact (proj1 (@C9_wrapped_text_returns_final_y bare_machine (py "a")
                  DefaultFont 45 100 1175 [17; 24; 39] (Some 36)
                  H45 H100 Hend)).
Defined.

(** C9 as stated fails: a one-word text drawn from row 100 with line
    height 36 makes one line, and the call returns 136, not 36. *)
Lemma C9_return_includes_start :
  let r := @Slides._draw_wrapped_text bare_machine (py "a") DefaultFont
             45 100 1175 [17; 24; 39] (Some 36) in
  drawn_texts r.1 = [py "a"]
  ∧ Z.of_nat (length (drawn_texts r.1)) * 36 = 36
  ∧ r.2 = 136.
Proof. by vm_compute. Qed.

(** ** Bullets of a content slide *)

Section bullet_facts.
Context `{Platform}.
Implicit Types (bullets : list str) (bullet : str).

Lemma imap_texts (g : nat → str → shape) bullets :
  (∀ i b, shape_texts (g i b) = [b]) → imap g bullets ≫= shape_texts = bullets.
Proof.
  revert g. induction bullets as [|b bullets IH]; intros g Hg; [done|].
  rewrite imap_cons, bind_cons, Hg, IH; [done|]. intros i b'. apply Hg.
Qed.

Lemma bullet_boxes_texts cr bullets :
  Slides.bullet_boxes cr bullets ≫= shape_texts = bullets.
Proof. by apply imap_texts. Qed.

Lemma draw_bullet_texts cr y bullet :
  drawn_texts (Slides.draw_bullet cr y bullet).1 = bullet_lines cr bullet.
Proof.
  unfold Slides.draw_bullet, bullet_lines, Slides._draw_wrapped_text.
  destruct (startswith bullet BULLET); simpl.
  - rewrite <-(draw_lines_texts (Slides._load_font 22) 70 y
      (Slides.line_height_or (Slides._load_font 22) (Some 36)) [75; 85; 99]).
    by destruct (Slides.draw_lines _ _ _ _ _ _).
  - rewrite <-(draw_lines_texts (Slides._load_font 26) 45 y
      (Slides.line_height_or (Slides._load_font 26) (Some 36))
      Slides.C_PRIMARY).
    by destruct (Slides.draw_lines _ _ _ _ _ _).
Qed.

Lemma draw_bullets_texts cr y bullets :
  drawn_texts (Slides.draw_bullets cr y bullets).1
  = bullets ≫= bullet_lines cr.
Proof.
  revert y. induction bullets as [|b bullets IH]; intros y; [done|].
  simpl. pose proof (draw_bullet_texts cr y b) as Hb.
  destruct (Slides.draw_bullet cr y b) as [ops y1].
  specialize (IH y1).
  destruct (Slides.draw_bullets cr y1 bullets) as [ops' y2].
  simpl in *. unfold drawn_texts in *.
  by rewrite omap_app, Hb, IH.
Qed.

Lemma length_bind_lines cr bullets :
  length (bullets ≫= bullet_lines cr)
  = sum_list (length ∘ bullet_lines cr <$> bullets).
Proof.
  induction bullets as [|b bullets IH]; [done|].
  rewrite bind_cons, length_app, IH. done.
Qed.

Lemma add_bullet_rest (ps : list paragraph) (k : nat → nat) bullets :
  foldl Root.add_bullet ps (imap (λ i b, (S (k i), b)) bullets)
  = ps ++ (Root.bullet_paragraph Root.empty_paragraph <$> bullets).
Proof.
  revert ps k. induction bullets as [|b bullets IH]; intros ps k.
  - simpl. by rewrite (right_id_L [] (++)).
  - rewrite imap_cons, fmap_cons. simpl.
    rewrite (IH _ (k ∘ S)).
    change (Root.add_bullet ps (S (k 0%nat), b))
      with (ps ++ [Root.bullet_paragraph Root.empty_paragraph b]).
    by rewrite <-(assoc_L (++)).
Qed.

(** The paragraphs [_add_bullets] leaves in its text frame. *)
Lemma add_bullets_paragraphs bullets :
  foldl Root.add_bullet [Root.empty_paragraph] (imap pair bullets)
  = match bullets with
    | [] => [Root.empty_paragraph]
    | _ => Root.bullet_paragraph Root.empty_paragraph <$> bullets
    end.
Proof.
  destruct bullets as [|b bullets]; [done|].
  rewrite imap_cons. simpl. exact (add_bullet_rest _ id bullets).
Qed.

Lemma add_bullets_texts bullets left top width height :
  length (shape_texts (Root._add_bullets bullets left top width height))
  = length bullets.
Proof.
  unfold Root._add_bullets, shape_texts. rewrite add_bullets_paragraphs.
  destruct bullets as [|b bullets]; [done|].
  rewrite length_fmap. generalize (b :: bullets). intros l.
  induction l as [|x l IH]; [done|].
  rewrite fmap_cons, bind_cons, length_app, IH. done.
Qed.

Lemma length_preview_bullets font_body y bullets :
  length (Root.preview_bullets font_body y bullets) = length bullets.
Proof.
  revert y. induction bullets as [|b bullets IH]; intros y; [done|].
  simpl. by rewrite IH.
Qed.

End bullet_facts.

Lemma content_layout_dispatch `{Platform} (sd : Slides.slide_data) :
  Slides.sd_layout sd = py "title_and_bullets" →
  Slides.build_slide sd = Slides._build_content_slide sd
  ∧ Slides.render_preview sd = Slides._render_content_slide sd.
Proof.
  intros Hl. unfold Slides.build_slide, Slides.render_preview. rewrite Hl.
  by case_decide.
Qed.

(** The shapes of a content slide, in the order they are added. *)
Lemma build_content_slide_shapes `{Platform} (sd : Slides.slide_data) :
  let cr := Slides.content_right_emu sd in
  let bullets := default [] (Slides.sd_bullets sd) in
  let callouts := default [] (Slides.sd_callouts sd) in
  shapes (Slides._build_content_slide sd) =
    [ Slides._add_rect (Inches 0) (Inches 0) Slides.SLIDE_W (Inches 1.5)
        Slides.PRIMARY;
      Slides._add_text_box (Inches 0.4) (Inches 0.2) (cr - Inches 0.4)
        (Inches 1.1) (Slides.sd_title sd) (Slides.TITLE_PT - 4) true
        (Some Slides.WHITE) LEFT false;
      Slides._add_accent_bar ] ++
    Slides.bullet_boxes cr bullets ++
    Slides.callout_boxes cr bullets callouts ++
    Slides.image_panel sd ++
    [ Slides._add_footer ].
Proof. reflexivity. Qed.

Lemma render_content_slide_ops `{Platform} (sd : Slides.slide_data) :
  let cr := Slides.content_right_px sd in
  let bullets := default [] (Slides.sd_bullets sd) in
  let b := Slides.draw_bullets cr (Slides.TITLE_STRIP_H + 24) bullets in
  let c := Slides.draw_callouts cr b.2 (default [] (Slides.sd_callouts sd)) in
  img_ops (Slides._render_content_slide sd) =
    ([ rectangle 0 0 Slides.PX_W Slides.TITLE_STRIP_H (Some Slides.C_PRIMARY)
         None 1 ] ++
     (Slides._draw_wrapped_text (Slides.sd_title sd) (Slides._load_font_bold 44)
        30 18 (cr - 40) Slides.C_WHITE (Some 52)).1 ++
     [ rectangle 40 (Slides.TITLE_STRIP_H + 4) (cr - 20)
         (Slides.TITLE_STRIP_H + 8) (Some Slides.C_ACCENT) None 1 ]) ++
    b.1 ++ c.1 ++ Slides.draw_image_panel sd ++
    [ line 30 (Slides.PX_H - 36) (Slides.PX_W - 30) (Slides.PX_H - 36)
        [229; 231; 235] 1;
      text (Slides.PX_W / 2) (Slides.PX_H - 26) Slides.FOOTER_TEXT
        (Slides._load_font 14) Slides.C_MID_GRAY (Some (py "mm")) ].
Proof.
  cbv zeta. unfold Slides._render_content_slide.
  destruct (Slides.draw_bullets _ _ _) as [bullet_ops y]. simpl.
  destruct (Slides.draw_callouts _ _ _) as [callout_ops y']. simpl.
  by rewrite <-!(assoc_L (++)).
Qed.

(** C2 as stated fails in the preview path: with characters half the font
    size wide, the four bullets of the slide "architecture-high-level" are
    drawn as six lines. *)
Lemma C2_preview_wraps_long_bullets :
  ∃ sd,
    Slides.SLIDES !! 9%nat = Some sd
    ∧ Slides.sd_id sd = py "architecture-high-level"
    ∧ Slides.sd_layout sd = py "title_and_bullets"
    ∧ length (default [] (Slides.sd_bullets sd)) = 4%nat
    ∧ length (drawn_texts
                (@Slides.draw_bullets dejavu_machine
                   (Slides.content_right_px sd) (Slides.TITLE_STRIP_H + 24)
                   (default [] (Slides.sd_bullets sd))).1) = 6%nat.
Proof. eexists. split; [reflexivity|]. by vm_compute. Qed.

(** ** Positions in the preview of a content slide *)

Section preview_positions.
Context `{Platform}.
Implicit Types (bullets : list str) (bullet : str) (cr y : Z).

Lemma draw_wrapped_text_ops s f x y max_width fill h :
  0 < h →
  let r := Slides._draw_wrapped_text s f x y max_width fill (Some h) in
  r.2 = y + Z.of_nat (length (Slides.wrap_lines f s max_width)) * h
  ∧ Forall (λ op, op_x op = x ∧ y ≤ op_y op ∧ is_Some (op_text op)) r.1.
Proof.
  intros Hh. cbv zeta. unfold Slides._draw_wrapped_text.
  assert (Slides.line_height_or f (Some h) = h) as ->.
  { unfold Slides.line_height_or. destruct (textbbox f _) as [[[??]?]?].
    destruct (Z.eqb_spec h 0); [lia|done]. }
  split; [apply draw_lines_y|apply draw_lines_ops; lia].
Qed.

(** A bullet moves the pen down by 36 per line and 6 more. *)
Lemma draw_bullet_y cr y bullet :
  (Slides.draw_bullet cr y bullet).2
  = y + Z.of_nat (length (bullet_lines cr bullet)) * 36 + 6.
Proof.
  unfold Slides.draw_bullet, bullet_lines.
  destruct (startswith bullet BULLET); simpl.
  - pose proof (draw_wrapped_text_ops bullet (Slides._load_font 22) 70 y
      (cr - 70 - 20) [75; 85; 99] 36 eq_refl) as [Hy _].
    destruct (Slides._draw_wrapped_text _ _ _ _ _ _ _). cbn [fst snd] in *. lia.
  - pose proof (draw_wrapped_text_ops bullet (Slides._load_font 26) 45 y
      (cr - 45 - 20) Slides.C_PRIMARY 36 eq_refl) as [Hy _].
    destruct (Slides._draw_wrapped_text _ _ _ _ _ _ _). cbn [fst snd] in *. lia.
Qed.

(** Everything a sub-bullet draws is text at column 70; a main bullet
    draws its dot from column 29 and its text at column 45.  Nothing is
    drawn above the row the bullet starts on. *)
Lemma draw_bullet_ops cr y bullet :
  Forall (λ op,
            y ≤ op_y op
            ∧ if startswith bullet BULLET then op_x op = 70
              else op_x op = 29 ∨ op_x op = 45)
    (Slides.draw_bullet cr y bullet).1.
Proof.
  unfold Slides.draw_bullet.
  destruct (startswith bullet BULLET); simpl.
  - pose proof (draw_wrapped_text_ops bullet (Slides._load_font 22) 70 y
      (cr - 70 - 20) [75; 85; 99] 36 eq_refl) as [_ Hops].
    destruct (Slides._draw_wrapped_text _ _ _ _ _ _ _). cbn [fst snd] in *.
    eapply Forall_impl; [done|]. simpl. by intros op (? & ? & _).
  - pose proof (draw_wrapped_text_ops bullet (Slides._load_font 26) 45 y
      (cr - 45 - 20) Slides.C_PRIMARY 36 eq_refl) as [_ Hops].
    destruct (Slides._draw_wrapped_text _ _ _ _ _ _ _). cbn [fst snd] in *.
    constructor; [simpl; lia|].
    eapply Forall_impl; [done|]. simpl. intros op (? & ? & _). eauto.
Qed.

(** The preview of the bullets is, bullet by bullet, what [draw_bullet]
    draws at the rows [bullet_tops]. *)
Lemma draw_bullets_blocks cr y bullets :
  (Slides.draw_bullets cr y bullets).1
  = mjoin (zip_with (λ y' b, (Slides.draw_bullet cr y' b).1)
             (bullet_tops cr y bullets) bullets).
Proof.
  revert y. induction bullets as [|b bullets IH]; intros y; [done|].
  simpl. specialize (IH (Slides.draw_bullet cr y b).2).
  destruct (Slides.draw_bullet cr y b) as [ops y1]. cbn [fst snd] in *.
  destruct (Slides.draw_bullets cr y1 bullets) as [ops' y2]. cbn [fst snd] in *.
  by rewrite IH.
Qed.

Lemma length_bullet_tops cr y bullets :
  length (bullet_tops cr y bullets) = length bullets.
Proof.
  revert y. induction bullets as [|b bullets IH]; intros y; [done|].
  simpl. by rewrite IH.
Qed.

(** Every later bullet starts strictly below [y]; the pen ends at or
    below the row after the last bullet. *)
Lemma bullet_tops_below cr y bullets :
  Forall (λ t, y ≤ t) (bullet_tops cr y bullets)
  ∧ Forall (λ t, t < (Slides.draw_bullets cr y bullets).2)
      (bullet_tops cr y bullets)
  ∧ y ≤ (Slides.draw_bullets cr y bullets).2.
Proof.
  revert y. induction bullets as [|b bullets IH]; intros y; simpl.
  - split_and!; [done|done|lia].
  - pose proof (draw_bullet_y cr y b) as Hy.
    specialize (IH (Slides.draw_bullet cr y b).2).
    destruct (Slides.draw_bullet cr y b) as [ops y1]. cbn [fst snd] in *.
    destruct (Slides.draw_bullets cr y1 bullets) as [ops' y2]. cbn [fst snd] in *.
    destruct IH as (Hge & Hlt & Hend).
    split_and!; [|constructor; [lia|done]|lia].
    constructor; [lia|]. eapply Forall_impl; [exact Hge|]. simpl. lia.
Qed.

Lemma bullet_tops_increasing cr y bullets :
  StronglySorted Z.lt (bullet_tops cr y bullets).
Proof.
  revert y. induction bullets as [|b bullets IH]; intros y; simpl.
  - constructor.
  - constructor; [apply IH|].
    pose proof (draw_bullet_y cr y b) as Hy.
    destruct (bullet_tops_below cr (Slides.draw_bullet cr y b).2 bullets)
      as (Hge & _ & _).
    eapply Forall_impl; [exact Hge|]. simpl. lia.
Qed.

(** The callout boxes start at least 10 rows below the pen. *)
Lemma draw_callout_list_ops cr y callouts :
  Forall (λ op, y ≤ op_y op) (Slides.draw_callout_list cr y callouts).1.
Proof.
  revert y. induction callouts as [|c callouts IH]; intros y.
  - by constructor.
  - cbn [Slides.draw_callout_list]. unfold Slides.draw_callout.
    specialize (IH (y + (48 + 10))).
    destruct (Slides.draw_callout_list cr (y + (48 + 10)) callouts)
      as [ops y'].
    cbn [fst snd app] in *. repeat (constructor; [simpl; lia|]).
    eapply Forall_impl; [exact IH|]. simpl. lia.
Qed.

Lemma draw_callouts_ops cr y callouts :
  Forall (λ op, y + 10 ≤ op_y op) (Slides.draw_callouts cr y callouts).1.
Proof.
  unfold Slides.draw_callouts. destruct (truthy callouts); [|done].
  apply draw_callout_list_ops.
Qed.

End preview_positions.

Example gadget_slide_in_deck : Slides.SLIDES !! 6%nat = Some gadget_slide.
Proof. reflexivity. Qed.

Lemma no_images_no_panel `{Platform} (sd : Slides.slide_data) :
  default [] (Slides.sd_images sd) = [] →
  Slides.has_image sd = false
  ∧ Slides.image_panel sd = []
  ∧ Slides.draw_image_panel sd = [].
Proof.
  intros Hi. unfold Slides.has_image, Slides.image_panel,
    Slides.draw_image_panel. by rewrite Hi.
Qed.

(** ** Vertical order in the document *)

Section document_positions.
Implicit Types (bullets callouts : list str) (cr : Z).

Lemma emu_values :
  Slides.bullet_top = 1600200 ∧ Slides.line_h = 438912
  ∧ Inches 0.15 = 137160 ∧ Inches 0.05 = 45720.
Proof. by vm_compute. Qed.

Lemma bullet_box_top cr i bullet :
  shape_top (Slides.bullet_box cr i bullet)
  = Slides.bullet_top + Z.of_nat i * Slides.line_h.
Proof. done. Qed.

(** Tops of the boxes of the bullets numbered from [k] on. *)
Lemma bullet_box_tops_from cr (k : nat) bullets :
  let tops :=
    shape_top <$> imap (λ i, Slides.bullet_box cr (k + i)) bullets in
  StronglySorted Z.lt tops
  ∧ Forall (λ t, Slides.bullet_top + Z.of_nat k * Slides.line_h ≤ t) tops.
Proof.
  cbv zeta. destruct emu_values as (_ & Hh & _).
  revert k. induction bullets as [|b bullets IH]; intros k.
  - split; constructor.
  - rewrite imap_cons, fmap_cons, bullet_box_top.
    destruct (IH (S k)) as [Hs Hf].
    rewrite (imap_ext _ (λ i, Slides.bullet_box cr (S k + i))) by
      (intros i x _; simpl; f_equal; lia).
    split; constructor; try done.
    + eapply Forall_impl; [exact Hf|]. simpl. intros t. rewrite Hh. lia.
    + rewrite Hh. lia.
    + eapply Forall_impl; [exact Hf|]. simpl. intros t. rewrite Hh. lia.
Qed.

Lemma bullet_boxes_descend cr bullets :
  StronglySorted Z.lt (shape_top <$> Slides.bullet_boxes cr bullets).
Proof. apply (bullet_box_tops_from cr 0 bullets). Qed.

Lemma callout_boxes_below cr bullets callouts :
  Forall (λ c,
            Forall (λ b, shape_top b < shape_top c)
              (Slides.bullet_boxes cr bullets))
    (Slides.callout_boxes cr bullets callouts).
Proof.
  destruct emu_values as (Ht & Hh & H15 & H05).
  apply Forall_forall. intros c Hc. apply Forall_forall. intros b Hb.
  unfold Slides.bullet_boxes in Hb.
  apply elem_of_lookup_imap in Hb as (i & bullet & -> & Hi).
  apply lookup_lt_Some in Hi. rewrite bullet_box_top.
  unfold Slides.callout_boxes in Hc.
  destruct (truthy callouts); [|by apply elem_of_nil in Hc].
  apply list_elem_of_bind in Hc as (callout & Hc & _).
  unfold Slides.callout_box, Slides.callout_top_emu in Hc.
  apply elem_of_cons in Hc as [->|Hc]; [|apply list_elem_of_singleton in Hc as ->];
    simpl; rewrite ?H15, ?H05, Hh; lia.
Qed.

End document_positions.

(** ** A text of one word *)

Section single_word.
Context `{Platform}.

Lemma lstrip_nonspace (s : str) :
  Forall (λ c, isspace c = false) s → lstrip s = s.
Proof. destruct 1 as [|c s Hc _]; simpl; [done|]. by rewrite Hc. Qed.

Lemma strip_space_word (w : str) : is_word w → strip (SPACE ++ w) = w.
Proof.
  intros [_ Hw]. unfold strip, rstrip, SPACE. simpl.
  rewrite (lstrip_nonspace w Hw).
  rewrite lstrip_nonspace by by apply Forall_reverse.
  apply reverse_involutive.
Qed.

(** A single word is never wrapped: it makes one line, whatever its
    width. *)
Lemma wrap_lines_single_word (f : font) (w : str) (max_width : Z) :
  is_word w → Slides.wrap_lines f w max_width = [w].
Proof.
  intros Hw. unfold Slides.wrap_lines. rewrite (split_word w Hw).
  cbn [foldl]. unfold Slides.wrap_step.
  change ([] ++ SPACE ++ w) with (SPACE ++ w).
  rewrite (strip_space_word w Hw).
  destruct Hw as [Hne _].
  destruct (Slides.text_width f w <=? max_width);
    destruct w; done.
Qed.

End single_word.

(** C6.  In a content slide the bullets are placed at strictly increasing
    vertical positions in list order, and every callout is placed strictly
    below the position of every bullet, the last included: in the document
    (tops of the text boxes, tops of the callout shapes) and in the preview
    (rows at which the bullets start, rows of the callout calls).  For the
    descriptor [demo] (bullets "a", "b", callout "c"), on any machine: the
    boxes of "a" and "b" are at 1600200 and 2039112 EMU and the callout at
    2615184; in the 1280 pixel wide preview "a" is drawn on row 134, "b" on
    row 176 and the callout box from row 228. *)
Theorem C6_bullets_descend_callouts_below `{Platform}
    (sd : Slides.slide_data) :
  let bullets := default [] (Slides.sd_bullets sd) in
  let callouts := default [] (Slides.sd_callouts sd) in
  let boxes := Slides.bullet_boxes (Slides.content_right_emu sd) bullets in
  let cboxes :=
    Slides.callout_boxes (Slides.content_right_emu sd) bullets callouts in
  let cr := Slides.content_right_px sd in
  let y0 := Slides.TITLE_STRIP_H + 24 in
  let tops := bullet_tops cr y0 bullets in
  let b := Slides.draw_bullets cr y0 bullets in
  let c := Slides.draw_callouts cr b.2 callouts in
  (∃ pre post,
     shapes (Slides._build_content_slide sd) = pre ++ boxes ++ cboxes ++ post)
  ∧ StronglySorted Z.lt (shape_top <$> boxes)
  ∧ Forall (λ s, Forall (λ b, shape_top b < shape_top s) boxes) cboxes
  ∧ (∃ pre post,
       img_ops (Slides._render_content_slide sd) = pre ++ b.1 ++ c.1 ++ post)
  ∧ b.1 = mjoin (zip_with (λ y bullet, (Slides.draw_bullet cr y bullet).1)
                   tops bullets)
  ∧ StronglySorted Z.lt tops
  ∧ Forall (λ op, Forall (λ t, t < op_y op) tops) c.1
  ∧ Slides.PX_W = 1280
  ∧ shape_top <$> Slides.bullet_boxes (Slides.content_right_emu demo)
                    [py "a"; py "b"]
    = [1600200; 2039112]
  ∧ shape_top <$> Slides.callout_boxes (Slides.content_right_emu demo)
                    [py "a"; py "b"] [py "c"]
    = [2615184; 2660904]
  ∧ img_ops (Slides._render_content_slide demo)
    = [ rectangle 0 0 1280 110 (Some [17; 24; 39]) None 1;
        text 30 18 (py "T") (Slides._load_font_bold 44) [255; 255; 255] None;
        rectangle 40 114 1220 118 (Some [37; 99; 235]) None 1;
        ellipse 29 144 37 152 [37; 99; 235];
        text 45 134 (py "a") (Slides._load_font 26) [17; 24; 39] None;
        ellipse 29 186 37 194 [37; 99; 235];
        text 45 176 (py "b") (Slides._load_font 26) [17; 24; 39] None;
        rectangle 40 228 1220 276 (Some [239; 246; 255]) None 1;
        rectangle 40 228 44 276 (Some [37; 99; 235]) None 1;
        text 56 240 (py "c") (Slides._load_font_bold 22) [37; 99; 235] None;
        line 30 684 1250 684 [229; 231; 235] 1;
        text 640 694 Slides.FOOTER_TEXT (Slides._load_font 14)
          [156; 163; 175] (Some (py "mm")) ].
Proof.
  cbv zeta. split_and!.
  - unfold Slides._build_content_slide. eexists _, _. reflexivity.
  - apply bullet_boxes_descend.
  - apply callout_boxes_below.
  - rewrite render_content_slide_ops. by eexists _, _.
  - apply draw_bullets_blocks.
  - apply bullet_tops_increasing.
  - destruct (bullet_tops_below (Slides.content_right_px sd)
                (Slides.TITLE_STRIP_H + 24)
                (default [] (Slides.sd_bullets sd))) as (_ & Hlt & _).
    eapply Forall_impl; [apply draw_callouts_ops|]. simpl. intros op Hop.
    eapply Forall_impl; [exact Hlt|]. simpl. lia.
  - done.
  - by vm_compute.
  - by vm_compute.
  - rewrite render_content_slide_ops. cbv zeta.
    unfold Slides.draw_bullets, Slides.draw_bullet, Slides.draw_callouts,
      Slides._draw_wrapped_text, Slides.draw_image_panel.
    assert (∀ s, is_word (py s) → ∀ f mw,
              Slides.wrap_lines f (py s) mw = [py s]) as Hone
      by (intros; by apply wrap_lines_single_word).
    simpl.
    rewrite !Hone by (split; [by vm_compute|vm_compute; by repeat constructor]).
    reflexivity.
Qed.

(** ** Missing assets *)

Section missing_assets.
Context `{Platform}.




End missing_assets.



(** ** Font loading *)

Section font_facts.
Context `{Platform}.

Lemma load_first_find candidates size :
  Slides.load_first candidates size
  = from_option (λ p, TrueType p size) DefaultFont
      (List.find (usable size) candidates).
Proof.
  induction candidates as [|p candidates IH]; simpl; [done|].
  unfold usable at 1.
  destruct (path_exists p); simpl; [|done].
  by destruct (truetype_loads p size).
Qed.

Lemma load_first_cases candidates size :
  (∃ tried p rest,
     candidates = tried ++ p :: rest
     ∧ Forall (λ q, usable size q = false) tried
     ∧ usable size p = true
     ∧ Slides.load_first candidates size = TrueType p size)
  ∨ (Forall (λ q, usable size q = false) candidates
     ∧ Slides.load_first candidates size = DefaultFont).
Proof.
  induction candidates as [|p candidates IH]; simpl.
  - right. by split.
  - destruct (usable size p) eqn:Hp.
    + left. exists [], p, candidates. split_and!; [done..|].
      unfold usable in Hp. by apply andb_true_iff in Hp as [-> ->].
    + assert (Slides.load_first candidates size
              = if path_exists p then
                  if truetype_loads p size then TrueType p size
                  else Slides.load_first candidates size
                else Slides.load_first candidates size) as <-.
      { unfold usable in Hp. destruct (path_exists p); [|done].
        simpl in Hp. by rewrite Hp. }
      destruct IH as [(tried & q & rest & -> & Ht & Hq & Hl)|[Hall Hl]].
      * left. exists (p :: tried), q, rest. split_and!; try done.
        by constructor.
      * right. split; [by constructor|done].
Qed.

(** For a positive size a call returns, and returns the font of
    [load_first]. *)
Lemma load_first_call_positive candidates size :
  0 < size →
  Slides.load_first_call candidates size
  = Some (Slides.load_first candidates size).
Proof.
  intros Hsize. induction candidates as [|p candidates IH]; [done|].
  cbn [Slides.load_first_call Slides.load_first]. unfold Slides.truetype.
  destruct (Z.leb_spec size 0) as [?|_]; [lia|].
  destruct (path_exists p); [|done].
  by destruct (truetype_loads p size).
Qed.

(** Without an existing candidate [truetype] is never called. *)
Lemma load_first_call_no_file candidates size :
  Forall (λ p, path_exists p = false) candidates →
  Slides.load_first_call candidates size = Some DefaultFont.
Proof.
  induction 1 as [|p candidates Hp _ IH]; [done|].
  cbn [Slides.load_first_call]. by rewrite Hp.
Qed.

(** For a size that is not positive the first existing candidate makes
    the call raise. *)
Lemma load_first_call_raises candidates size :
  size ≤ 0 →
  Exists (λ p, path_exists p = true) candidates →
  Slides.load_first_call candidates size = None.
Proof.
  intros Hsize. induction 1 as [p candidates Hp|p candidates _ IH];
    cbn [Slides.load_first_call]; unfold Slides.truetype;
    destruct (Z.leb_spec size 0) as [_|?]; try lia.
  - by rewrite Hp.
  - by destruct (path_exists p).
Qed.

End font_facts.

(** C8 (amended).  For a positive size (a machine integer) a call of
    [_load_font], and of [_load_font_bold], returns: it goes through its
    fixed list of candidate paths in order and gives the first one whose
    file exists and loads, an [OSError] of [truetype] moving on to the
    next; when no candidate exists and loads it gives the built-in default
    font.  When no candidate file exists it gives the default font at any
    size.  At a size that is not positive the call raises as soon as a
    candidate file exists, [truetype] refusing the size with an exception
    the loop does not catch.  The older generator either loads its four
    fonts or, on any exception, uses the default font for all four. *)
Theorem C8_font_loading_falls_back `{Platform} (size : Z) :
  0 < size < 2 ^ 31 →
  Slides._load_font_call size = Some (Slides._load_font size)
  ∧ Slides._load_font size
    = from_option (λ p, TrueType p size) DefaultFont
        (List.find (usable size) Slides.font_candidates)
  ∧ ((∃ tried p rest,
        Slides.font_candidates = tried ++ p :: rest
        ∧ Forall (λ q, usable size q = false) tried
        ∧ usable size p = true
        ∧ Slides._load_font_call size = Some (TrueType p size))
     ∨ (Forall (λ q, usable size q = false) Slides.font_candidates
        ∧ Slides._load_font_call size = Some DefaultFont))
  ∧ Slides._load_font_bold_call size = Some (Slides._load_font_bold size)
  ∧ Slides._load_font_bold size
    = from_option (λ p, TrueType p size) DefaultFont
        (List.find (usable size) Slides.font_bold_candidates)
  ∧ ((∃ tried p rest,
        Slides.font_bold_candidates = tried ++ p :: rest
        ∧ Forall (λ q, usable size q = false) tried
        ∧ usable size p = true
        ∧ Slides._load_font_bold_call size = Some (TrueType p size))
     ∨ (Forall (λ q, usable size q = false) Slides.font_bold_candidates
        ∧ Slides._load_font_bold_call size = Some DefaultFont))
  ∧ (∀ any_size candidates,
       Forall (λ p, path_exists p = false) candidates →
       Slides.load_first_call candidates any_size = Some DefaultFont)
  ∧ (∀ bad_size candidates,
       bad_size ≤ 0 →
       Exists (λ p, path_exists p = true) candidates →
       Slides.load_first_call candidates bad_size = None)
  ∧ (∀ is_title_slide : bool,
       let title_size := if is_title_slide then 52 else 42 in
       Root.preview_fonts is_title_slide
       = (if truetype_loads Root.DEJAVU_BOLD title_size
             && truetype_loads Root.DEJAVU 30
             && truetype_loads Root.DEJAVU 22
             && truetype_loads Root.DEJAVU 13
          then (TrueType Root.DEJAVU_BOLD title_size, TrueType Root.DEJAVU 30,
                TrueType Root.DEJAVU 22, TrueType Root.DEJAVU 13)
          else (DefaultFont, DefaultFont, DefaultFont, DefaultFont))).
Proof.
  intros [Hsize _].
  assert (Hcall : ∀ candidates,
            Slides.load_first_call candidates size
            = Some (Slides.load_first candidates size))
    by (intros; by apply load_first_call_positive).
  unfold Slides._load_font_call, Slides._load_font_bold_call,
    Slides._load_font, Slides._load_font_bold.
  split_and!.
  - apply Hcall.
  - apply load_first_find.
  - rewrite Hcall.
    destruct (load_first_cases Slides.font_candidates size)
      as [(tried & p & rest & ? & ? & ? & ->)|[? ->]].
    + left. by exists tried, p, rest.
    + by right.
  - apply Hcall.
  - apply load_first_find.
  - rewrite Hcall.
    destruct (load_first_cases Slides.font_bold_candidates size)
      as [(tried & p & rest & ? & ? & ? & ->)|[? ->]].
    + left. by exists tried, p, rest.
    + by right.
  - intros any_size candidates. apply load_first_call_no_file.
  - intros bad_size candidates. apply load_first_call_raises.
  - by intros [].
Qed.

(** C8 (amended) at size 26 on the machine with the DejaVu fonts. *)
Lemma C8_dejavu_is_loaded_at_26 :
  0 < 26 < 2 ^ 31
  ∧ @Slides._load_font_call dejavu_machine 26
    = Some (TrueType (py "/usr/share/fonts/truetype/dejavu/DejaVuSans.ttf")
              26).
Proof.
  assert (Hsize : 0 < 26 < 2 ^ 31) by lia.
  split; [exact Hsize|].
  exact (proj1 (@C8_font_loading_falls_back dejavu_machine 26 Hsize)).
Defined.

(** C8 as stated fails: at size 0, on the machine with the DejaVu fonts,
    the third candidate exists, [truetype] refuses the size and the call
    raises. *)
Lemma C8_size_zero_raises :
  @path_exists dejavu_machine
    (py "/usr/share/fonts/truetype/dejavu/DejaVuSans.ttf") = true
  ∧ Slides.font_candidates !! 2%nat
    = Some (py "/usr/share/fonts/truetype/dejavu/DejaVuSans.ttf")
  ∧ @Slides.truetype dejavu_machine
      (py "/usr/share/fonts/truetype/dejavu/DejaVuSans.ttf") 0
    = Slides.ValueError
  ∧ @Slides._load_font_call dejavu_machine 0 = None.
Proof. by vm_compute. Qed.

(** ** The order of strings and [sorted] *)

Global Instance str_le_dec : RelDecision str_le.
Proof. intros a b. unfold str_le. apply _. Defined.

Global Instance str_le_total : Total str_le.
Proof.
  intros a b. unfold str_le.
  destruct (trichotomy (lexico (A:=str)) a b) as [?|[?|?]]; auto.
Qed.

Global Instance str_le_trans : Transitive str_le.
Proof.
  intros a b c [Hab| ->] [Hbc| ->]; unfold str_le; auto.
  left. by etrans.
Qed.

Global Instance str_le_antisymm : AntiSymm (=) str_le.
Proof.
  intros a b [Hab|?] [Hba|?]; try done.
  destruct (irreflexivity (lexico (A:=str)) a). by etrans.
Qed.

Section sorted_facts.
Implicit Types (X : gset str) (l : list str) (i : str).

Lemma sorted_perm X : Slides.sorted X ≡ₚ elements X.
Proof. apply merge_sort_Permutation. Qed.

Lemma elem_of_sorted X i : i ∈ Slides.sorted X ↔ i ∈ X.
Proof. by rewrite sorted_perm, elem_of_elements. Qed.

Lemma NoDup_sorted X : NoDup (Slides.sorted X).
Proof. rewrite sorted_perm. apply NoDup_elements. Qed.

Lemma sorted_ascending X : StronglySorted str_le (Slides.sorted X).
Proof. apply (StronglySorted_merge_sort _). Qed.

Lemma strictly_ascending l :
  StronglySorted str_le l → NoDup l → StronglySorted lexico l.
Proof.
  induction 1 as [|a l Hs IH Ha]; intros Hnd; [constructor|].
  apply NoDup_cons in Hnd as [Hnotin Hnd].
  constructor; [by apply IH|].
  apply Forall_forall. intros b Hb.
  rewrite Forall_forall in Ha. destruct (Ha b Hb) as [?| ->]; done.
Qed.

Lemma sorted_strictly_ascending X : StronglySorted lexico (Slides.sorted X).
Proof.
  apply strictly_ascending; [apply sorted_ascending|apply NoDup_sorted].
Qed.

Lemma StronglySorted_filter (P : str → Prop) `{!∀ i, Decision (P i)} l :
  StronglySorted str_le l → StronglySorted str_le (filter P l).
Proof.
  induction 1 as [|a l Hs IH Ha]; [constructor|].
  rewrite filter_cons. destruct (decide (P a)); [|done].
  constructor; [done|].
  apply Forall_forall. intros b Hb. apply list_elem_of_filter in Hb as [_ Hb].
  rewrite Forall_forall in Ha. by apply Ha.
Qed.

(** Sorting a set without [i] is sorting the set and dropping [i]. *)
Lemma sorted_without X i :
  Slides.sorted (X ∖ {[i]}) = filter (λ j, j ≠ i) (Slides.sorted X).
Proof.
  apply (StronglySorted_unique str_le).
  - apply sorted_ascending.
  - apply StronglySorted_filter, sorted_ascending.
  - apply NoDup_Permutation.
    + apply NoDup_sorted.
    + apply NoDup_filter, NoDup_sorted.
    + intros j. rewrite list_elem_of_filter, !elem_of_sorted.
      rewrite elem_of_difference, elem_of_singleton. tauto.
Qed.

(** The place of a member in the sorted list. *)
Lemma sorted_split X i :
  i ∈ X →
  ∃ l1 l2, Slides.sorted X = l1 ++ i :: l2 ∧ (i ∉ l1) ∧ (i ∉ l2).
Proof.
  intros Hi. apply elem_of_sorted in Hi.
  apply list_elem_of_split in Hi as (l1 & l2 & Heq).
  exists l1, l2. split; [done|].
  pose proof (NoDup_sorted X) as Hnd. rewrite Heq in Hnd.
  apply NoDup_app in Hnd as (_ & Hdisj & Hnd2).
  apply NoDup_cons in Hnd2 as [Hnot2 _]. split; [|done].
  intros Hin. apply (Hdisj i Hin). by left.
Qed.

End sorted_facts.

(** ** The preview loop of [main] *)

Section main_facts.
Context `{Platform}.
Implicit Types (by_id : gmap str Slides.slide_data) (ids : list str)
  (u i : str).

Lemma index_by_id_from (m : gmap str Slides.slide_data)
    (l : list Slides.slide_data) i :
  is_Some (foldl (λ m s, <[Slides.sd_id s := s]> m) m l !! i)
  ↔ is_Some (m !! i) ∨ i ∈ Slides.sd_id <$> l.
Proof.
  revert m. induction l as [|s l IH]; intros m; simpl.
  - rewrite elem_of_nil. tauto.
  - rewrite IH, elem_of_cons, lookup_insert_is_Some'.
    split; [intros [[<-|?]|?]|intros [?|[->|?]]]; auto.
Qed.

(** An id is in the index exactly when some descriptor carries it. *)
Lemma index_by_id_known (l : list Slides.slide_data) i :
  is_Some (Slides.index_by_id l !! i) ↔ i ∈ Slides.sd_id <$> l.
Proof.
  unfold Slides.index_by_id. rewrite index_by_id_from, lookup_empty.
  split; [intros [[? ?]|?]; done|auto].
Qed.

Lemma out_path_eq i :
  Slides.out_path i
  = Slides.PREVIEWS_DIR ++ py "/" ++ py "preview_" ++ i ++ py ".png".
Proof. done. Qed.

Global Instance out_path_inj : Inj (=) (=) Slides.out_path.
Proof.
  intros i j. rewrite !out_path_eq. intros Heq.
  do 3 apply app_inv_head in Heq. by apply app_inv_tail in Heq.
Qed.

Global Instance unknown_warning_inj : Inj (=) (=) Slides.unknown_warning.
Proof.
  intros i j. unfold Slides.unknown_warning. intros Heq.
  apply app_inv_head in Heq. by apply app_inv_tail in Heq.
Qed.

Lemma saved_pngs_loop by_id ids :
  saved_pngs (ids ≫= Slides.preview_one by_id)
  = Slides.out_path <$> filter (λ i, is_Some (by_id !! i)) ids.
Proof.
  induction ids as [|i ids IH]; [done|].
  rewrite bind_cons. unfold saved_pngs in *. rewrite omap_app, IH.
  rewrite filter_cons. unfold Slides.preview_one at 1.
  destruct (by_id !! i) as [sd|] eqn:Hi.
  - rewrite decide_True by done. done.
  - rewrite decide_False by (by intros [? ?]). done.
Qed.

(** Dropping an unknown id changes no saved file. *)
Lemma saved_images_without by_id ids u :
  by_id !! u = None →
  saved_images (filter (λ j, j ≠ u) ids ≫= Slides.preview_one by_id)
  = saved_images (ids ≫= Slides.preview_one by_id).
Proof.
  intros Hu. induction ids as [|i ids IH]; [done|].
  rewrite filter_cons, (bind_cons _ i). unfold saved_images in *.
  rewrite omap_app, <-IH.
  destruct (decide (i ≠ u)) as [Hne|Heq].
  - by rewrite bind_cons, omap_app.
  - apply dec_stable in Heq as ->.
    unfold Slides.preview_one at 2. by rewrite Hu.
Qed.

(** The warning about [u] is printed for [u] only. *)
Lemma printed_loop_other by_id ids u :
  u ∉ ids →
  Slides.unknown_warning u ∉ printed (ids ≫= Slides.preview_one by_id).
Proof.
  intros Hu. induction ids as [|i ids IH]; [by apply not_elem_of_nil|].
  apply not_elem_of_cons in Hu as [Hne Hu].
  rewrite bind_cons. unfold printed in *. rewrite omap_app.
  apply not_elem_of_app. split; [|by apply IH].
  unfold Slides.preview_one. destruct (by_id !! i); simpl.
  - rewrite list_elem_of_singleton. unfold Slides.unknown_warning.
    intros Heq. by vm_compute in Heq.
  - rewrite list_elem_of_singleton.
    intros Heq. by apply (inj Slides.unknown_warning) in Heq.
Qed.

Lemma printed_pptx output_path u :
  Slides.unknown_warning u ∉ printed (Slides.generate_pptx output_path).
Proof.
  unfold Slides.generate_pptx, printed. simpl.
  rewrite list_elem_of_singleton. unfold Slides.unknown_warning.
  intros Heq. by vm_compute in Heq.
Qed.

End main_facts.

Lemma saved_pngs_app (a b : list event) :
  saved_pngs (a ++ b) = saved_pngs a ++ saved_pngs b.
Proof. apply omap_app. Qed.

Lemma saved_pngs_mkdir (d : str) (l : list event) :
  saved_pngs (Mkdir d :: l) = saved_pngs l.
Proof. done. Qed.

Lemma printed_app (a b : list event) :
  printed (a ++ b) = printed a ++ printed b.
Proof. apply omap_app. Qed.

Lemma printed_print (s : str) (l : list event) :
  printed ([Print s] ++ l) = s :: printed l.
Proof. done. Qed.

Lemma saved_images_app (a b : list event) :
  saved_images (a ++ b) = saved_images a ++ saved_images b.
Proof. apply omap_app. Qed.

Lemma saved_images_mkdir (d : str) (l : list event) :
  saved_images (Mkdir d :: l) = saved_images l.
Proof. done. Qed.

Section main_run.
Context `{Platform}.

(** The ids [main] previews: the ones given, or the default four. *)
Lemma main_events (args : Slides.Args) :
  Slides.no_previews args = false →
  Slides.main args
  = (if Slides.no_pptx args then []
     else Slides.generate_pptx Slides.OUT_PPTX)
    ++ Mkdir Slides.PREVIEWS_DIR
       :: (Slides.sorted
             (match Slides.preview_slides args with
              | Some ids => list_to_set ids
              | None => Slides.default_preview_ids
              end)
           ≫= Slides.preview_one (Slides.index_by_id Slides.SLIDES)).
Proof. intros Hp. unfold Slides.main. by rewrite Hp. Qed.

Lemma saved_pngs_main (args : Slides.Args) :
  Slides.no_previews args = false →
  saved_pngs (Slides.main args)
  = Slides.out_path
      <$> filter (λ i, i ∈ Slides.sd_id <$> Slides.SLIDES)
            (Slides.sorted
               (match Slides.preview_slides args with
                | Some ids => list_to_set ids
                | None => Slides.default_preview_ids
                end)).
Proof.
  intros Hp. rewrite (main_events args Hp), saved_pngs_app, saved_pngs_mkdir.
  assert (saved_pngs (if Slides.no_pptx args then []
                      else Slides.generate_pptx Slides.OUT_PPTX) = []) as ->
    by by destruct (Slides.no_pptx args).
  rewrite (left_id_L [] (++)).
  rewrite saved_pngs_loop. f_equal.
  apply list_filter_iff. intros i. apply index_by_id_known.
Qed.

Lemma saved_images_main (args : Slides.Args) :
  Slides.no_previews args = false →
  saved_images (Slides.main args)
  = saved_images
      (Slides.sorted
         (match Slides.preview_slides args with
          | Some ids => list_to_set ids
          | None => Slides.default_preview_ids
          end)
       ≫= Slides.preview_one (Slides.index_by_id Slides.SLIDES)).
Proof.
  intros Hp.
  rewrite (main_events args Hp), saved_images_app, saved_images_mkdir.
  assert (saved_images (if Slides.no_pptx args then []
                        else Slides.generate_pptx Slides.OUT_PPTX) = [])
    as -> by by destruct (Slides.no_pptx args).
  done.
Qed.

Lemma printed_main (args : Slides.Args) :
  Slides.no_previews args = false →
  printed (Slides.main args)
  = printed (if Slides.no_pptx args then []
             else Slides.generate_pptx Slides.OUT_PPTX)
    ++ printed
         (Slides.sorted
            (match Slides.preview_slides args with
             | Some ids => list_to_set ids
             | None => Slides.default_preview_ids
             end)
          ≫= Slides.preview_one (Slides.index_by_id Slides.SLIDES)).
Proof.
  intros Hp. rewrite (main_events args Hp). unfold printed.
  by rewrite omap_app.
Qed.

End main_run.

(** C10.  When previews are not skipped, the requested ids (the ones given
    with the flag, or the default four when the flag is absent) are
    processed in strictly ascending order of their code points, each
    distinct id once; the files written are, in that order, the preview
    files of the requested ids that some descriptor of the deck carries, one
    file per such id.  The flag with an empty list writes no preview file;
    without the flag the four default previews are written. *)
Theorem C10_preview_ids_sorted_and_deduplicated `{Platform}
    (args : Slides.Args) :
  Slides.no_previews args = false →
  let requested : gset str :=
    match Slides.preview_slides args with
    | Some ids => list_to_set ids
    | None => Slides.default_preview_ids
    end in
  let processed := Slides.sorted requested in
  let known i := i ∈ Slides.sd_id <$> Slides.SLIDES in
  (∃ pptx,
     Slides.main args
     = pptx ++ Mkdir Slides.PREVIEWS_DIR
         :: (processed
             ≫= Slides.preview_one (Slides.index_by_id Slides.SLIDES)))
  ∧ StronglySorted lexico processed
  ∧ NoDup processed
  ∧ (∀ i, i ∈ processed ↔ i ∈ requested)
  ∧ saved_pngs (Slides.main args) = Slides.out_path <$> filter known processed
  ∧ NoDup (saved_pngs (Slides.main args))
  ∧ (∀ i, Slides.out_path i ∈ saved_pngs (Slides.main args)
          ↔ i ∈ requested ∧ known i)
  ∧ (Slides.preview_slides args = Some [] →
     saved_pngs (Slides.main args) = [])
  ∧ (Slides.preview_slides args = None →
     saved_pngs (Slides.main args)
     = Slides.out_path
         <$> [ py "agenda"; py "architecture-high-level";
               py "scenario-1-dns-symptoms"; py "title" ]).
Proof.
  intros Hp. cbv zeta. rewrite (saved_pngs_main args Hp). split_and!.
  - eexists. apply (main_events args Hp).
  - apply sorted_strictly_ascending.
  - apply NoDup_sorted.
  - intros i. apply elem_of_sorted.
  - done.
  - apply (NoDup_fmap_2 _), NoDup_filter, NoDup_sorted.
  - intros i. rewrite (list_elem_of_fmap_inj _), list_elem_of_filter.
    rewrite elem_of_sorted. tauto.
  - intros ->. done.
  - intros ->. apply (f_equal (fmap Slides.out_path)). by vm_compute.
Qed.

(** C10 at a run that asks for "title" twice and for "agenda": two files,
    "agenda" first. *)
Lemma C10_duplicate_request_writes_one_file :
  let args :=
    {| Slides.no_pptx := true;
       Slides.no_previews := false;
       Slides.preview_slides := Some [py "title"; py "agenda"; py "title"] |} in
  Slides.no_previews args = false
  ∧ saved_pngs (@Slides.main bare_machine args)
    = [ py "/repo/docs/previews/preview_agenda.png";
        py "/repo/docs/previews/preview_title.png" ].
Proof.
  cbv zeta. split; [reflexivity|].
  pose proof (@C10_preview_ids_sorted_and_deduplicated bare_machine
                {| Slides.no_pptx := true;
                   Slides.no_previews := false;
                   Slides.preview_slides :=
                     Some [py "title"; py "agenda"; py "title"] |}
                eq_refl) as (_ & _ & _ & _ & Hsaved & _).
  rewrite Hsaved. by vm_compute.
Defined.

Lemma list_to_set_without (ids : list str) (u : str) :
  list_to_set (filter (λ j, j ≠ u) ids) =@{gset str} list_to_set ids ∖ {[u]}.
Proof.
  apply set_eq. intros j.
  rewrite elem_of_difference, !elem_of_list_to_set, list_elem_of_filter.
  rewrite elem_of_singleton. tauto.
Qed.

Lemma preview_one_unknown `{Platform} (by_id : gmap str Slides.slide_data)
    (u : str) :
  by_id !! u = None →
  Slides.preview_one by_id u = [ Print (Slides.unknown_warning u) ].
Proof. intros Hu. unfold Slides.preview_one. by rewrite Hu. Qed.

(** C3.  A requested preview id that no descriptor of the deck carries
    makes [main] print exactly one warning line naming it and write no file
    for it; the preview files written, names and contents, are those of the
    run without that id; and the loop goes on with the ids that follow it in
    the sorted order. *)
Theorem C3_unknown_preview_id_warns_and_is_skipped `{Platform}
    (args : Slides.Args) (ids : list str) (u : str) :
  Slides.no_previews args = false →
  Slides.preview_slides args = Some ids →
  u ∈ ids →
  u ∉ Slides.sd_id <$> Slides.SLIDES →
  let others :=
    {| Slides.no_pptx := Slides.no_pptx args;
       Slides.no_previews := false;
       Slides.preview_slides := Some (filter (λ j, j ≠ u) ids) |} in
  let by_id := Slides.index_by_id Slides.SLIDES in
  Slides.preview_one by_id u = [ Print (Slides.unknown_warning u) ]
  ∧ (∃ before after,
       printed (Slides.main args) = before ++ Slides.unknown_warning u :: after
       ∧ (Slides.unknown_warning u ∉ before)
       ∧ (Slides.unknown_warning u ∉ after))
  ∧ (Slides.out_path u ∉ saved_pngs (Slides.main args))
  ∧ saved_images (Slides.main args) = saved_images (Slides.main others)
  ∧ (∃ l1 l2,
       Slides.sorted (list_to_set ids) = l1 ++ u :: l2
       ∧ Slides.main args
         = (if Slides.no_pptx args then []
            else Slides.generate_pptx Slides.OUT_PPTX)
           ++ Mkdir Slides.PREVIEWS_DIR
              :: (l1 ≫= Slides.preview_one by_id)
              ++ Print (Slides.unknown_warning u)
                 :: (l2 ≫= Slides.preview_one by_id)).
Proof.
  intros Hp Hids Hu Hunknown. cbv zeta.
  assert (Slides.index_by_id Slides.SLIDES !! u = None) as Hnone.
  { apply eq_None_not_Some. by rewrite index_by_id_known. }
  assert (Slides.preview_one (Slides.index_by_id Slides.SLIDES) u
          = [Print (Slides.unknown_warning u)]) as Hone.
  { by apply preview_one_unknown. }
  destruct (sorted_split (list_to_set ids) u) as (l1 & l2 & Hsplit & H1 & H2).
  { by apply elem_of_list_to_set. }
  split_and!.
  - exact Hone.
  - rewrite (printed_main args Hp), Hids, Hsplit.
    rewrite bind_app, bind_cons, Hone, printed_app, printed_print.
    exists (printed (if Slides.no_pptx args then []
                     else Slides.generate_pptx Slides.OUT_PPTX)
            ++ printed (l1 ≫= Slides.preview_one
                                 (Slides.index_by_id Slides.SLIDES))),
      (printed (l2 ≫= Slides.preview_one (Slides.index_by_id Slides.SLIDES))).
    split; [by rewrite <-(assoc_L (++))|].
    split; [|by apply printed_loop_other].
    apply not_elem_of_app. split; [|by apply printed_loop_other].
    destruct (Slides.no_pptx args); [apply not_elem_of_nil|apply printed_pptx].
  - rewrite (saved_pngs_main args Hp), (list_elem_of_fmap_inj _).
    rewrite list_elem_of_filter. tauto.
  - rewrite (saved_images_main args Hp), saved_images_main by done.
    rewrite Hids. cbn [Slides.preview_slides].
    rewrite list_to_set_without, sorted_without.
    by rewrite saved_images_without.
  - exists l1, l2. split; [done|].
    rewrite (main_events args Hp), Hids, Hsplit.
    by rewrite bind_app, bind_cons, Hone.
Qed.

(** C3 at a run that asks for an id the deck does not have and for
    "agenda": one warning, after the preview of "agenda" is saved. *)
Lemma C3_unknown_id_next_to_a_known_one :
  let args :=
    {| Slides.no_pptx := true;
       Slides.no_previews := false;
       Slides.preview_slides := Some [py "no-such-slide"; py "agenda"] |} in
  (py "no-such-slide" ∈ [py "no-such-slide"; py "agenda"])
  ∧ printed (@Slides.main bare_machine args)
    = [ py "[preview] Saved → /repo/docs/previews/preview_agenda.png";
        py "[preview] Unknown slide id 'no-such-slide' – skipping." ]
  ∧ saved_pngs (@Slides.main bare_machine args)
    = [ py "/repo/docs/previews/preview_agenda.png" ]
  ∧ @Slides.preview_one bare_machine
      (Slides.index_by_id Slides.SLIDES) (py "no-such-slide")
    = [ Print (Slides.unknown_warning (py "no-such-slide")) ].
Proof.
  cbv zeta. split; [by left|]. split; [by vm_compute|].
  split; [by vm_compute|].
  refine (proj1 (@C3_unknown_preview_id_warns_and_is_skipped bare_machine
                   {| Slides.no_pptx := true;
                      Slides.no_previews := false;
                      Slides.preview_slides :=
                        Some [py "no-such-slide"; py "agenda"] |}
                   [py "no-such-slide"; py "agenda"] (py "no-such-slide")
                   eq_refl eq_refl _ _)).
  - by left.
  - apply (bool_decide_unpack _). by vm_compute.
Defined.

(** * Further properties *)

(** ** The wrapping loop, line by line *)

Section wrap_lines_more.
Context `{Platform}.
Implicit Types (f : font) (s w current : str) (lines ws : list str).

Lemma flush_truthy lines current :
  (if truthy current then lines ++ [current] else lines)
  = lines ++ flush current.
Proof. destruct current; [|done]. symmetry. apply (right_id_L [] (++)). Qed.

Lemma wrap_fold_from f max_width ws lines current :
  let st := foldl (Slides.wrap_step f max_width) (lines, current) ws in
  st.1 ++ flush st.2 = lines ++ wrap_from f max_width current ws.
Proof.
  cbv zeta. revert lines current.
  induction ws as [|w ws IH]; intros lines current; [done|].
  rewrite wrap_fold_cons. cbn [wrap_from].
  destruct (Slides.text_width f _ <=? max_width); rewrite IH; [done|].
  by rewrite flush_truthy, <-(assoc_L (++)).
Qed.

Lemma wrap_lines_from f s max_width :
  Slides.wrap_lines f s max_width = wrap_from f max_width [] (split s).
Proof.
  unfold Slides.wrap_lines.
  pose proof (wrap_fold_from f max_width (split s) [] []) as Hfold.
  cbv zeta in Hfold. destruct (foldl _ _ _) as [lines current].
  by rewrite flush_truthy.
Qed.


Lemma split_go_nil (acc s : str) :
  split_go acc s = [] ↔ acc = [] ∧ Forall (λ c, isspace c = true) s.
Proof.
  revert acc. induction s as [|c s IH]; intros acc; simpl.
  - destruct acc; simpl; split; try done. by intros [? _].
  - destruct (isspace c) eqn:Hc.
    + rewrite app_nil, IH. destruct acc; simpl.
      * split; [intros [_ [_ ?]]|intros [_ Hs]]; [by split; [|constructor]|].
        apply Forall_cons in Hs as [_ ?]. done.
      * split; [by intros [? _]|by intros [? _]].
    + rewrite IH. split.
      * intros [Hacc _]. by destruct acc.
      * intros [_ Hs]. apply Forall_cons in Hs as [Hs _]. congruence.
Qed.

Lemma split_nil s : split s = [] ↔ Forall (λ c, isspace c = true) s.
Proof. unfold split. rewrite split_go_nil. tauto. Qed.

Lemma join_words_cons w ws :
  ws ≠ [] → join_words (w :: ws) = w ++ SPACE ++ join_words ws.
Proof. by destruct ws. Qed.

Lemma join_words_snoc ws w :
  ws ≠ [] → join_words (ws ++ [w]) = join_words ws ++ SPACE ++ w.
Proof.
  induction ws as [|v ws IH]; [done|]. intros _.
  destruct ws as [|v' ws]; [done|].
  change ((v :: v' :: ws) ++ [w]) with (v :: ((v' :: ws) ++ [w])).
  rewrite join_words_cons by done. rewrite IH by done.
  rewrite (join_words_cons v (v' :: ws)) by done.
  by rewrite <-!(assoc_L (++)).
Qed.

Lemma split_app_space (a b : str) :
  split (a ++ SPACE ++ b) = split a ++ split b.
Proof. unfold split, SPACE. simpl app. by apply split_go_app_space. Qed.

Lemma split_join_words ws : Forall is_word ws → split (join_words ws) = ws.
Proof.
  induction 1 as [|w ws Hw Hws IH]; [done|].
  destruct ws as [|v ws]; [by apply split_word|].
  rewrite join_words_cons by done.
  by rewrite split_app_space, IH, (split_word w Hw).
Qed.

Lemma word_first w : is_word w → ∃ c t, w = c :: t ∧ isspace c = false.
Proof.
  intros [Hne Hw]. destruct w as [|c t]; [done|].
  apply Forall_cons in Hw as [Hc _]. by exists c, t.
Qed.

Lemma word_last w : is_word w → ∃ t d, w = t ++ [d] ∧ isspace d = false.
Proof.
  intros [Hne Hw]. revert Hne Hw.
  induction w as [|d t _] using rev_ind; intros Hne Hw; [done|].
  rewrite Forall_app, Forall_singleton in Hw. destruct Hw as [_ Hd].
  by exists t, d.
Qed.

Lemma strip_ends (x : str) :
  (∃ c t, x = c :: t ∧ isspace c = false) →
  (∃ t d, x = t ++ [d] ∧ isspace d = false) →
  strip x = x.
Proof.
  intros (c & t & Hx & Hc) (t' & d & Hx' & Hd). unfold strip.
  assert (lstrip x = x) as -> by (rewrite Hx; simpl; by rewrite Hc).
  unfold rstrip. rewrite Hx', reverse_app. simpl. rewrite Hd.
  by rewrite reverse_cons, reverse_involutive.
Qed.

Lemma tidy_first l : tidy l → ∃ c t, l = c :: t ∧ isspace c = false.
Proof.
  intros (ws & Hne & Hws & ->). destruct Hws as [|w ws Hw Hws]; [done|].
  destruct (word_first w Hw) as (c & t & -> & Hc).
  destruct ws; [by exists c, t|]. rewrite join_words_cons by done.
  by eexists c, _.
Qed.

Lemma tidy_last l : tidy l → ∃ t d, l = t ++ [d] ∧ isspace d = false.
Proof.
  intros (ws & Hne & Hws & ->). revert Hne Hws.
  induction ws as [|w ws _] using rev_ind; intros Hne Hws; [done|].
  rewrite Forall_app, Forall_singleton in Hws. destruct Hws as [Hws Hw].
  destruct (word_last w Hw) as (t & d & -> & Hd).
  destruct ws as [|v ws]; [by exists t, d|].
  rewrite join_words_snoc by done.
  exists (join_words (v :: ws) ++ SPACE ++ t), d.
  by rewrite <-!(assoc_L (++)).
Qed.

Lemma tidy_facts l :
  tidy l → l ≠ [] ∧ split l ≠ [] ∧ l = join_words (split l) ∧ strip l = l.
Proof.
  intros Hl. pose proof Hl as (ws & Hne & Hws & Heq).
  destruct (tidy_first l Hl) as (c & t & Hc & ?).
  assert (split l = ws) as Hs by (rewrite Heq; by apply split_join_words).
  split_and!.
  - by rewrite Hc.
  - by rewrite Hs.
  - by rewrite Hs.
  - apply strip_ends; [by exists c, t|by apply tidy_last].
Qed.

(** Joining a word to a line keeps it tidy, and nothing is stripped. *)
Lemma tidy_step current w :
  current = [] ∨ tidy current → is_word w →
  tidy (strip (current ++ SPACE ++ w))
  ∧ strip (current ++ SPACE ++ w)
    = if truthy current then current ++ SPACE ++ w else w.
Proof.
  intros [->|Hc] Hw.
  - change ([] ++ SPACE ++ w) with (SPACE ++ w).
    rewrite strip_space_word by done. split; [|done].
    exists [w]. by split_and!; [|constructor|].
  - pose proof Hc as (ws & Hne & Hws & Heq).
    destruct (tidy_first current Hc) as (c & t & Hcur & Hcsp).
    destruct (word_last w Hw) as (t' & d & Hwd & Hd).
    assert (strip (current ++ SPACE ++ w) = current ++ SPACE ++ w) as ->.
    { apply strip_ends.
      - exists c, (t ++ SPACE ++ w). by rewrite Hcur.
      - exists (current ++ SPACE ++ t'), d.
        by rewrite Hwd, <-!(assoc_L (++)). }
    split; [|by rewrite Hcur].
    exists (ws ++ [w]). split_and!.
    + by destruct ws.
    + apply Forall_app. by split; [|constructor].
    + by rewrite join_words_snoc, Heq.
Qed.

Lemma wrap_from_tidy f max_width ws :
  Forall is_word ws → ∀ current,
  current = [] ∨ tidy current →
  Forall tidy (wrap_from f max_width current ws).
Proof.
  induction 1 as [|w ws Hw _ IH]; intros current Hc; cbn [wrap_from].
  - destruct Hc as [->|Hc]; [done|].
    destruct (tidy_facts current Hc) as (Hne & _).
    rewrite flush_nonempty by done. by constructor.
  - destruct (tidy_step current w Hc Hw) as [Htest _].
    destruct (Slides.text_width f _ <=? max_width).
    + apply IH. by right.
    + apply Forall_app. split.
      * destruct Hc as [->|Hc]; [done|].
        destruct (tidy_facts current Hc) as (Hne & _).
        rewrite flush_nonempty by done. by constructor.
      * apply IH. right. exists [w]. by split_and!; [|constructor|].
Qed.

Lemma wrap_lines_tidy f s max_width :
  Forall tidy (Slides.wrap_lines f s max_width).
Proof.
  rewrite wrap_lines_from.
  apply wrap_from_tidy; [apply split_words|by left].
Qed.


Lemma length_bind_split lines :
  Forall tidy lines → (length lines ≤ length (lines ≫= split))%nat.
Proof.
  induction 1 as [|l lines Hl _ IH]; [done|].
  rewrite bind_cons, length_app. cbn [length].
  destruct (tidy_facts l Hl) as (_ & Hs & _).
  destruct (split l); [done|]. cbn [length]. lia.
Qed.

(** The first line starts with the first word at hand, and every later
    break is forced. *)
Lemma wrap_from_forced f max_width ws :
  Forall is_word ws → ∀ current,
  current = [] ∨ split current ≠ [] →
  match wrap_from f max_width current ws with
  | [] => split current ++ ws = []
  | l :: ls =>
    head (split l) = head (split current ++ ws)
    ∧ Forall (forced_break f max_width) (zip (l :: ls) ls)
  end.
Proof.
  induction 1 as [|w ws Hw _ IH]; intros current Hc; cbn [wrap_from].
  - destruct Hc as [->|Hc]; [done|].
    assert (current ≠ []) by (by intros ->).
    rewrite flush_nonempty by done. rewrite (right_id_L [] (++)).
    by split; [|constructor].
  - pose proof (split_strip_join current w Hw) as Htest.
    destruct (Slides.text_width f _ <=? max_width) eqn:Hfit.
    + assert (split (strip (current ++ SPACE ++ w)) ≠ []) as Hne
        by (rewrite Htest; by destruct (split current)).
      specialize (IH _ (or_intror Hne)).
      destruct (wrap_from _ _ _ ws) as [|l ls].
      * rewrite Htest in IH. by destruct (split current).
      * destruct IH as [Hhead Hforced]. split; [|done].
        by rewrite Hhead, Htest, <-(assoc_L (++)).
    + assert (split w ≠ []) as Hne by (by rewrite (split_word w Hw)).
      specialize (IH _ (or_intror Hne)). rewrite (split_word w Hw) in IH.
      destruct (wrap_from _ _ w ws) as [|l ls]; [done|].
      destruct IH as [Hhead Hforced].
      destruct Hc as [->|Hc]; [done|].
      assert (current ≠ []) by (by intros ->).
      rewrite flush_nonempty by done. cbn [app zip zip_with].
      split; [by destruct (split current)|].
      constructor; [|done].
      destruct (split l) as [|w' rest] eqn:Hl; [done|].
      injection Hhead as ->. exists w, rest. split; [done|].
      cbn [fst]. by apply Z.leb_gt.
Qed.

End wrap_lines_more.

(** X1.  [_draw_wrapped_text] draws at most as many lines as the text has
    words.  It draws nothing exactly when the text has no word, that is when
    it is empty or made of whitespace only, and then it returns [y]
    unchanged. *)
Theorem X1_wrap_draws_at_most_one_line_per_word `{Platform}
    (s : str) (f : font) (x y max_width : Z) (fill : color)
    (line_height : option Z) :
  let r := Slides._draw_wrapped_text s f x y max_width fill line_height in
  (length (drawn_texts r.1) ≤ length (split s))%nat
  ∧ (drawn_texts r.1 = [] ↔ split s = [])
  ∧ (split s = [] ↔ Forall (λ c, isspace c = true) s)
  ∧ (r = ([], y) ↔ split s = []).
Proof.
  cbv zeta. unfold Slides._draw_wrapped_text. rewrite draw_lines_texts.
  pose proof (wrap_lines_words f s max_width) as Hwords.
  pose proof (length_bind_split _ (wrap_lines_tidy f s max_width)) as Hlen.
  rewrite Hwords in Hlen.
  assert (Slides.wrap_lines f s max_width = [] ↔ split s = []) as Hnil.
  { split.
    - intros Hl. by rewrite Hl in Hwords.
    - intros Hs. rewrite Hs in Hlen.
      by destruct (Slides.wrap_lines f s max_width); [|simpl in Hlen; lia]. }
  split_and!; [done|done|apply split_nil|].
  rewrite <-Hnil. split.
  - intros Hr. apply (f_equal (drawn_texts ∘ fst)) in Hr. simpl in Hr.
    by rewrite draw_lines_texts in Hr.
  - by intros ->.
Qed.

(** X2.  Every line [_draw_wrapped_text] draws is its words joined by single
    spaces: it is not empty, it has no whitespace at either end, and runs of
    whitespace of the text (tabs, line breaks, several spaces) do not
    survive in it. *)
Theorem X2_wrapped_lines_are_words_joined_by_one_space `{Platform}
    (s : str) (f : font) (x y max_width : Z) (fill : color)
    (line_height : option Z) :
  Forall (λ l,
            l ≠ [] ∧ strip l = l ∧ split l ≠ []
            ∧ Forall is_word (split l) ∧ l = join_words (split l))
    (drawn_texts
       (Slides._draw_wrapped_text s f x y max_width fill line_height).1).
Proof.
  unfold Slides._draw_wrapped_text. rewrite draw_lines_texts.
  eapply Forall_impl; [apply wrap_lines_tidy|]. simpl. intros l Hl.
  destruct (tidy_facts l Hl) as (? & ? & ? & ?).
  split_and!; try done. apply split_words.
Qed.

(** X3.  The wrap is greedy: between two consecutive lines the break was
    forced, the first line joined by a space to the first word of the next
    one being wider than the column. *)
Theorem X3_line_breaks_are_forced `{Platform}
    (s : str) (f : font) (x y max_width : Z) (fill : color)
    (line_height : option Z) :
  let lines :=
    drawn_texts
      (Slides._draw_wrapped_text s f x y max_width fill line_height).1 in
  Forall (λ pair,
            ∃ w rest,
              split pair.2 = w :: rest
              ∧ max_width
                < Slides.text_width f (strip (pair.1 ++ SPACE ++ w)))
    (zip lines (tail lines)).
Proof.
  cbv zeta. unfold Slides._draw_wrapped_text.
  rewrite draw_lines_texts, wrap_lines_from.
  pose proof (wrap_from_forced f max_width (split s) (split_words s) []
                (or_introl eq_refl)) as Hforced.
  destruct (wrap_from f max_width [] (split s)) as [|l ls]; [by constructor|].
  by destruct Hforced as [_ Hforced].
Qed.

(** ** The index of the descriptors *)

Section index_more.
Implicit Types (l : list Slides.slide_data) (i : str) (s : Slides.slide_data).

Lemma index_by_id_from_last (m : gmap str Slides.slide_data) l i :
  foldl (λ m s, <[Slides.sd_id s := s]> m) m l !! i
  = match last (filter (λ s, Slides.sd_id s = i) l) with
    | Some s => Some s
    | None => m !! i
    end.
Proof.
  revert m. induction l as [|a l IH]; intros m; [done|].
  cbn [foldl]. rewrite IH, filter_cons.
  destruct (decide (Slides.sd_id a = i)) as [Ha|Ha].
  - rewrite last_cons. destruct (last (filter _ l)); [done|].
    by rewrite Ha, lookup_insert_eq.
  - destruct (last (filter _ l)); [done|]. by rewrite lookup_insert_ne.
Qed.

Lemma index_by_id_last l i :
  Slides.index_by_id l !! i = last (filter (λ s, Slides.sd_id s = i) l).
Proof.
  unfold Slides.index_by_id. rewrite index_by_id_from_last, lookup_empty.
  by destruct (last _).
Qed.

Lemma index_by_id_Some l i s :
  Slides.index_by_id l !! i = Some s → s ∈ l ∧ Slides.sd_id s = i.
Proof.
  rewrite index_by_id_last. intros Hs. apply last_Some_elem_of in Hs.
  apply list_elem_of_filter in Hs as [? ?]. done.
Qed.

Lemma filter_id_unique l s :
  NoDup (Slides.sd_id <$> l) → s ∈ l →
  filter (λ s', Slides.sd_id s' = Slides.sd_id s) l = [s].
Proof.
  induction l as [|a l IH]; intros Hnd Hin; [by apply elem_of_nil in Hin|].
  rewrite fmap_cons in Hnd. apply NoDup_cons in Hnd as [Hnotin Hnd].
  apply elem_of_cons in Hin as [->|Hin].
  - rewrite filter_cons_True by done. f_equal.
    destruct (filter _ l) as [|b rest] eqn:Hf; [done|]. exfalso.
    assert (b ∈ filter (λ s', Slides.sd_id s' = Slides.sd_id a) l) as Hb
      by (rewrite Hf; by left).
    apply list_elem_of_filter in Hb as [Hid Hb]. apply Hnotin.
    rewrite <-Hid. by apply list_elem_of_fmap_2.
  - rewrite filter_cons_False; [by apply IH|].
    intros Hid. apply Hnotin. rewrite Hid. by apply list_elem_of_fmap_2.
Qed.

Lemma slides_ids_distinct : NoDup (Slides.sd_id <$> Slides.SLIDES).
Proof. apply (bool_decide_unpack _). by vm_compute. Qed.

End index_more.

(** X4.  In the index built by [{s["id"]: s for s in ...}] an id leads to
    the last descriptor that carries it (an earlier one with the same id is
    shadowed), and to nothing when no descriptor carries it.  The ids of the
    deck are pairwise distinct, so each of its descriptors is found under
    its own id. *)
Theorem X4_index_by_id_last_descriptor_wins
    (l : list Slides.slide_data) (i : str) :
  Slides.index_by_id l !! i = last (filter (λ s, Slides.sd_id s = i) l)
  ∧ NoDup (Slides.sd_id <$> Slides.SLIDES)
  ∧ Forall (λ s, Slides.index_by_id Slides.SLIDES !! Slides.sd_id s = Some s)
      Slides.SLIDES.
Proof.
  split_and!.
  - apply index_by_id_last.
  - apply slides_ids_distinct.
  - apply Forall_forall. intros s Hs.
    rewrite index_by_id_last, filter_id_unique; [done| |done].
    apply slides_ids_distinct.
Qed.

(** ** What a run prints and saves *)

Section main_more.
Context `{Platform}.
Implicit Types (by_id : gmap str Slides.slide_data) (ids : list str).

Lemma printed_loop by_id ids :
  printed (ids ≫= Slides.preview_one by_id)
  = (λ i, match by_id !! i with
          | Some _ => py "[preview] Saved → " ++ Slides.out_path i
          | None => Slides.unknown_warning i
          end) <$> ids.
Proof.
  induction ids as [|i ids IH]; [done|].
  rewrite bind_cons, printed_app, IH, fmap_cons.
  unfold Slides.preview_one at 1. by destruct (by_id !! i).
Qed.

Lemma saved_images_loop by_id ids :
  Forall (λ pi, ∃ i sd,
            by_id !! i = Some sd ∧ pi = (Slides.out_path i,
                                        Slides.render_preview sd))
    (saved_images (ids ≫= Slides.preview_one by_id)).
Proof.
  induction ids as [|i ids IH]; [by constructor|].
  rewrite bind_cons, saved_images_app. apply Forall_app. split; [|done].
  unfold Slides.preview_one. destruct (by_id !! i) as [sd|] eqn:Hi.
  - constructor; [|by constructor]. by exists i, sd.
  - by constructor.
Qed.

Lemma main_any (args : Slides.Args) :
  Slides.main args
  = (if Slides.no_pptx args then []
     else Slides.generate_pptx Slides.OUT_PPTX)
    ++ (if Slides.no_previews args then []
        else Mkdir Slides.PREVIEWS_DIR
             :: (Slides.sorted
                   (match Slides.preview_slides args with
                    | Some ids => list_to_set ids
                    | None => Slides.default_preview_ids
                    end)
                 ≫= Slides.preview_one (Slides.index_by_id Slides.SLIDES))).
Proof. done. Qed.

Lemma printed_generate_pptx (output_path : str) :
  printed (Slides.generate_pptx output_path)
  = [ py "[pptx] Saved → " ++ output_path ].
Proof. done. Qed.

Lemma saved_generate_pptx (output_path : str) :
  saved_images (Slides.generate_pptx output_path) = []
  ∧ saved_pngs (Slides.generate_pptx output_path) = [].
Proof. done. Qed.

Lemma render_preview_size (sd : Slides.slide_data) :
  img_width (Slides.render_preview sd) = 1280
  ∧ img_height (Slides.render_preview sd) = 720.
Proof.
  unfold Slides.render_preview. case_decide; [done|].
  unfold Slides._render_content_slide.
  destruct (Slides.draw_bullets _ _ _) as [bullet_ops y].
  by destruct (Slides.draw_callouts _ _ _) as [callout_ops y'].
Qed.

End main_more.

(** X5.  What [main] prints: the line of the saved presentation unless
    [--no-pptx] is given, then, unless [--no-previews] is given, one line
    per distinct requested id in ascending order: the line of the saved
    preview when a descriptor of the deck carries the id, the warning
    otherwise.  With [--no-previews] no preview file is written. *)
Theorem X5_main_prints_one_line_per_requested_id `{Platform}
    (args : Slides.Args) :
  let requested : gset str :=
    match Slides.preview_slides args with
    | Some ids => list_to_set ids
    | None => Slides.default_preview_ids
    end in
  let line i :=
    if decide (i ∈ Slides.sd_id <$> Slides.SLIDES)
    then py "[preview] Saved → " ++ Slides.out_path i
    else Slides.unknown_warning i in
  printed (Slides.main args)
  = (if Slides.no_pptx args then []
     else [ py "[pptx] Saved → " ++ Slides.OUT_PPTX ])
    ++ (if Slides.no_previews args then []
        else line <$> Slides.sorted requested)
  ∧ (Slides.no_previews args = true → saved_pngs (Slides.main args) = []).
Proof.
  cbv zeta. rewrite main_any. split.
  - rewrite printed_app. f_equal.
    + destruct (Slides.no_pptx args); [done|apply printed_generate_pptx].
    + destruct (Slides.no_previews args); [done|].
      change (printed (Mkdir ?d :: ?l)) with (printed l).
      rewrite printed_loop. apply list_fmap_ext. intros _ i _.
      pose proof (index_by_id_known Slides.SLIDES i) as Hknown.
      destruct (Slides.index_by_id Slides.SLIDES !! i) as [sd|].
      * rewrite decide_True; [done|]. apply Hknown. by eexists.
      * rewrite decide_False; [done|]. intros Hin.
        apply Hknown in Hin. by destruct Hin.
  - intros ->. rewrite (right_id_L [] (++)).
    destruct (Slides.no_pptx args); [done|apply saved_generate_pptx].
Qed.

(** X6.  Every preview file [main] writes holds the rendering of a
    descriptor of the deck, the one whose id is in the file name, and is a
    1280 by 720 image. *)
Theorem X6_saved_previews_render_their_descriptor `{Platform}
    (args : Slides.Args) :
  Forall (λ pi,
            ∃ sd,
              sd ∈ Slides.SLIDES
              ∧ pi.1 = Slides.out_path (Slides.sd_id sd)
              ∧ pi.2 = Slides.render_preview sd
              ∧ img_width pi.2 = 1280 ∧ img_height pi.2 = 720)
    (saved_images (Slides.main args)).
Proof.
  rewrite main_any, saved_images_app. apply Forall_app. split.
  { destruct (Slides.no_pptx args); [by constructor|].
    destruct (saved_generate_pptx Slides.OUT_PPTX) as [-> _]. by constructor. }
  destruct (Slides.no_previews args); [by constructor|].
  rewrite saved_images_mkdir.
  eapply Forall_impl; [apply saved_images_loop|].
  intros pi (i & sd & Hlookup & ->).
  apply index_by_id_Some in Hlookup as [Hin <-].
  exists sd. destruct (render_preview_size sd) as [Hw Hh]. by split_and!.
Qed.

(** ** Geometry of the document *)

Section document_geometry.
Context `{Platform}.

Lemma bullet_boxes_within cr (bullets : list str) :
  cr = Slides.SLIDE_W - Inches 3.8 ∨ cr = Slides.SLIDE_W - Inches 0.5 →
  Forall (well_placed Slides.SLIDE_W) (Slides.bullet_boxes cr bullets).
Proof.
  intros Hcr. apply Forall_forall. intros s Hs.
  unfold Slides.bullet_boxes in Hs.
  apply elem_of_lookup_imap in Hs as (i & b & -> & _).
  unfold well_placed. rewrite bullet_box_top.
  destruct emu_values as (-> & -> & _).
  split_and!; [| |lia| |];
    unfold Slides.bullet_box; destruct (startswith b BULLET);
    destruct Hcr as [-> | ->]; by vm_compute.
Qed.

Lemma callout_boxes_within cr (bullets callouts : list str) :
  cr = Slides.SLIDE_W - Inches 3.8 ∨ cr = Slides.SLIDE_W - Inches 0.5 →
  Forall (well_placed Slides.SLIDE_W)
    (Slides.callout_boxes cr bullets callouts).
Proof.
  intros Hcr. apply Forall_forall. intros s Hs.
  unfold Slides.callout_boxes in Hs.
  destruct (truthy callouts); [|by apply elem_of_nil in Hs].
  apply list_elem_of_bind in Hs as (c & Hs & _).
  unfold Slides.callout_box, Slides.callout_top_emu in Hs.
  destruct emu_values as (Ht & Hh & H15 & H05).
  unfold well_placed.
  apply elem_of_cons in Hs as [->|Hs];
    [|apply list_elem_of_singleton in Hs as ->];
    (split_and!;
     [destruct Hcr as [-> | ->]; by vm_compute
     |destruct Hcr as [-> | ->]; by vm_compute
     |simpl; rewrite ?H05, Ht, Hh, H15; lia
     |destruct Hcr as [-> | ->]; by vm_compute
     |destruct Hcr as [-> | ->]; by vm_compute]).
Qed.

Lemma image_panel_within (sd : Slides.slide_data) :
  Forall (well_placed Slides.SLIDE_W) (Slides.image_panel sd).
Proof.
  unfold Slides.image_panel.
  destruct (default [] (Slides.sd_images sd)) as [|img_info rest];
    [by constructor|].
  cbv zeta. apply Forall_app. split; [by repeat constructor|].
  apply Forall_app. split.
  - destruct (path_exists _); [|by constructor].
    destruct (picture_loads _); [|by constructor].
    by repeat constructor.
  - destruct (truthy _); [|by constructor]. by repeat constructor.
Qed.

Lemma content_right_cases (sd : Slides.slide_data) :
  Slides.content_right_emu sd = Slides.SLIDE_W - Inches 3.8
  ∨ Slides.content_right_emu sd = Slides.SLIDE_W - Inches 0.5.
Proof.
  unfold Slides.content_right_emu. destruct (Slides.has_image sd); auto.
Qed.

End document_geometry.

(** X7.  Every shape the document gets for a descriptor, title slide or
    content slide, with or without image, callouts or sub-bullets, starts at
    or right of the left edge and at or below the top edge of the slide,
    has a positive width and height, and ends at or left of the right edge
    of the slide. *)
Theorem X7_document_shapes_stay_within_the_slide_width `{Platform}
    (sd : Slides.slide_data) :
  Forall (λ s,
            0 ≤ shape_left s ∧ 0 < shape_width s ∧ 0 ≤ shape_top s
            ∧ 0 < shape_height s
            ∧ shape_left s + shape_width s ≤ Slides.SLIDE_W)
    (shapes (Slides.build_slide sd)).
Proof.
  unfold Slides.build_slide. case_decide.
  { by repeat constructor. }
  rewrite build_content_slide_shapes. cbv zeta.
  pose proof (content_right_cases sd) as Hcr.
  apply Forall_app. split.
  { destruct Hcr as [-> | ->]; by repeat constructor. }
  apply Forall_app. split; [by apply bullet_boxes_within|].
  apply Forall_app. split; [by apply callout_boxes_within|].
  apply Forall_app. split; [apply image_panel_within|].
  by repeat constructor.
Qed.

Lemma has_image_panel `{Platform} (sd : Slides.slide_data) :
  Slides.has_image sd = true →
  ∃ rest,
    Slides.image_panel sd
    = rectangle_shape (Slides.SLIDE_W - Inches 3.6) (Inches 1.65)
        (Inches 3.2) (Inches 4.4) Slides.LIGHT_GRAY :: rest
    ∧ Forall (λ s, Slides.SLIDE_W - Inches 3.6 ≤ shape_left s) rest.
Proof.
  unfold Slides.has_image, Slides.image_panel.
  destruct (default [] (Slides.sd_images sd)) as [|img_info imgs]; [done|].
  intros _. cbv zeta. eexists. split; [reflexivity|].
  apply Forall_app. split.
  - destruct (path_exists _); [|by constructor].
    destruct (picture_loads _); [|by constructor].
    by repeat constructor.
  - destruct (truthy _); [|by constructor]. by repeat constructor.
Qed.

(** X8.  When the descriptor has an image, the text of the slide stays
    clear of the panel: the title box, every bullet box and every callout
    shape end at or left of the left edge of the panel, 3.6 inches before
    the right edge of the slide, and every shape of the panel (background,
    picture, caption) starts at or right of it. *)
Theorem X8_text_stays_left_of_the_image_panel `{Platform}
    (sd : Slides.slide_data) :
  Slides.has_image sd = true →
  let cr := Slides.content_right_emu sd in
  let bullets := default [] (Slides.sd_bullets sd) in
  let callouts := default [] (Slides.sd_callouts sd) in
  let panel_left := Slides.SLIDE_W - Inches 3.6 in
  (∃ title_box,
     shapes (Slides._build_content_slide sd) !! 1%nat = Some title_box
     ∧ shape_texts title_box = [Slides.sd_title sd]
     ∧ shape_left title_box + shape_width title_box ≤ panel_left)
  ∧ Forall (λ s, shape_left s + shape_width s ≤ panel_left)
      (Slides.bullet_boxes cr bullets
       ++ Slides.callout_boxes cr bullets callouts)
  ∧ Slides.image_panel sd ≠ []
  ∧ Forall (λ s, panel_left ≤ shape_left s) (Slides.image_panel sd).
Proof.
  intros Himg. cbv zeta.
  destruct (has_image_panel sd Himg) as (rest & Hpanel & Hrest).
  unfold Slides.content_right_emu. rewrite Himg. split_and!.
  - rewrite build_content_slide_shapes. cbv zeta.
    unfold Slides.content_right_emu. rewrite Himg.
    eexists. split; [reflexivity|]. split; [done|by vm_compute].
  - apply Forall_app. split.
    + apply Forall_forall. intros s Hs. unfold Slides.bullet_boxes in Hs.
      apply elem_of_lookup_imap in Hs as (i & b & -> & _).
      unfold Slides.bullet_box. destruct (startswith b BULLET); by vm_compute.
    + apply Forall_forall. intros s Hs. unfold Slides.callout_boxes in Hs.
      destruct (truthy _); [|by apply elem_of_nil in Hs].
      apply list_elem_of_bind in Hs as (c & Hs & _).
      unfold Slides.callout_box in Hs.
      apply elem_of_cons in Hs as [->|Hs];
        [|apply list_elem_of_singleton in Hs as ->]; by vm_compute.
  - by rewrite Hpanel.
  - rewrite Hpanel. constructor; [by vm_compute|done].
Qed.

(** X8 at the slide "scenario-1-dns-trace", which has an image. *)
Lemma X8_dns_trace_slide_text_left_of_panel :
  Slides.has_image dns_trace_slide = true
  ∧ Forall (λ s, Slides.SLIDE_W - Inches 3.6 ≤ shape_left s)
      (@Slides.image_panel bare_machine dns_trace_slide).
Proof.
  split; [reflexivity|].
  exact (proj2 (proj2 (proj2
    (@X8_text_stays_left_of_the_image_panel bare_machine dns_trace_slide
       eq_refl)))).
Defined.

(** ** Where the callouts go *)

Section callout_positions.
Context `{Platform}.

Lemma callout_box_tops cr top (callouts : list str) :
  shape_top <$> (callouts ≫= Slides.callout_box cr top)
  = callouts ≫= (λ _, [top; top + Inches 0.05]).
Proof.
  induction callouts as [|c callouts IH]; [done|].
  by rewrite !bind_cons, fmap_app, IH.
Qed.

Lemma draw_callout_list_rows cr y (callouts : list str) :
  op_y <$> (Slides.draw_callout_list cr y callouts).1
  = mjoin (imap (λ k _, [ y + 58 * Z.of_nat k; y + 58 * Z.of_nat k;
                          y + 58 * Z.of_nat k + 12 ]) callouts)
  ∧ (Slides.draw_callout_list cr y callouts).2
    = y + 58 * Z.of_nat (length callouts).
Proof.
  revert y. induction callouts as [|c callouts IH]; intros y.
  - split; [done|simpl; lia].
  - cbn [Slides.draw_callout_list]. unfold Slides.draw_callout.
    destruct (IH (y + (48 + 10))) as [Hops Hy].
    destruct (Slides.draw_callout_list cr (y + (48 + 10)) callouts)
      as [ops y'].
    cbn [fst snd] in *. split.
    + assert (∀ a b c a' b' c' : Z,
                a = a' → b = b' → c = c' → [a; b; c] = [a'; b'; c']) as Hrow
        by (intros; by subst).
      rewrite fmap_app, Hops, imap_cons. cbn [mjoin list_join].
      f_equal; [apply Hrow; simpl; lia|].
      f_equal. apply imap_ext. intros k x _. apply Hrow; simpl; lia.
    + rewrite Hy. cbn [length]. lia.
Qed.

End callout_positions.

(** X9.  The two paths place several callouts differently.  In the
    document every callout of a slide gets the same top (its box at the
    callout top, its text 0.05 inch lower), so a second callout lies on the
    first.  In the preview the callouts are stacked: the one of index [k]
    is drawn 58 rows below the one before it (48 rows of box, 10 of gap),
    from 10 rows below the end of the bullets, and the vertical position
    moves on accordingly. *)
Theorem X9_callouts_coincide_in_document_and_stack_in_preview `{Platform}
    (cr_emu cr_px y : Z) (bullets callouts : list str) :
  let top := Slides.callout_top_emu bullets in
  shape_top <$> Slides.callout_boxes cr_emu bullets callouts
  = callouts ≫= (λ _, [top; top + Inches 0.05])
  ∧ op_y <$> (Slides.draw_callouts cr_px y callouts).1
    = mjoin (imap (λ k _, [ y + 10 + 58 * Z.of_nat k;
                            y + 10 + 58 * Z.of_nat k;
                            y + 10 + 58 * Z.of_nat k + 12 ]) callouts)
  ∧ (Slides.draw_callouts cr_px y callouts).2
    = if truthy callouts then y + 10 + 58 * Z.of_nat (length callouts)
      else y.
Proof.
  cbv zeta. unfold Slides.callout_boxes, Slides.draw_callouts.
  destruct callouts as [|c callouts]; [done|].
  cbn [truthy]. destruct (draw_callout_list_rows cr_px (y + 10)
                            (c :: callouts)) as [Hops Hy].
  split_and!; [apply callout_box_tops|done|done].
Qed.

Lemma bullet_boxes_fit (limit : Z) cr (bullets : list str) :
  Slides.bullet_top + 11 * Slides.line_h ≤ limit →
  limit < Slides.bullet_top + 12 * Slides.line_h →
  Forall (λ s, shape_top s + shape_height s ≤ limit)
    (Slides.bullet_boxes cr bullets)
  ↔ (length bullets ≤ 11)%nat.
Proof.
  intros Hlo Hhi. destruct emu_values as (Ht & Hh & _).
  rewrite Ht, Hh in Hlo, Hhi. split.
  - intros Hall. destruct (decide (length bullets ≤ 11)%nat); [done|].
    destruct (lookup_lt_is_Some_2 bullets 11) as [b Hb]; [lia|].
    rewrite Forall_forall in Hall.
    specialize (Hall (Slides.bullet_box cr 11 b)).
    unfold Slides.bullet_boxes in Hall.
    specialize (Hall (elem_of_lookup_imap_2 _ _ _ _ Hb)).
    rewrite bullet_box_top in Hall.
    change (shape_height (Slides.bullet_box cr 11 b)) with Slides.line_h
      in Hall.
    rewrite Ht, Hh in Hall. lia.
  - intros Hlen. apply Forall_forall. intros s Hs.
    unfold Slides.bullet_boxes in Hs.
    apply elem_of_lookup_imap in Hs as (i & b & -> & Hi).
    apply lookup_lt_Some in Hi. rewrite bullet_box_top.
    change (shape_height (Slides.bullet_box cr i b)) with Slides.line_h.
    rewrite Ht, Hh. lia.
Qed.

(** X10.  The document builder never checks the height of a slide: the
    bullet of index [i] is placed [i] line heights below the first one.  The
    boxes of the bullets all end above the footer exactly when the slide has
    at most 11 bullets, and all end inside the slide exactly then too; from
    the twelfth bullet on a box reaches below the bottom edge. *)
Theorem X10_eleven_bullets_fit_on_a_document_slide
    (cr : Z) (bullets : list str) :
  (Forall (λ s, shape_top s + shape_height s ≤ shape_top Slides._add_footer)
     (Slides.bullet_boxes cr bullets)
   ↔ (length bullets ≤ 11)%nat)
  ∧ (Forall (λ s, shape_top s + shape_height s ≤ Slides.SLIDE_H)
       (Slides.bullet_boxes cr bullets)
     ↔ (length bullets ≤ 11)%nat).
Proof.
  split; apply bullet_boxes_fit; by vm_compute.
Qed.

(** ** Accounting of the preview bullets *)

Section preview_accounting.
Context `{Platform}.

Lemma draw_lines_no_ellipse f x y lh fill (lines : list str) :
  filter is_ellipse (Slides.draw_lines f x y lh fill lines).1 = [].
Proof.
  revert y. induction lines as [|l lines IH]; intros y; [done|].
  cbn [Slides.draw_lines]. specialize (IH (y + lh)).
  destruct (Slides.draw_lines f x (y + lh) lh fill lines) as [ops y'].
  cbn [fst] in *. by rewrite filter_cons_False by (by intros []).
Qed.

Lemma draw_bullet_dots cr y (bullet : str) :
  filter is_ellipse (Slides.draw_bullet cr y bullet).1
  = if startswith bullet BULLET then []
    else [ ellipse 29 (y + 10) 37 (y + 18) Slides.C_ACCENT ].
Proof.
  unfold Slides.draw_bullet, Slides._draw_wrapped_text.
  destruct (startswith bullet BULLET); cbn [negb].
  - pose proof (draw_lines_no_ellipse (Slides._load_font 22) 70 y
      (Slides.line_height_or (Slides._load_font 22) (Some 36)) [75; 85; 99]
      (Slides.wrap_lines (Slides._load_font 22) bullet (cr - 70 - 20)))
      as Hno.
    by destruct (Slides.draw_lines _ _ _ _ _ _).
  - pose proof (draw_lines_no_ellipse (Slides._load_font 26) 45 y
      (Slides.line_height_or (Slides._load_font 26) (Some 36))
      Slides.C_PRIMARY
      (Slides.wrap_lines (Slides._load_font 26) bullet (cr - 45 - 20)))
      as Hno.
    destruct (Slides.draw_lines _ _ _ _ _ _) as [ops y']. cbn [fst] in *.
    rewrite filter_app, Hno. done.
Qed.

Lemma draw_bullets_accounting cr y (bullets : list str) :
  let r := Slides.draw_bullets cr y bullets in
  r.2 = y + 36 * Z.of_nat (length (drawn_texts r.1))
        + 6 * Z.of_nat (length bullets)
  ∧ length (filter is_ellipse r.1)
    = length (filter (λ b, startswith b BULLET = false) bullets).
Proof.
  cbv zeta. revert y.
  induction bullets as [|b bullets IH]; intros y; [split; [simpl; lia|done]|].
  cbn [Slides.draw_bullets].
  pose proof (draw_bullet_y cr y b) as Hy.
  pose proof (draw_bullet_texts cr y b) as Htexts.
  pose proof (draw_bullet_dots cr y b) as Hdots.
  destruct (Slides.draw_bullet cr y b) as [ops y1].
  destruct (IH y1) as [IHy IHdots].
  destruct (Slides.draw_bullets cr y1 bullets) as [ops' y2].
  cbn [fst snd] in *. split.
  - unfold drawn_texts in *. rewrite omap_app, length_app, Htexts, IHy, Hy.
    cbn [length]. lia.
  - rewrite filter_app, length_app, Hdots, IHdots, filter_cons.
    destruct (startswith b BULLET); by destruct (decide _).
Qed.

End preview_accounting.

(** X11.  The bullets of a preview take 36 rows per line drawn and 6 more
    rows per bullet: the vertical position after them is the starting one
    plus 36 times the number of text lines plus 6 times the number of
    bullets.  A dot is drawn for every main bullet and for no sub-bullet, so
    the dots are as many as the entries that do not start with the bullet
    character, blank entries included. *)
Theorem X11_preview_bullets_height_and_dots `{Platform}
    (cr y : Z) (bullets : list str) :
  let r := Slides.draw_bullets cr y bullets in
  r.2 = y + 36 * Z.of_nat (length (drawn_texts r.1))
        + 6 * Z.of_nat (length bullets)
  ∧ length (filter is_ellipse r.1)
    = length (filter (λ b, startswith b BULLET = false) bullets)
  ∧ (filter is_ellipse (Slides.draw_bullet cr y []).1
     = [ ellipse 29 (y + 10) 37 (y + 18) Slides.C_ACCENT ])
  ∧ drawn_texts (Slides.draw_bullet cr y []).1 = [].
Proof.
  cbv zeta. destruct (draw_bullets_accounting cr y bullets) as [Hy Hdots].
  split_and!; [done|done|apply draw_bullet_dots|].
  rewrite draw_bullet_texts. unfold bullet_lines. cbn [startswith].
  by rewrite wrap_lines_from.
Qed.

(** ** The preview of a title slide *)

Section title_preview.
Context `{Platform}.

Lemma drawn_texts_app (a b : list draw_op) :
  drawn_texts (a ++ b) = drawn_texts a ++ drawn_texts b.
Proof. apply omap_app. Qed.

Lemma gradient_no_text (rows : list nat) :
  drawn_texts (Slides.gradient_line ∘ Z.of_nat <$> rows) = [].
Proof. induction rows as [|i rows IH]; [done|]. by rewrite fmap_cons. Qed.

Lemma drawn_texts_text x y s (f : font) fill anchor (l : list draw_op) :
  drawn_texts (text x y s f fill anchor :: l) = s :: drawn_texts l.
Proof. done. Qed.

Lemma tags_texts (f : font) (tags : list str) :
  drawn_texts ((λ tag, text 60 460 tag f Slides.C_MID_GRAY None) <$> tags)
  = tags.
Proof.
  induction tags as [|t tags IH]; [done|].
  by rewrite fmap_cons, drawn_texts_text, IH.
Qed.

Lemma gradient_rows :
  (λ op, (op_x op, op_y op)) <$> (Slides.gradient_line ∘ Z.of_nat <$> seq 0 300)
  = (λ i, (14, 210 + Z.of_nat i)) <$> seq 0 300.
Proof. by vm_compute. Qed.

End title_preview.

(** X12.  The preview of a title slide writes, in this order, the lines of
    the wrapped title, the lines of the wrapped subtitle, the tags of
    [meta.right_corner] and the label "Inspektor Gadget", and no other
    text.  A descriptor without subtitle and without meta gets the title
    lines and the label only.  The overlay is 300 lines from column 14, one
    on each of the rows 210 to 509. *)
Theorem X12_title_preview_texts `{Platform} (sd : Slides.slide_data) :
  let ops := img_ops (Slides._render_title_slide sd) in
  let meta :=
    default {| Slides.right_corner := None |} (Slides.sd_meta sd) in
  let title_lines :=
    Slides.wrap_lines (Slides._load_font_bold 72) (Slides.sd_title sd) 1140 in
  drawn_texts ops
  = title_lines
    ++ Slides.wrap_lines (Slides._load_font 42)
         (default [] (Slides.sd_subtitle sd)) 1140
    ++ default [] (Slides.right_corner meta)
    ++ [ py "Inspektor Gadget" ]
  ∧ (Slides.sd_subtitle sd = None → Slides.sd_meta sd = None →
     drawn_texts ops = title_lines ++ [ py "Inspektor Gadget" ])
  ∧ (λ op, (op_x op, op_y op)) <$> filter is_line ops
    = (λ i, (14, 210 + Z.of_nat i)) <$> seq 0 300.
Proof.
  cbv zeta.
  assert (drawn_texts (img_ops (Slides._render_title_slide sd))
          = Slides.wrap_lines (Slides._load_font_bold 72)
              (Slides.sd_title sd) 1140
            ++ Slides.wrap_lines (Slides._load_font 42)
                 (default [] (Slides.sd_subtitle sd)) 1140
            ++ default []
                 (Slides.right_corner
                    (default {| Slides.right_corner := None |}
                       (Slides.sd_meta sd)))
            ++ [ py "Inspektor Gadget" ]) as Htexts.
  { unfold Slides._render_title_slide. cbn [img_ops].
    rewrite !drawn_texts_app, gradient_no_text, tags_texts.
    unfold Slides._draw_wrapped_text. by rewrite !draw_lines_texts. }
  split_and!.
  - exact Htexts.
  - intros Hsub Hmeta. rewrite Htexts, Hsub, Hmeta. cbn [default from_option].
    by rewrite wrap_lines_from.
  - unfold Slides._render_title_slide. cbn [img_ops].
    rewrite <-gradient_rows. f_equal.
    rewrite !filter_app.
    assert (∀ f s x y mw fill lh,
              filter is_line
                (Slides._draw_wrapped_text s f x y mw fill lh).1 = [])
      as Hwrap.
    { intros f s x y mw fill lh. unfold Slides._draw_wrapped_text.
      generalize (Slides.line_height_or f lh) (Slides.wrap_lines f s mw).
      intros h lines. revert y.
      induction lines as [|l lines IH]; intros y; [done|].
      cbn [Slides.draw_lines]. specialize (IH (y + h)).
      destruct (Slides.draw_lines f x (y + h) h fill lines) as [o y'].
      cbn [fst] in *. by rewrite filter_cons_False by (by intros []). }
    rewrite !Hwrap.
    assert (∀ tags : list str,
              filter is_line
                ((λ tag, text 60 460 tag (Slides._load_font 24)
                           Slides.C_MID_GRAY None) <$> tags) = []) as Htags.
    { induction tags as [|t tags IH]; [done|].
      rewrite fmap_cons. by rewrite filter_cons_False by (by intros []). }
    rewrite Htags.
    rewrite (filter_cons_False _ (rectangle _ _ _ _ _ _ _)) by (by intros []).
    rewrite (filter_cons_False _ (text _ _ _ _ _ _)) by (by intros []).
    rewrite !filter_nil, !(left_id_L [] (++)), (right_id_L [] (++)).
    generalize (seq 0 300). intros rows.
    induction rows as [|i rows IH]; [done|].
    rewrite fmap_cons, filter_cons_True by done. by rewrite IH.
Qed.

(** ** The older generator *)

Section root_bullets.

Lemma marked_starts (b : str) : startswith (marked b) BULLET = true.
Proof.
  unfold marked. destruct (startswith b BULLET) eqn:Hb; [done|].
  by vm_compute.
Qed.

Lemma bullet_paragraph_texts (bullets : list str) :
  run_text <$> ((Root.bullet_paragraph Root.empty_paragraph <$> bullets)
                ≫= runs)
  = marked <$> bullets.
Proof.
  induction bullets as [|b bullets IH]; [done|].
  by rewrite !fmap_cons, bind_cons, fmap_app, IH.
Qed.

Lemma preview_bullets_texts (f : font) (y : Z) (bullets : list str) :
  drawn_texts (Root.preview_bullets f y bullets) = marked <$> bullets
  ∧ op_y <$> Root.preview_bullets f y bullets
    = imap (λ k _, y + 48 * Z.of_nat k) bullets.
Proof.
  revert y. induction bullets as [|b bullets IH]; intros y; [done|].
  cbn [Root.preview_bullets]. destruct (IH (y + 48)) as [Ht Hy].
  split.
  - by rewrite drawn_texts_text, Ht.
  - rewrite fmap_cons, Hy, imap_cons. f_equal; [simpl; lia|].
    apply imap_ext. intros k x _. simpl. lia.
Qed.

End root_bullets.

(** X13.  The older generator shows every bullet with the bullet character
    in front: an entry that starts with it is taken as it is, any other gets
    the character and a space before it, so marking twice changes nothing.
    Its document holds these texts as the runs of one text frame, one
    paragraph per entry (an empty list leaves the one empty paragraph of the
    frame), and its preview draws the same texts 48 rows apart. *)
Theorem X13_older_generator_marks_every_bullet
    (bullets : list str) (left top width height : Z) (f : font) (y : Z) :
  shape_texts (Root._add_bullets bullets left top width height)
  = marked <$> bullets
  ∧ Forall (λ s, startswith s BULLET = true) (marked <$> bullets)
  ∧ marked <$> (marked <$> bullets) = marked <$> bullets
  ∧ Root._add_bullets [] left top width height
    = textbox left top width height true [ Root.empty_paragraph ]
  ∧ drawn_texts (Root.preview_bullets f y bullets) = marked <$> bullets
  ∧ op_y <$> Root.preview_bullets f y bullets
    = imap (λ k _, y + 48 * Z.of_nat k) bullets.
Proof.
  destruct (preview_bullets_texts f y bullets) as [Ht Hy].
  split_and!; [| | |done|done|done].
  - unfold Root._add_bullets, shape_texts. rewrite add_bullets_paragraphs.
    destruct bullets as [|b bullets]; [done|]. apply bullet_paragraph_texts.
  - apply Forall_fmap, Forall_forall. intros b _. apply marked_starts.
  - rewrite <-list_fmap_compose. apply list_fmap_ext. intros _ b _.
    unfold compose. unfold marked at 1. by rewrite marked_starts.
Qed.

Section root_logo.
Context `{Platform}.

Lemma add_logo_None :
  Root._add_logo = None
  ↔ path_exists Root.LOGO_PATH = true ∧ picture_loads Root.LOGO_PATH = false.
Proof.
  unfold Root._add_logo.
  destruct (path_exists Root.LOGO_PATH), (picture_loads Root.LOGO_PATH);
    cbn; split; try done; intros [??]; done.
Qed.

Lemma add_logo_Some (logo : list shape) :
  Root._add_logo = Some logo →
  logo = (if path_exists Root.LOGO_PATH
          then [ picture Root.LOGO_PATH Root.LOGO_LEFT
                   (Root._logo_top Root.SLIDE_H) Root.LOGO_W Root.LOGO_H ]
          else []).
Proof.
  unfold Root._add_logo.
  destruct (path_exists Root.LOGO_PATH), (picture_loads Root.LOGO_PATH);
    cbn; congruence.
Qed.

Lemma logo_inside (logo : list shape) :
  Root._add_logo = Some logo →
  Forall (λ s, well_placed Root.SLIDE_W s
               ∧ shape_top s + shape_height s ≤ Root.SLIDE_H) logo.
Proof.
  intros ->%add_logo_Some. destruct (path_exists Root.LOGO_PATH); [|done].
  apply Forall_singleton. by vm_compute.
Qed.

Lemma build_content_slide_None (title : str) (bullets : list str) :
  Root.build_content_slide title bullets = None ↔ Root._add_logo = None.
Proof.
  unfold Root.build_content_slide. by destruct Root._add_logo.
Qed.

Lemma build_title_slide_None :
  Root.build_title_slide = None ↔ Root._add_logo = None.
Proof. unfold Root.build_title_slide. by destruct Root._add_logo. Qed.

Lemma built_slide_shapes (title : str) (bullets : list str) (sl : slide) :
  Root.build_content_slide title bullets = Some sl
  ∨ Root.build_title_slide = Some sl →
  ∃ base logo, shapes sl = base ++ logo
    ∧ Root._add_logo = Some logo
    ∧ filter is_picture base = []
    ∧ Forall (λ s, well_placed Root.SLIDE_W s
                   ∧ shape_top s + shape_height s ≤ Root.SLIDE_H) base.
Proof.
  unfold Root.build_content_slide, Root.build_title_slide.
  destruct Root._add_logo as [logo|]; cbn [mbind option_bind];
    [|intros [?|?]; done].
  intros [[= <-]|[= <-]]; cbn [shapes].
  - exists [ Root._add_accent_bar;
             Root._add_title_text title (Inches 0.6) (Inches 0.3)
               (Inches 12.0) (Inches 1.1) Root.TITLE_FONT_PT true Root.WHITE;
             Root._add_bullets bullets (Inches 0.6) (Inches 1.55)
               (Inches 12.0) (Inches 4.8);
             Root._add_footer Root.FOOTER_TEXT ], logo.
    split_and!; [done|done|done|].
    repeat apply Forall_cons_2; try apply Forall_nil_2; by vm_compute.
  - exists [ Root._add_accent_bar;
             Root._add_title_text (py "Ask and You Shall Debug:")
               (Inches 0.8) (Inches 1.5) (Inches 11.0) (Inches 1.4)
               44 true Root.WHITE;
             Root._add_title_text
               (py "Conversational Troubleshooting for Kubernetes")
               (Inches 0.8) (Inches 3.0) (Inches 11.0) (Inches 1.0)
               28 false (RGBColor 0xA0 0xC4 0xFF);
             Root._add_title_text (py "Inspektor Gadget MCP Server  •  SCaLE")
               (Inches 0.8) (Inches 4.3) (Inches 11.0) (Inches 0.6)
               18 false Root.LIGHT_GRAY ], logo.
    split_and!; [done|done|done|].
    repeat apply Forall_cons_2; try apply Forall_nil_2; by vm_compute.
Qed.

End root_logo.

(** X14.  The older generator puts the logo on a slide only when the logo
    file exists.  A logo file that exists but cannot be loaded makes both
    slide builders fail, nothing catches it; an absent file is skipped in
    silence.  On a slide that is built the logo is the only picture, every
    shape lies within the slide, and the logo ends left of where the footer
    starts. *)
Theorem X14_older_slides_carry_the_logo_or_fail `{Platform}
    (title : str) (bullets : list str) :
  (Root.build_content_slide title bullets = None
   ↔ path_exists Root.LOGO_PATH = true ∧ picture_loads Root.LOGO_PATH = false)
  ∧ (Root.build_title_slide = None
     ↔ path_exists Root.LOGO_PATH = true
       ∧ picture_loads Root.LOGO_PATH = false)
  ∧ (∀ sl,
       Root.build_content_slide title bullets = Some sl
       ∨ Root.build_title_slide = Some sl →
       filter is_picture (shapes sl)
       = (if path_exists Root.LOGO_PATH
          then [ picture Root.LOGO_PATH Root.LOGO_LEFT
                   (Root.SLIDE_H - Root.LOGO_H - Root.LOGO_BOTTOM_MARGIN)
                   Root.LOGO_W Root.LOGO_H ]
          else [])
       ∧ Forall (λ s, well_placed Root.SLIDE_W s
                      ∧ shape_top s + shape_height s ≤ Root.SLIDE_H)
           (shapes sl))
  ∧ Root.LOGO_LEFT + Root.LOGO_W
    ≤ shape_left (Root._add_footer Root.FOOTER_TEXT).
Proof.
  split_and!.
  - rewrite build_content_slide_None. apply add_logo_None.
  - rewrite build_title_slide_None. apply add_logo_None.
  - intros sl Hsl.
    destruct (built_slide_shapes title bullets sl Hsl)
      as (base & logo & -> & Hlogo & Hbase & Hin).
    split.
    + rewrite filter_app, Hbase, (left_id_L [] (++)).
      rewrite (add_logo_Some _ Hlogo).
      by destruct (path_exists Root.LOGO_PATH).
    + apply Forall_app. split; [exact Hin|]. by apply logo_inside.
  - by vm_compute.
Qed.

Section root_preview.
Context `{Platform}.

Lemma generate_preview_events (title : str) (bullets : list str)
    (output_path : str) (is_title_slide : bool) :
  ∃ img,
    Root.generate_preview title bullets output_path is_title_slide
    = match logo_found with
      | Some (inl e) => [ Print (py "Warning: could not paste logo: " ++ e) ]
      | _ => []
      end ++
      [ SavePng output_path img;
        Print (py "Preview saved: " ++ output_path) ]
    ∧ img_width img = 1333 ∧ img_height img = 750
    ∧ drawn_texts (img_ops img)
      = (if is_title_slide
         then [ title; default [] (head bullets);
                py "Inspektor Gadget MCP Server  •  SCaLE" ]
         else title :: (marked <$> bullets) ++ [ Root.FOOTER_TEXT ])
    ∧ filter is_paste (img_ops img)
      = match logo_found with
        | Some (inr (w, h)) =>
          [ paste 20 (750 - h * 160 / w - 15) 160 (h * 160 / w)
              Root.LOGO_PATH ]
        | _ => []
        end.
Proof.
  unfold Root.generate_preview, logo_found.
  destruct (Root.preview_fonts is_title_slide) as [[[ft fs] fb] ff].
  assert (Hb : ∀ y, filter is_paste (Root.preview_bullets fb y bullets) = []).
  { induction bullets as [|b bs IH]; intros y; [done|].
    cbn [Root.preview_bullets]. rewrite filter_cons_False by (cbn; tauto).
    apply IH. }
  assert (Ht : ∀ tail,
    drawn_texts
      ([rectangle 0 0 1333 7 (Some [37; 99; 235]) None 1] ++
       (if is_title_slide
        then [ text 80 140 title ft [255; 255; 255] None;
               text 80 215 (default [] (head bullets)) fs [160; 196; 255]
                 None;
               text 80 400 (py "Inspektor Gadget MCP Server  •  SCaLE") fb
                 [204; 204; 204] None ]
        else [ text 60 30 title ft [255; 255; 255] None;
               rectangle 60 100 (1333 - 60) 103 (Some [37; 99; 235]) None 1 ]
             ++ Root.preview_bullets fb 120 bullets ++
             [ text (1333 / 2 - 300) (750 - 42) Root.FOOTER_TEXT ff
                 [204; 204; 204] None ]) ++ tail)
    = (if is_title_slide
       then [ title; default [] (head bullets);
              py "Inspektor Gadget MCP Server  •  SCaLE" ]
       else title :: (marked <$> bullets) ++ [ Root.FOOTER_TEXT ])
      ++ drawn_texts tail).
  { intros tail. rewrite !drawn_texts_app. destruct is_title_slide.
    - done.
    - rewrite !drawn_texts_app.
      rewrite (proj1 (preview_bullets_texts fb 120 bullets)).
      reflexivity. }
  assert (Hp : ∀ tail,
    filter is_paste
      ([rectangle 0 0 1333 7 (Some [37; 99; 235]) None 1] ++
       (if is_title_slide
        then [ text 80 140 title ft [255; 255; 255] None;
               text 80 215 (default [] (head bullets)) fs [160; 196; 255]
                 None;
               text 80 400 (py "Inspektor Gadget MCP Server  •  SCaLE") fb
                 [204; 204; 204] None ]
        else [ text 60 30 title ft [255; 255; 255] None;
               rectangle 60 100 (1333 - 60) 103 (Some [37; 99; 235]) None 1 ]
             ++ Root.preview_bullets fb 120 bullets ++
             [ text (1333 / 2 - 300) (750 - 42) Root.FOOTER_TEXT ff
                 [204; 204; 204] None ]) ++ tail)
    = filter is_paste tail).
  { intros tail. rewrite !filter_app. destruct is_title_slide.
    - done.
    - rewrite !filter_app, Hb. done. }
  destruct (path_exists Root.LOGO_PATH);
    [destruct (open_logo Root.LOGO_PATH) as [e|[w h]]|];
    cbv zeta; cbn [img_width img_height img_ops];
    eexists; (split; [reflexivity|]); cbn [img_width img_height img_ops];
    (split; [done|]); (split; [done|]); rewrite Ht, Hp;
    (split; [exact (right_id_L [] (++) _)|done]).
Qed.

Lemma generate_preview_saved title (bullets : list str) output_path b :
  saved_pngs (Root.generate_preview title bullets output_path b)
  = [ output_path ].
Proof.
  destruct (generate_preview_events title bullets output_path b)
    as (img & -> & _).
  rewrite saved_pngs_app. by destruct logo_found as [[e|[w h]]|].
Qed.

End root_preview.

(** X15.  A preview of the older generator is always written: one picture
    of 1333 by 750 at the given path, followed by the line "Preview saved",
    whatever happens to the fonts and the logo.  A logo file that exists but
    does not open only adds a warning line before it; the logo is pasted
    160 wide at the left, 15 rows above the bottom, when it opens.  A
    content preview draws the title, the marked bullets and the footer; a
    title preview draws the title, the first bullet (the empty string when
    there is none) and the fixed tag line. *)
Theorem X15_older_preview_is_always_saved `{Platform}
    (title : str) (bullets : list str) (output_path : str)
    (is_title_slide : bool) :
  let es := Root.generate_preview title bullets output_path is_title_slide in
  ∃ img,
    saved_images es = [ (output_path, img) ]
    ∧ img_width img = 1333 ∧ img_height img = 750
    ∧ printed es
      = match logo_found with
        | Some (inl e) => [ py "Warning: could not paste logo: " ++ e ]
        | _ => []
        end ++ [ py "Preview saved: " ++ output_path ]
    ∧ drawn_texts (img_ops img)
      = (if is_title_slide
         then [ title; default [] (head bullets);
                py "Inspektor Gadget MCP Server  •  SCaLE" ]
         else title :: (marked <$> bullets) ++ [ Root.FOOTER_TEXT ])
    ∧ filter is_paste (img_ops img)
      = match logo_found with
        | Some (inr (w, h)) =>
          [ paste 20 (750 - h * 160 / w - 15) 160 (h * 160 / w)
              Root.LOGO_PATH ]
        | _ => []
        end.
Proof.
  intros es. subst es.
  destruct (generate_preview_events title bullets output_path is_title_slide)
    as (img & -> & Hw & Hh & Ht & Hp).
  exists img. rewrite saved_images_app, printed_app.
  split_and!; try done; by destruct logo_found as [[e|[w h]]|].
Qed.

Section root_main.
Context `{Platform}.

Lemma mapM_Some_fmap {A B} (f : A → option B) (g : A → B) (l : list A) :
  Forall (λ x, f x = Some (g x)) l → mapM f l = Some (g <$> l).
Proof.
  induction 1 as [|x l Hx _ IH]; [done|].
  cbn [mapM]. rewrite Hx, IH. done.
Qed.

Lemma mapM_None_head {A B} (f : A → option B) (x : A) (l : list A) :
  f x = None → mapM f (x :: l) = None.
Proof. intros Hx. cbn [mapM]. by rewrite Hx. Qed.

(** The definitions of the content slides, without the placeholder. *)
Lemma slides_defs :
  drop 1 Root.SLIDES = Some <$> omap id Root.SLIDES
  ∧ length (omap id Root.SLIDES) = 15%nat.
Proof. by vm_compute. Qed.

Lemma build_content_slides_Some (logo : list shape) :
  Root._add_logo = Some logo →
  ∃ content, Root.build_content_slides = Some content
    ∧ length content = 15%nat
    ∧ Forall (λ sl, ∃ sd, Root.build_content_slide (Root.sl_title sd)
                            (Root.sl_bullets sd) = Some sl) content.
Proof.
  intros Hlogo. unfold Root.build_content_slides.
  destruct slides_defs as [-> Hlen].
  set (g := λ d : option Root.slide_def,
    let sd := default {| Root.sl_title := []; Root.sl_bullets := [] |} d in
    {| background := Root.PRIMARY_COLOR;
       shapes :=
         [ Root._add_accent_bar;
           Root._add_title_text (Root.sl_title sd)
             (Inches 0.6) (Inches 0.3) (Inches 12.0) (Inches 1.1)
             Root.TITLE_FONT_PT true Root.WHITE;
           Root._add_bullets (Root.sl_bullets sd)
             (Inches 0.6) (Inches 1.55) (Inches 12.0) (Inches 4.8);
           Root._add_footer Root.FOOTER_TEXT ] ++ logo |}).
  assert (Hg : ∀ sd, Root.build_content_slide (Root.sl_title sd)
                       (Root.sl_bullets sd) = Some (g (Some sd))).
  { intros sd. unfold Root.build_content_slide. by rewrite Hlogo. }
  exists (g <$> (Some <$> omap id Root.SLIDES)). split_and!.
  - apply mapM_Some_fmap, Forall_fmap, Forall_forall. intros sd _.
    cbn [mbind option_bind]. apply Hg.
  - by rewrite !length_fmap.
  - apply Forall_fmap, Forall_fmap, Forall_forall. intros sd _.
    exists sd. apply Hg.
Qed.

Lemma build_content_slides_None :
  Root._add_logo = None → Root.build_content_slides = None.
Proof.
  intros Hlogo. unfold Root.build_content_slides.
  destruct slides_defs as [-> _].
  destruct (omap id Root.SLIDES) as [|sd l] eqn:E; [by vm_compute in E|].
  rewrite fmap_cons. apply mapM_None_head. cbn [mbind option_bind].
  unfold Root.build_content_slide. by rewrite Hlogo.
Qed.

Lemma preview_of_Some (i : nat) (name : str) (sd : Root.slide_def) :
  Root.SLIDES !! i = Some (Some sd) →
  Root.preview_of i name
  = Some (Root.generate_preview (Root.sl_title sd) (Root.sl_bullets sd)
            (path_join Root.MEDIA_DIR name) false).
Proof. intros Hi. unfold Root.preview_of. by rewrite Hi. Qed.

Lemma previewed_defs :
  ∃ agenda scenario arch,
    Root.SLIDES !! 2%nat = Some (Some agenda)
    ∧ Root.SLIDES !! 3%nat = Some (Some scenario)
    ∧ Root.SLIDES !! 9%nat = Some (Some arch)
    ∧ Root.sl_title agenda = py "Agenda"
    ∧ Root.sl_title scenario = py "Scenario 1: Slow requests → DNS latency"
    ∧ Root.sl_title arch = py "High-level architecture".
Proof. eexists _, _, _. by vm_compute. Qed.

Lemma main_cases :
  match Root._add_logo with
  | None => Root.main = ([], Root.Raised)
  | Some _ =>
    ∃ title_slide content agenda scenario arch,
      Root.build_title_slide = Some title_slide
      ∧ Root.build_content_slides = Some content
      ∧ length content = 15%nat
      ∧ Forall (λ sl, ∃ sd, Root.build_content_slide (Root.sl_title sd)
                              (Root.sl_bullets sd) = Some sl) content
      ∧ Root.SLIDES !! 2%nat = Some (Some agenda)
      ∧ Root.SLIDES !! 3%nat = Some (Some scenario)
      ∧ Root.SLIDES !! 9%nat = Some (Some arch)
      ∧ Root.main
        = ([ SavePptx Root.OUTPUT_PATH
               {| slide_width := Root.SLIDE_W;
                  slide_height := Root.SLIDE_H;
                  slides := title_slide :: content |};
             Print (py "Presentation saved: " ++ Root.OUTPUT_PATH);
             Mkdir Root.MEDIA_DIR ] ++
           Root.generate_preview (py "Ask and You Shall Debug:")
             [ py "Conversational Troubleshooting for Kubernetes" ]
             (path_join Root.MEDIA_DIR (py "preview_title.png")) true ++
           Root.generate_preview (Root.sl_title agenda)
             (Root.sl_bullets agenda)
             (path_join Root.MEDIA_DIR (py "preview_agenda.png")) false ++
           Root.generate_preview (Root.sl_title scenario)
             (Root.sl_bullets scenario)
             (path_join Root.MEDIA_DIR (py "preview_scenario.png")) false ++
           Root.generate_preview (Root.sl_title arch)
             (Root.sl_bullets arch)
             (path_join Root.MEDIA_DIR (py "preview_architecture.png"))
             false,
           Root.Finished)
  end.
Proof.
  destruct Root._add_logo as [logo|] eqn:Hlogo.
  - destruct (build_content_slides_Some logo Hlogo)
      as (content & Hc & Hlen & Hall).
    destruct previewed_defs as (agenda & scenario & arch & H2 & H3 & H9 & _).
    destruct Root.build_title_slide as [title_slide|] eqn:Ht;
      [|by apply build_title_slide_None in Ht; congruence].
    exists title_slide, content, agenda, scenario, arch.
    split_and!; try done.
    unfold Root.main. rewrite Ht, Hc.
    rewrite (preview_of_Some _ _ _ H2), (preview_of_Some _ _ _ H3),
      (preview_of_Some _ _ _ H9).
    cbv zeta. by rewrite <-!(assoc_L (++)).
  - unfold Root.main.
    by rewrite (proj2 build_title_slide_None Hlogo).
Qed.

End root_main.

(** X16.  When the logo file exists and cannot be loaded, a run of the
    older generator stops in its first slide builder: nothing is saved and
    nothing is printed.  When the logo file is absent, or loads, every slide
    is built and the run goes on to its writes, which are taken to go
    through here: it saves one presentation of sixteen slides of 13.333 by
    7.5 inches, each with the logo when the file exists and with no picture
    when it does not, prints "Presentation saved", makes the media
    directory, and writes the four previews "title", "agenda", "scenario"
    and "architecture" there in this order. *)
Theorem X16_older_run_saves_deck_and_four_previews `{Platform} :
  (path_exists Root.LOGO_PATH = true ∧ picture_loads Root.LOGO_PATH = false →
   Root.main = ([], Root.Raised))
  ∧ (path_exists Root.LOGO_PATH = false ∨ picture_loads Root.LOGO_PATH = true →
     ∃ prs rest,
       Root.main.1
       = [ SavePptx Root.OUTPUT_PATH prs;
           Print (py "Presentation saved: " ++ Root.OUTPUT_PATH);
           Mkdir Root.MEDIA_DIR ] ++ rest
       ∧ slide_width prs = Inches 13.333 ∧ slide_height prs = Inches 7.5
       ∧ length (slides prs) = 16%nat
       ∧ Forall (λ sl, length (filter is_picture (shapes sl))
                       = if path_exists Root.LOGO_PATH then 1%nat else 0%nat)
           (slides prs)
       ∧ saved_pngs rest
         = path_join Root.MEDIA_DIR
           <$> [ py "preview_title.png"; py "preview_agenda.png";
                 py "preview_scenario.png"; py "preview_architecture.png" ]).
Proof.
  pose proof main_cases as Hm.
  destruct Root._add_logo as [logo|] eqn:Hlogo.
  - destruct Hm as (ts & content & agenda & scenario & arch & Hts & Hc & Hlen
                    & Hall & _ & _ & _ & ->).
    cbn [fst snd]. split.
    + intros Hno%add_logo_None. congruence.
    + intros _. eexists _, _. split; [reflexivity|].
      cbn [slide_width slide_height slides]. split_and!; try done.
      * cbn [length]. by rewrite Hlen.
      * assert (Hpic : ∀ sl title bullets,
          Root.build_content_slide title bullets = Some sl
          ∨ Root.build_title_slide = Some sl →
          length (filter is_picture (shapes sl))
          = if path_exists Root.LOGO_PATH then 1%nat else 0%nat).
        { intros sl title bullets Hsl.
          destruct (built_slide_shapes title bullets sl Hsl)
            as (base & logo' & -> & Hlogo' & Hbase & _).
          rewrite filter_app, Hbase, (left_id_L [] (++)).
          rewrite (add_logo_Some _ Hlogo').
          by destruct (path_exists Root.LOGO_PATH). }
        apply Forall_cons_2.
        -- apply (Hpic ts [] []). by right.
        -- eapply Forall_impl; [exact Hall|]. intros sl [sd Hsd].
           apply (Hpic sl (Root.sl_title sd) (Root.sl_bullets sd)).
           by left.
      * rewrite !saved_pngs_app, !generate_preview_saved. done.
  - split; [by intros _|].
    apply add_logo_None in Hlogo as [Hex Hload].
    intros [Hno|Hok]; congruence.
Qed.

(** ** The texts of a document slide *)

Section document_texts.
Context `{Platform}.

Lemma callout_boxes_texts (cr : Z) (bullets callouts : list str) :
  Slides.callout_boxes cr bullets callouts ≫= shape_texts = callouts.
Proof.
  unfold Slides.callout_boxes. destruct callouts as [|c callouts]; [done|].
  cbn [truthy]. generalize (Slides.callout_top_emu bullets). intros top.
  generalize (c :: callouts). clear. intros l.
  induction l as [|c l IH]; [done|].
  rewrite bind_cons, bind_app, IH. done.
Qed.

Lemma image_panel_texts (sd : Slides.slide_data) :
  Slides.image_panel sd ≫= shape_texts
  = match default [] (Slides.sd_images sd) with
    | [] => []
    | img_info :: _ =>
      if truthy (default [] (Slides.im_caption img_info))
      then [ default [] (Slides.im_caption img_info) ] else []
    end.
Proof.
  unfold Slides.image_panel.
  destruct (default [] (Slides.sd_images sd)) as [|img_info imgs]; [done|].
  cbv zeta. rewrite !bind_app.
  assert ((if path_exists (path_join REPO_ROOT (Slides.im_path img_info))
           then if picture_loads (path_join REPO_ROOT (Slides.im_path img_info))
                then [ picture (path_join REPO_ROOT (Slides.im_path img_info))
                         (Slides.SLIDE_W - Inches 3.6 + Inches 0.1)
                         (Inches 1.65 + Inches 0.1)
                         (Inches 3.2 - Inches 0.2) (Inches 4.4 - Inches 0.6) ]
                else []
           else []) ≫= shape_texts = []) as ->.
  { by destruct (path_exists (path_join REPO_ROOT (Slides.im_path img_info))),
       (picture_loads (path_join REPO_ROOT (Slides.im_path img_info))). }
  by destruct (truthy (default [] (Slides.im_caption img_info))).
Qed.

Lemma content_slide_texts (sd : Slides.slide_data) :
  slide_texts (Slides._build_content_slide sd)
  = [ Slides.sd_title sd ] ++ default [] (Slides.sd_bullets sd)
    ++ default [] (Slides.sd_callouts sd)
    ++ match default [] (Slides.sd_images sd) with
       | [] => []
       | img_info :: _ =>
         if truthy (default [] (Slides.im_caption img_info))
         then [ default [] (Slides.im_caption img_info) ] else []
       end
    ++ [ Slides.FOOTER_TEXT ].
Proof.
  unfold slide_texts. rewrite build_content_slide_shapes. cbv zeta.
  rewrite !bind_app, bullet_boxes_texts, callout_boxes_texts,
    image_panel_texts.
  done.
Qed.

End document_texts.

(** X17.  A document slide shows, for a descriptor whose layout is not
    "title" (an unknown layout included): the title, every bullet and every
    callout as it is given, once and in order, the caption of the first
    image when it has one (further images are not looked at; the caption is
    shown also when the image file is absent), and the footer text.  For the
    layout "title" it shows four fixed texts whatever the descriptor
    carries; for the descriptors of the deck the fixed texts are the title,
    the subtitle and the tag of the descriptor followed by
    "Inspektor Gadget". *)
Theorem X17_document_slide_texts `{Platform} (sd : Slides.slide_data) :
  let texts := slide_texts (Slides.build_slide sd) in
  let fixed := [ py "Ask and You Shall Debug:";
                 py "Conversational Troubleshooting for Kubernetes";
                 py "SCaLE"; py "Inspektor Gadget" ] in
  (Slides.sd_layout sd = py "title" → texts = fixed)
  ∧ (Slides.sd_layout sd ≠ py "title" →
     texts
     = [ Slides.sd_title sd ] ++ default [] (Slides.sd_bullets sd)
       ++ default [] (Slides.sd_callouts sd)
       ++ match default [] (Slides.sd_images sd) with
          | [] => []
          | img_info :: _ =>
            if truthy (default [] (Slides.im_caption img_info))
            then [ default [] (Slides.im_caption img_info) ] else []
          end
       ++ [ Slides.FOOTER_TEXT ])
  ∧ Forall (λ d, Slides.sd_layout d = py "title" →
              fixed
              = [ Slides.sd_title d ]
                ++ option_list (Slides.sd_subtitle d)
                ++ default []
                     (Slides.right_corner
                        (default {| Slides.right_corner := None |}
                           (Slides.sd_meta d)))
                ++ [ py "Inspektor Gadget" ]) Slides.SLIDES.
Proof.
  cbv zeta. split_and!.
  - intros Hl. unfold Slides.build_slide. by rewrite decide_True.
  - intros Hl. unfold Slides.build_slide. rewrite decide_False by done.
    apply content_slide_texts.
  - apply Forall_forall. intros d Hd Hl.
    assert (Hone : filter (λ d, Slides.sd_layout d = py "title") Slides.SLIDES
                   = take 1 Slides.SLIDES) by by vm_compute.
    assert (Hin : d ∈ take 1 Slides.SLIDES).
    { rewrite <-Hone. by apply list_elem_of_filter. }
    clear Hd Hl Hone.
    change (take 1 Slides.SLIDES) with [ hd d Slides.SLIDES ] in Hin.
    apply list_elem_of_singleton in Hin. rewrite Hin. by vm_compute.
Qed.

(** ** The texts of a content preview *)

Section preview_texts.
Context `{Platform}.

Lemma draw_callout_list_texts cr y (callouts : list str) :
  drawn_texts (Slides.draw_callout_list cr y callouts).1 = callouts
  ∧ filter is_paste (Slides.draw_callout_list cr y callouts).1 = [].
Proof.
  revert y. induction callouts as [|c callouts IH]; intros y; [done|].
  cbn [Slides.draw_callout_list]. unfold Slides.draw_callout.
  destruct (IH (y + (48 + 10))) as [Ht Hp].
  destruct (Slides.draw_callout_list cr (y + (48 + 10)) callouts)
    as [ops y'].
  cbn [fst] in *. rewrite drawn_texts_app, filter_app, Ht, Hp. done.
Qed.

Lemma draw_callouts_texts cr y (callouts : list str) :
  drawn_texts (Slides.draw_callouts cr y callouts).1 = callouts
  ∧ filter is_paste (Slides.draw_callouts cr y callouts).1 = [].
Proof.
  unfold Slides.draw_callouts. destruct callouts as [|c callouts]; [done|].
  cbn [truthy]. apply draw_callout_list_texts.
Qed.

Lemma draw_lines_no_paste f x y lh fill (lines : list str) :
  filter is_paste (Slides.draw_lines f x y lh fill lines).1 = [].
Proof.
  revert y. induction lines as [|l lines IH]; intros y; [done|].
  cbn [Slides.draw_lines]. specialize (IH (y + lh)).
  destruct (Slides.draw_lines f x (y + lh) lh fill lines) as [ops y'].
  cbn [fst] in *. by rewrite filter_cons_False by (by intros []).
Qed.

Lemma draw_bullets_no_paste cr y (bullets : list str) :
  filter is_paste (Slides.draw_bullets cr y bullets).1 = [].
Proof.
  revert y. induction bullets as [|b bullets IH]; intros y; [done|].
  cbn [Slides.draw_bullets].
  assert (Hb : filter is_paste (Slides.draw_bullet cr y b).1 = []).
  { unfold Slides.draw_bullet, Slides._draw_wrapped_text. cbv zeta.
    pose proof (draw_lines_no_paste
      (if startswith b BULLET then Slides._load_font 22
       else Slides._load_font 26)
      (if startswith b BULLET then 70 else 45) y
      (Slides.line_height_or
         (if startswith b BULLET then Slides._load_font 22
          else Slides._load_font 26) (Some 36))
      (if startswith b BULLET then [75; 85; 99] else Slides.C_PRIMARY)
      (Slides.wrap_lines
         (if startswith b BULLET then Slides._load_font 22
          else Slides._load_font 26) b
         (cr - (if startswith b BULLET then 70 else 45) - 20))) as Hno.
    destruct (Slides.draw_lines _ _ _ _ _ _) as [ops y']. cbn [fst] in *.
    rewrite filter_app, Hno. by destruct (startswith b BULLET). }
  destruct (Slides.draw_bullet cr y b) as [ops y1]. specialize (IH y1).
  destruct (Slides.draw_bullets cr y1 bullets) as [ops' y2].
  cbn [fst] in *. by rewrite filter_app, Hb, IH.
Qed.

Lemma draw_image_panel_texts (sd : Slides.slide_data) :
  drawn_texts (Slides.draw_image_panel sd)
  = match default [] (Slides.sd_images sd) with
    | [] => []
    | img_info :: _ =>
      if truthy (default [] (Slides.im_caption img_info))
      then [ default [] (Slides.im_caption img_info) ] else []
    end
  ∧ filter is_paste (Slides.draw_image_panel sd) = [].
Proof.
  unfold Slides.draw_image_panel.
  destruct (default [] (Slides.sd_images sd)) as [|img_info imgs]; [done|].
  cbv zeta. rewrite drawn_texts_app, filter_app.
  by destruct (truthy (default [] (Slides.im_caption img_info))).
Qed.

Lemma content_preview_texts (sd : Slides.slide_data) :
  let ops := img_ops (Slides._render_content_slide sd) in
  let cr := Slides.content_right_px sd in
  drawn_texts ops
  = Slides.wrap_lines (Slides._load_font_bold 44) (Slides.sd_title sd)
      (cr - 40)
    ++ (default [] (Slides.sd_bullets sd) ≫= bullet_lines cr)
    ++ default [] (Slides.sd_callouts sd)
    ++ match default [] (Slides.sd_images sd) with
       | [] => []
       | img_info :: _ =>
         if truthy (default [] (Slides.im_caption img_info))
         then [ default [] (Slides.im_caption img_info) ] else []
       end
    ++ [ Slides.FOOTER_TEXT ]
  ∧ filter is_paste ops = [].
Proof.
  cbv zeta. rewrite render_content_slide_ops. cbv zeta. split.
  - rewrite !drawn_texts_app, draw_bullets_texts,
      (proj1 (draw_callouts_texts _ _ _)),
      (proj1 (draw_image_panel_texts sd)).
    unfold Slides._draw_wrapped_text. rewrite draw_lines_texts.
    assert (Hr : ∀ a b c d e f g,
              drawn_texts [rectangle a b c d e f g] = []) by done.
    rewrite !Hr, (left_id_L [] (++)), (right_id_L [] (++)).
    reflexivity.
  - rewrite !filter_app, draw_bullets_no_paste,
      (proj2 (draw_callouts_texts _ _ _)),
      (proj2 (draw_image_panel_texts sd)).
    unfold Slides._draw_wrapped_text. rewrite draw_lines_no_paste.
    reflexivity.
Qed.

Lemma bind_lines_words cr (bullets : list str) :
  (bullets ≫= bullet_lines cr) ≫= split = bullets ≫= split.
Proof.
  induction bullets as [|b bullets IH]; [done|].
  rewrite !bind_cons, bind_app, IH. f_equal.
  unfold bullet_lines. destruct (startswith b BULLET);
    apply wrap_lines_words.
Qed.

End preview_texts.

(** X18.  The preview of a content slide draws, in this order, the lines of
    the wrapped title, the lines of each wrapped bullet, the callouts as
    they are given, the caption of the first image when it has one, and the
    footer text.  Read word by word it shows the words of the document
    slide of the same descriptor, in the same order.  It never pastes a
    picture: the image panel of a preview is a placeholder. *)
Theorem X18_content_preview_shows_the_words_of_the_document `{Platform}
    (sd : Slides.slide_data) :
  let ops := img_ops (Slides._render_content_slide sd) in
  let cr := Slides.content_right_px sd in
  drawn_texts ops
  = Slides.wrap_lines (Slides._load_font_bold 44) (Slides.sd_title sd)
      (cr - 40)
    ++ (default [] (Slides.sd_bullets sd) ≫= bullet_lines cr)
    ++ default [] (Slides.sd_callouts sd)
    ++ match default [] (Slides.sd_images sd) with
       | [] => []
       | img_info :: _ =>
         if truthy (default [] (Slides.im_caption img_info))
         then [ default [] (Slides.im_caption img_info) ] else []
       end
    ++ [ Slides.FOOTER_TEXT ]
  ∧ drawn_texts ops ≫= split
    = slide_texts (Slides._build_content_slide sd) ≫= split
  ∧ filter is_paste ops = [].
Proof.
  cbv zeta. destruct (content_preview_texts sd) as [Ht Hp].
  split_and!; [exact Ht| |exact Hp].
  rewrite Ht, content_slide_texts, !bind_app, bind_lines_words,
    wrap_lines_words.
  change ([Slides.sd_title sd] ≫= split)
    with (split (Slides.sd_title sd) ++ []).
  by rewrite (right_id_L [] (++)).
Qed.

(** * Bullets on the slide, in both paths *)

Section bullets_on_the_slide.
Context `{Platform}.
Implicit Types (bullets : list str) (b : str) (cr y : Z).

(** A text wraps to no line exactly when it has no word. *)
Lemma wrap_lines_nil (f : font) (s : str) (max_width : Z) :
  Slides.wrap_lines f s max_width = [] ↔ split s = [].
Proof.
  pose proof (wrap_lines_words f s max_width) as Hwords.
  pose proof (length_bind_split _ (wrap_lines_tidy f s max_width)) as Hlen.
  rewrite Hwords in Hlen. split.
  - intros Hl. by rewrite Hl in Hwords.
  - intros Hs. rewrite Hs in Hlen.
    by destruct (Slides.wrap_lines f s max_width); [|simpl in Hlen; lia].
Qed.

Lemma bullet_lines_nil cr b : bullet_lines cr b = [] ↔ split b = [].
Proof.
  unfold bullet_lines. destruct (startswith b BULLET); apply wrap_lines_nil.
Qed.

(** With no blank entry every entry gives a line, and the lines are as
    many as the entries exactly when each entry gives one. *)
Lemma bullet_lines_count cr bullets :
  Forall (λ b, split b ≠ []) bullets →
  (length bullets ≤ length (bullets ≫= bullet_lines cr))%nat
  ∧ (length (bullets ≫= bullet_lines cr) = length bullets
     ↔ Forall (λ b, length (bullet_lines cr b) = 1%nat) bullets).
Proof.
  induction 1 as [|b bullets Hb _ [IHle IHeq]]; [done|].
  rewrite bind_cons, length_app. cbn [length].
  assert (1 ≤ length (bullet_lines cr b))%nat as Hone.
  { destruct (bullet_lines cr b) eqn:Hl; [|simpl; lia].
    by apply bullet_lines_nil in Hl. }
  split; [lia|]. rewrite Forall_cons, <-IHeq. lia.
Qed.

Lemma bullet_lines_one_each cr bullets :
  Forall (λ b, length (bullet_lines cr b) = 1%nat) bullets →
  length (bullets ≫= bullet_lines cr) = length bullets.
Proof.
  induction 1 as [|b bullets Hb _ IH]; [done|].
  rewrite bind_cons, length_app, Hb, IH. done.
Qed.

(** A sub-bullet starts with a character that is no whitespace, so it has
    a word. *)
Lemma sub_bullet_has_word b : startswith b BULLET = true → split b ≠ [].
Proof.
  intros Hb Hs. apply split_nil in Hs.
  destruct b as [|c b]; [done|]. apply Forall_cons in Hs as [Hc _].
  unfold BULLET in Hb. cbn [startswith] in Hb.
  apply andb_true_iff in Hb as [Hc' _].
  apply N.eqb_eq in Hc' as <-. done.
Qed.

(** The box of each bullet, entry by entry. *)
Lemma bullet_boxes_each (P : str → shape → Prop) cr bullets :
  (∀ i b, P b (Slides.bullet_box cr i b)) →
  Forall2 P bullets (Slides.bullet_boxes cr bullets).
Proof.
  unfold Slides.bullet_boxes. generalize (Slides.bullet_box cr).
  induction bullets as [|b bullets IH]; intros g Hg; [constructor|].
  rewrite imap_cons. constructor; [apply Hg|]. apply IH. intros i. apply Hg.
Qed.

(** The box of bullet [i] is the shape of index [3 + i] of the slide. *)
Lemma bullet_box_on_slide (sd : Slides.slide_data) (i : nat) b :
  default [] (Slides.sd_bullets sd) !! i = Some b →
  shapes (Slides._build_content_slide sd) !! (3 + i)%nat
  = Some (Slides.bullet_box (Slides.content_right_emu sd) i b).
Proof.
  intros Hi. rewrite build_content_slide_shapes. cbv zeta.
  cbn [app Nat.add lookup list_lookup].
  apply lookup_app_l_Some. unfold Slides.bullet_boxes.
  by rewrite list_lookup_imap, Hi.
Qed.

(** What a sub-bullet draws: its lines, at least one, all at column 70. *)
Lemma draw_sub_bullet cr y b :
  startswith b BULLET = true →
  drawn_texts (Slides.draw_bullet cr y b).1
  = Slides.wrap_lines (Slides._load_font 22) b (cr - 70 - 20)
  ∧ drawn_texts (Slides.draw_bullet cr y b).1 ≠ []
  ∧ Forall (λ op, op_x op = 70 ∧ is_Some (op_text op))
      (Slides.draw_bullet cr y b).1.
Proof.
  intros Hb.
  assert (Ht : drawn_texts (Slides.draw_bullet cr y b).1
               = Slides.wrap_lines (Slides._load_font 22) b (cr - 70 - 20)).
  { rewrite draw_bullet_texts. unfold bullet_lines. by rewrite Hb. }
  split_and!; [exact Ht| |].
  - rewrite Ht. intros Hnil%wrap_lines_nil.
    by apply (sub_bullet_has_word b Hb).
  - unfold Slides.draw_bullet. rewrite Hb. cbn [negb].
    pose proof (draw_wrapped_text_ops b (Slides._load_font 22) 70 y
      (cr - 70 - 20) [75; 85; 99] 36 eq_refl) as [_ Hops].
    destruct (Slides._draw_wrapped_text _ _ _ _ _ _ _). cbn [fst snd] in *.
    eapply Forall_impl; [exact Hops|]. simpl. by intros op (? & _ & ?).
Qed.

(** What a main bullet draws: its dot from column 29, then its lines at
    column 45. *)
Lemma draw_main_bullet cr y b :
  startswith b BULLET = false →
  ∃ texts,
    (Slides.draw_bullet cr y b).1
    = ellipse 29 (y + 10) 37 (y + 18) Slides.C_ACCENT :: texts
    ∧ drawn_texts texts
      = Slides.wrap_lines (Slides._load_font 26) b (cr - 45 - 20)
    ∧ Forall (λ op, op_x op = 45 ∧ is_Some (op_text op)) texts.
Proof.
  intros Hb. unfold Slides.draw_bullet. rewrite Hb. cbn [negb].
  pose proof (draw_wrapped_text_ops b (Slides._load_font 26) 45 y
    (cr - 45 - 20) Slides.C_PRIMARY 36 eq_refl) as [_ Hops].
  assert (Ht : drawn_texts
                 (Slides._draw_wrapped_text b (Slides._load_font 26) 45 y
                    (cr - 45 - 20) Slides.C_PRIMARY (Some 36)).1
               = Slides.wrap_lines (Slides._load_font 26) b (cr - 45 - 20)).
  { unfold Slides._draw_wrapped_text. apply draw_lines_texts. }
  destruct (Slides._draw_wrapped_text _ _ _ _ _ _ _) as [ops y'].
  cbn [fst snd] in *. exists ops. split_and!; [done|done|].
  eapply Forall_impl; [exact Hops|]. simpl. by intros op (? & _ & ?).
Qed.

(** The texts of the bullets of a preview, with the column each is wrapped
    to written out. *)
Lemma draw_bullets_wrapped cr y bullets :
  drawn_texts (Slides.draw_bullets cr y bullets).1
  = bullets ≫= (λ b,
      if startswith b BULLET
      then Slides.wrap_lines (Slides._load_font 22) b (cr - 70 - 20)
      else Slides.wrap_lines (Slides._load_font 26) b (cr - 45 - 20)).
Proof. rewrite draw_bullets_texts. done. Qed.

End bullets_on_the_slide.

(** C2 (amended).  For a descriptor with layout [title_and_bullets]: the
    document path adds one text box per entry of [bullets], carrying the
    entries in order; the preview path draws each entry as the lines of its
    word wrap, so the number of bullet lines drawn is the sum of the line
    counts of the entries.  A blank entry draws no line and any other entry
    at least one; the lines are as many as the entries when every entry
    wraps to one line, and, when no entry is blank, only then.  The older
    generator puts one run per entry into its text frame and draws one line
    per entry in its preview. *)
Theorem C2_bullet_lines_per_path `{Platform} (sd : Slides.slide_data) :
  Slides.sd_layout sd = py "title_and_bullets" →
  let bullets := default [] (Slides.sd_bullets sd) in
  let boxes := Slides.bullet_boxes (Slides.content_right_emu sd) bullets in
  let cr := Slides.content_right_px sd in
  let ops :=
    (Slides.draw_bullets cr (Slides.TITLE_STRIP_H + 24) bullets).1 in
  (∃ pre post, shapes (Slides.build_slide sd) = pre ++ boxes ++ post)
  ∧ length boxes = length bullets
  ∧ boxes ≫= shape_texts = bullets
  ∧ (∃ pre post, img_ops (Slides.render_preview sd) = pre ++ ops ++ post)
  ∧ drawn_texts ops = bullets ≫= bullet_lines cr
  ∧ length (drawn_texts ops) = sum_list (length ∘ bullet_lines cr <$> bullets)
  ∧ Forall (λ b, bullet_lines cr b = [] ↔ split b = []) bullets
  ∧ (Forall (λ b, length (bullet_lines cr b) = 1%nat) bullets →
     length (drawn_texts ops) = length bullets)
  ∧ (Forall (λ b, split b ≠ []) bullets →
     (length bullets ≤ length (drawn_texts ops))%nat
     ∧ (length (drawn_texts ops) = length bullets
        ↔ Forall (λ b, length (bullet_lines cr b) = 1%nat) bullets))
  ∧ (∀ left top width height,
       length (shape_texts (Root._add_bullets bullets left top width height))
       = length bullets)
  ∧ (∀ font_body y,
       length (Root.preview_bullets font_body y bullets) = length bullets).
Proof.
  intros Hl. cbv zeta. destruct (content_layout_dispatch sd Hl) as [-> ->].
  split_and!.
  - unfold Slides._build_content_slide. eexists _, _. reflexivity.
  - apply length_imap.
  - apply bullet_boxes_texts.
  - rewrite render_content_slide_ops. by eexists _, _.
  - apply draw_bullets_texts.
  - rewrite draw_bullets_texts. apply length_bind_lines.
  - apply Forall_forall. intros b _. apply bullet_lines_nil.
  - rewrite draw_bullets_texts. apply bullet_lines_one_each.
  - rewrite draw_bullets_texts. apply bullet_lines_count.
  - intros. apply add_bullets_texts.
  - intros. apply length_preview_bullets.
Qed.

(** C2 (amended) at the descriptor [demo], on the machine without fonts:
    its two bullets give two text boxes. *)
Lemma C2_demo_has_two_bullet_boxes :
  Slides.sd_layout demo = py "title_and_bullets"
  ∧ length (Slides.bullet_boxes (Slides.content_right_emu demo)
              [py "a"; py "b"]) = 2%nat.
Proof.
  split; [reflexivity|].
  exact (proj1 (proj2 (@C2_bullet_lines_per_path bare_machine demo eq_refl))).
Defined.

(** C4.  In one content slide, a sub-bullet (an entry that starts with the
    bullet character) is placed strictly to the right of a main bullet, in
    both paths.  In the document slide the text box of the sub-bullet, the
    shape after the three of the header and the boxes of the entries before
    it, starts 1.05 inches from the left edge, the one of the main bullet
    0.75 inch.  In the preview the calls of the bullets follow one another
    entry by entry; the sub-bullet draws its lines, at least one, all at
    column 70; the main bullet draws its dot from column 29 and then its
    lines at column 45; so every call drawn for the sub-bullet lies to the
    right of every call drawn for the main bullet. *)
Theorem C4_sub_bullets_indented_further `{Platform} (sd : Slides.slide_data)
    (i j : nat) (sub main : str) :
  let bullets := default [] (Slides.sd_bullets sd) in
  let cr := Slides.content_right_px sd in
  let y0 := Slides.TITLE_STRIP_H + 24 in
  bullets !! i = Some sub → bullets !! j = Some main →
  startswith sub BULLET = true → startswith main BULLET = false →
  (∃ b1 b2,
     shapes (Slides._build_content_slide sd) !! (3 + i)%nat = Some b1
     ∧ shapes (Slides._build_content_slide sd) !! (3 + j)%nat = Some b2
     ∧ shape_texts b1 = [sub] ∧ shape_texts b2 = [main]
     ∧ shape_left b1 = Inches 0.5 + Inches 0.55
     ∧ shape_left b2 = Inches 0.5 + Inches 0.25
     ∧ shape_left b2 < shape_left b1)
  ∧ (∃ pre post y1 y2,
       img_ops (Slides._render_content_slide sd)
       = pre
         ++ mjoin (zip_with (λ y b, (Slides.draw_bullet cr y b).1)
                     (bullet_tops cr y0 bullets) bullets)
         ++ post
       ∧ bullet_tops cr y0 bullets !! i = Some y1
       ∧ bullet_tops cr y0 bullets !! j = Some y2
       ∧ drawn_texts (Slides.draw_bullet cr y1 sub).1
         = Slides.wrap_lines (Slides._load_font 22) sub (cr - 70 - 20)
       ∧ drawn_texts (Slides.draw_bullet cr y1 sub).1 ≠ []
       ∧ Forall (λ op, op_x op = 70 ∧ is_Some (op_text op))
           (Slides.draw_bullet cr y1 sub).1
       ∧ (∃ texts,
            (Slides.draw_bullet cr y2 main).1
            = ellipse 29 (y2 + 10) 37 (y2 + 18) Slides.C_ACCENT :: texts
            ∧ drawn_texts texts
              = Slides.wrap_lines (Slides._load_font 26) main (cr - 45 - 20)
            ∧ Forall (λ op, op_x op = 45 ∧ is_Some (op_text op)) texts)
       ∧ Forall (λ o1,
                   Forall (λ o2, op_x o2 < op_x o1)
                     (Slides.draw_bullet cr y2 main).1)
           (Slides.draw_bullet cr y1 sub).1).
Proof.
  cbv zeta. intros Hi Hj Hsub Hmain. split.
  - eexists _, _.
    split; [by apply bullet_box_on_slide|].
    split; [by apply bullet_box_on_slide|].
    unfold Slides.bullet_box. rewrite Hsub, Hmain.
    split_and!; [done|done|done|done|by vm_compute].
  - destruct (lookup_lt_is_Some_2
               (bullet_tops (Slides.content_right_px sd)
                  (Slides.TITLE_STRIP_H + 24)
                  (default [] (Slides.sd_bullets sd))) i) as [y1 Hy1].
    { rewrite length_bullet_tops. by eapply lookup_lt_Some. }
    destruct (lookup_lt_is_Some_2
               (bullet_tops (Slides.content_right_px sd)
                  (Slides.TITLE_STRIP_H + 24)
                  (default [] (Slides.sd_bullets sd))) j) as [y2 Hy2].
    { rewrite length_bullet_tops. by eapply lookup_lt_Some. }
    destruct (draw_sub_bullet (Slides.content_right_px sd) y1 sub Hsub)
      as (Ht1 & Hne1 & Hx1).
    destruct (draw_main_bullet (Slides.content_right_px sd) y2 main Hmain)
      as (texts & Hops2 & Ht2 & Hx2).
    rewrite render_content_slide_ops. cbv zeta. rewrite draw_bullets_blocks.
    eexists _, _, y1, y2. split; [reflexivity|].
    split_and!; try done.
    + by exists texts.
    + eapply Forall_impl; [exact Hx1|]. simpl. intros o1 [Ho1 _].
      rewrite Hops2. constructor; [cbn [op_x]; lia|].
      eapply Forall_impl; [exact Hx2|]. simpl. intros o2 [Ho2 _]. lia.
Qed.

(** C4 at the slide "what-is-a-gadget", on the machine without fonts: the
    sub-bullet at index 2 is the sixth shape of the slide and starts to the
    right of the main bullet at index 1, the fifth shape; in the preview it
    draws a line, and all it draws lies to the right of what the main
    bullet draws. *)
Lemma C4_gadget_slide_sub_bullet_right_of_main :
  default [] (Slides.sd_bullets gadget_slide) !! 2%nat
    = Some (py "• trace_dns (DNS requests/responses + latency)")
  ∧ default [] (Slides.sd_bullets gadget_slide) !! 1%nat
    = Some (py "Examples we'll use today:")
  ∧ (∃ b1 b2,
       shapes (@Slides._build_content_slide bare_machine gadget_slide)
         !! 5%nat = Some b1
       ∧ shapes (@Slides._build_content_slide bare_machine gadget_slide)
           !! 4%nat = Some b2
       ∧ shape_texts b1
         = [ py "• trace_dns (DNS requests/responses + latency)" ]
       ∧ shape_texts b2 = [ py "Examples we'll use today:" ]
       ∧ shape_left b1 = Inches 0.5 + Inches 0.55
       ∧ shape_left b2 = Inches 0.5 + Inches 0.25
       ∧ shape_left b2 < shape_left b1)
  ∧ (∃ y1 y2,
       drawn_texts
         (@Slides.draw_bullet bare_machine (Slides.content_right_px gadget_slide)
            y1 (py "• trace_dns (DNS requests/responses + latency)")).1 ≠ []
       ∧ Forall (λ o1,
                   Forall (λ o2, op_x o2 < op_x o1)
                     (@Slides.draw_bullet bare_machine
                        (Slides.content_right_px gadget_slide) y2
                        (py "Examples we'll use today:")).1)
           (@Slides.draw_bullet bare_machine
              (Slides.content_right_px gadget_slide) y1
              (py "• trace_dns (DNS requests/responses + latency)")).1).
Proof.
  split; [reflexivity|]. split; [reflexivity|].
  destruct (@C4_sub_bullets_indented_further bare_machine gadget_slide
              2 1 _ _ eq_refl eq_refl eq_refl eq_refl)
    as [Hdoc (pre & post & y1 & y2 & _ & _ & _ & _ & Hne & _ & _ & Hall)].
  split; [exact Hdoc|]. exists y1, y2. split; [exact Hne|exact Hall].
Defined.

(** C5.  When the descriptor has no images (the key is absent or the list
    is empty) no panel is reserved, in both paths.  The document slide is
    made of the header, the boxes of the bullets and of the callouts laid
    out up to 0.5 inch before the right edge of the slide, and the footer,
    with no shape of a panel; there is one box per bullet, as wide as the
    slide less that margin, the fixed 0.6 inch and its own indent, ending
    0.6 inch before the right edge.  The preview is made of the header, the
    bullets and the callouts laid out up to 40 pixels before the right edge
    of the canvas, and the footer, with no call of a panel; each bullet is
    drawn as the lines of its wrap to the canvas width less 40, less its own
    offset, less 20. *)
Theorem C5_no_images_full_content_width `{Platform} (sd : Slides.slide_data) :
  default [] (Slides.sd_images sd) = [] →
  let bullets := default [] (Slides.sd_bullets sd) in
  let callouts := default [] (Slides.sd_callouts sd) in
  let cr_emu := Slides.SLIDE_W - Inches 0.5 in
  let cr_px := Slides.PX_W - 40 in
  let b := Slides.draw_bullets cr_px (Slides.TITLE_STRIP_H + 24) bullets in
  Slides.content_right_emu sd = cr_emu
  ∧ Slides.content_right_px sd = cr_px
  ∧ shapes (Slides._build_content_slide sd)
    = [ Slides._add_rect (Inches 0) (Inches 0) Slides.SLIDE_W (Inches 1.5)
          Slides.PRIMARY;
        Slides._add_text_box (Inches 0.4) (Inches 0.2) (cr_emu - Inches 0.4)
          (Inches 1.1) (Slides.sd_title sd) (Slides.TITLE_PT - 4) true
          (Some Slides.WHITE) LEFT false;
        Slides._add_accent_bar ]
      ++ Slides.bullet_boxes cr_emu bullets
      ++ Slides.callout_boxes cr_emu bullets callouts
      ++ [ Slides._add_footer ]
  ∧ Forall2 (λ bullet box,
               shape_texts box = [bullet]
               ∧ shape_width box
                 = Slides.SLIDE_W - Inches 0.5 - Inches 0.6
                   - (shape_left box - Inches 0.5)
               ∧ shape_left box + shape_width box
                 = Slides.SLIDE_W - Inches 0.6)
      bullets (Slides.bullet_boxes cr_emu bullets)
  ∧ img_ops (Slides._render_content_slide sd)
    = ([ rectangle 0 0 Slides.PX_W Slides.TITLE_STRIP_H
           (Some Slides.C_PRIMARY) None 1 ]
       ++ (Slides._draw_wrapped_text (Slides.sd_title sd)
             (Slides._load_font_bold 44) 30 18 (cr_px - 40) Slides.C_WHITE
             (Some 52)).1
       ++ [ rectangle 40 (Slides.TITLE_STRIP_H + 4) (cr_px - 20)
              (Slides.TITLE_STRIP_H + 8) (Some Slides.C_ACCENT) None 1 ])
      ++ b.1
      ++ (Slides.draw_callouts cr_px b.2 callouts).1
      ++ [ line 30 (Slides.PX_H - 36) (Slides.PX_W - 30) (Slides.PX_H - 36)
             [229; 231; 235] 1;
           text (Slides.PX_W / 2) (Slides.PX_H - 26) Slides.FOOTER_TEXT
             (Slides._load_font 14) Slides.C_MID_GRAY (Some (py "mm")) ]
  ∧ drawn_texts b.1
    = bullets ≫= (λ bullet,
        if startswith bullet BULLET
        then Slides.wrap_lines (Slides._load_font 22) bullet
               (Slides.PX_W - 40 - 70 - 20)
        else Slides.wrap_lines (Slides._load_font 26) bullet
               (Slides.PX_W - 40 - 45 - 20))
  ∧ Slides.image_panel sd = []
  ∧ Slides.draw_image_panel sd = [].
Proof.
  intros Hi. cbv zeta.
  destruct (no_images_no_panel sd Hi) as (Hno & Hpanel & Hdraw).
  assert (Hemu : Slides.content_right_emu sd = Slides.SLIDE_W - Inches 0.5)
    by (unfold Slides.content_right_emu; by rewrite Hno).
  assert (Hpx : Slides.content_right_px sd = Slides.PX_W - 40)
    by (unfold Slides.content_right_px; by rewrite Hno).
  split_and!; [done|done| | | | |done|done].
  - rewrite build_content_slide_shapes. cbv zeta.
    by rewrite Hemu, Hpanel.
  - apply bullet_boxes_each. intros i bullet. unfold Slides.bullet_box.
    destruct (startswith bullet BULLET); by vm_compute.
  - rewrite render_content_slide_ops. cbv zeta.
    by rewrite Hpx, Hdraw.
  - apply draw_bullets_wrapped.
Qed.

(** C5 at the descriptor [demo], which has no images: on the machine
    without fonts its two bullets are drawn over the full width, one line
    each. *)
Lemma C5_demo_has_full_width :
  default [] (Slides.sd_images demo) = []
  ∧ Slides.content_right_emu demo = Slides.SLIDE_W - Inches 0.5
  ∧ Slides.content_right_px demo = Slides.PX_W - 40.
Proof.
  split; [reflexivity|].
  pose proof (@C5_no_images_full_content_width bare_machine demo eq_refl)
    as (He & Hp & _).
  exact (conj He Hp).
Defined.
